(** * sphinx-docfx-yaml: the documentation object model builder

    A shallow embedding of [docfx_yaml/extension.py] (symbol records, the
    registry, the hierarchy linker and the inheritance resolver) and of
    [docfx_yaml/monkeypatch.py] (the field data normalizer and the
    post-processing of the extracted data block), followed by the
    properties of the specification that concern them.

    Python dictionaries used as maps are [gmap]s; dictionaries used as
    structures with a fixed set of keys are records whose optional keys
    are [option] fields; exceptions are values of [result]. *)

From Stdlib Require Import String Ascii ZArith List Lia.
From stdpp Require Import base option list strings gmap.

Set Default Proof Using "Type".

(** ** Python primitives *)

Module Py.

(** The exceptions the modelled code can raise. *)
Inductive exn : Type :=
  KeyError | TypeError | IndexError | AssertionError | ExtensionError
| AttributeError | OSError.

(** A computation that returns a value or raises. *)
Inductive result (A : Type) : Type :=
| Ok (a : A)
| Raise (e : exn).
Arguments Ok {A} a.
Arguments Raise {A} e.

#[export] Instance result_ret : MRet result := fun A a => Ok a.
#[export] Instance result_bind : MBind result := fun A B f m =>
  match m with
  | Ok a => f a
  | Raise e => Raise e
  end.

(** [d[k]] on a dictionary: a missing key raises [KeyError]. *)
Definition getitem {V : Type} (d : gmap string V) (k : string) : result V :=
  match d !! k with
  | Some v => Ok v
  | None => Raise KeyError
  end.

(** [d[k]] on a structure whose key [k] is optional. *)
Definition getkey {V : Type} (field : option V) : result V :=
  match field with
  | Some v => Ok v
  | None => Raise KeyError
  end.

(** [l[0]]. *)
Definition first {A : Type} (l : list A) : result A :=
  match l with
  | x :: _ => Ok x
  | [] => Raise IndexError
  end.

(** Truth value of a string, and of a value that may be [None]. *)
Definition truthy (s : string) : bool :=
  match s with
  | EmptyString => false
  | String _ _ => true
  end.

Definition truthy_opt (o : option string) : bool :=
  match o with
  | Some s => truthy s
  | None => false
  end.

(** [x in [a, b, ...]] on strings. *)
Definition str_in (x : string) (l : list string) : bool :=
  existsb (String.eqb x) l.

Definition newline : ascii := ascii_of_nat 10.

Definition is_dot (c : ascii) : bool := Ascii.eqb c ".".

(** [s.split('.')]: never empty, [''.split('.') = ['']]. *)
Fixpoint split_dot (s : string) : list string :=
  match s with
  | EmptyString => [EmptyString]
  | String c s' =>
      if is_dot c then EmptyString :: split_dot s'
      else match split_dot s' with
           | h :: t => String c h :: t
           | [] => [String c EmptyString]
           end
  end.

(** [sep.join(l)]. *)
Fixpoint join (sep : string) (l : list string) : string :=
  match l with
  | [] => EmptyString
  | [x] => x
  | x :: xs => x +:+ sep +:+ join sep xs
  end.

(** [l[:-k]] for [k > 0]: a list shorter than [k] gives []. *)
Definition drop_last {A : Type} (k : nat) (l : list A) : list A :=
  take (length l - k) l.

(** [l[-1]] of a list that [split] returned. *)
Definition last_segment (l : list string) : string :=
  List.last l EmptyString.

(** [re.split(' or[ \n]', s)]: the text between the leftmost
    non-overlapping matches of the four-character separator. [acc] is
    the text read since the last separator. *)
Fixpoint re_split_or_from (acc s : string) : list string :=
  match s with
  | EmptyString => [acc]
  | String c s' =>
      match c, s' with
      | " "%char, String "o" (String "r" (String d rest)) =>
          if Ascii.eqb d " " || Ascii.eqb d newline
          then acc :: re_split_or_from EmptyString rest
          else re_split_or_from (acc +:+ String c EmptyString) s'
      | _, _ => re_split_or_from (acc +:+ String c EmptyString) s'
      end
  end.

Definition re_split_or (s : string) : list string :=
  re_split_or_from EmptyString s.

(** [s.startswith('@') or s.startswith('~')]. *)
Definition starts_with_sigil (s : string) : bool :=
  match s with
  | String c _ => Ascii.eqb c "@" || Ascii.eqb c "~"
  | EmptyString => false
  end.

(** [s[1:]]. *)
Definition tail (s : string) : string :=
  match s with
  | String _ s' => s'
  | EmptyString => EmptyString
  end.

(** [s.rstrip('\n')]: every trailing newline goes. *)
Fixpoint rstrip_newline (s : string) : string :=
  match s with
  | EmptyString => EmptyString
  | String c s' =>
      match rstrip_newline s' with
      | EmptyString => if Ascii.eqb c newline then EmptyString
                       else String c EmptyString
      | r => String c r
      end
  end.

(** [needle in s]. *)
Fixpoint contains (needle s : string) : bool :=
  String.prefix needle s ||
  match s with
  | EmptyString => false
  | String _ s' => contains needle s'
  end.

(** A [str] is held as its UTF-8 text, and Python counts and cuts it
    by characters: a character is a byte that is no continuation byte
    (10xxxxxx), with the continuation bytes that follow it. *)
Definition is_continuation (c : ascii) : bool :=
  match c with
  | Ascii _ _ _ _ _ _ false true => true
  | _ => false
  end.

(** [len(s)]. *)
Fixpoint chars (s : string) : nat :=
  match s with
  | EmptyString => 0
  | String c s' => if is_continuation c then chars s' else S (chars s')
  end.

(** The first [k] characters of [s]. *)
Fixpoint take_chars (k : nat) (s : string) : string :=
  match s with
  | EmptyString => EmptyString
  | String c s' =>
      if is_continuation c then String c (take_chars k s')
      else match k with
           | 0 => EmptyString
           | S k' => String c (take_chars k' s')
           end
  end.

(** [s.rfind('.')], an index in characters, [-1] when there is no
    dot. [i] is the index of the next character. *)
Fixpoint rfind_dot_from (i : Z) (found : Z) (s : string) : Z :=
  match s with
  | EmptyString => found
  | String c s' =>
      if is_continuation c then rfind_dot_from i found s'
      else rfind_dot_from (i + 1) (if is_dot c then i else found) s'
  end.

Definition rfind_dot (s : string) : Z := rfind_dot_from 0 (-1) s.

(** [s[:i]] with Python's reading of a negative bound. *)
Definition slice_to (s : string) (i : Z) : string :=
  let n := Z.of_nat (chars s) in
  let stop := if (i <? 0)%Z then Z.max 0 (n + i) else Z.min i n in
  take_chars (Z.to_nat stop) s.

End Py.

Import Py.

(** ** [docfx_yaml/extension.py] *)

Module Extension.

(** [TYPE_MAPPING]: Python kind names to the categories DocFX expects. *)
Definition TYPE_MAPPING : gmap string string :=
  list_to_map
    [ ("method", "Method");
      ("function", "Method");
      ("module", "Namespace");
      ("class", "Class");
      ("exception", "Class");
      ("attribute", "Property") ].

(** The documented Python object, as far as this module inspects it:
    [__module__], [__name__], [__bases__] when the object has that
    attribute, and what [inspect] reports about its source. For
    [PyObj] the source is found: the file path (already made relative
    to the source root) and the first line. For [NoSource] it is not,
    and the three lines that ask for it raise [e]: [inspect] raises for
    a built-in class such as [object] and for the value of an
    attribute, and a file that is not found gives [None], on which
    [replace] raises. A class cannot be among its own ancestors, so the
    bases form a tree. *)
#[warnings="-register-all"]
Inductive pyobj : Type :=
| PyObj (obj_module obj_name : string) (obj_bases : option (list pyobj))
        (obj_path : string) (obj_startline : nat)
| NoSource (obj_module obj_name : string) (obj_bases : option (list pyobj))
           (e : exn).

Definition obj_module (o : pyobj) : string :=
  match o with PyObj m _ _ _ _ | NoSource m _ _ _ => m end.
Definition obj_name (o : pyobj) : string :=
  match o with PyObj _ n _ _ _ | NoSource _ n _ _ => n end.
Definition obj_bases (o : pyobj) : option (list pyobj) :=
  match o with PyObj _ _ b _ _ | NoSource _ _ b _ => b end.

(** [inspect.getsourcefile(obj)] with the two [replace] calls, and
    [inspect.getsourcelines(obj)[1]]. *)
Definition obj_path (o : pyobj) : result string :=
  match o with
  | PyObj _ _ _ p _ => Ok p
  | NoSource _ _ _ e => Raise e
  end.
Definition obj_startline (o : pyobj) : result nat :=
  match o with
  | PyObj _ _ _ _ l => Ok l
  | NoSource _ _ _ e => Raise e
  end.

(** The ['source'] block of a record. *)
Record source_block : Type := {
  remote_path : string;
  remote_branch : string;
  remote_repo : string;
  source_id : string;
  source_path : string;
  startLine : nat;
}.

(** A symbol record ([datam]). Keys that only some records carry are
    optional. *)
Record record : Type := Datam {
  module : string;
  uid : string;
  type : string;
  _type : string;
  name : string;
  fullName : string;
  summary : string;
  source : option source_block;
  class : option string;
  children : option (list string);
  langs : option (list string);
  inheritance : option (list string);
}.

Definition set_children (c : list string) (d : record) : record :=
  Datam (module d) (uid d) (type d) (_type d) (name d) (fullName d)
        (summary d) (source d) (class d) (Some c) (langs d) (inheritance d).

Definition set_inheritance (i : list string) (d : record) : record :=
  Datam (module d) (uid d) (type d) (_type d) (name d) (fullName d)
        (summary d) (source d) (class d) (children d) (langs d) (Some i).

(** [app.env]: the registry, the version-control metadata, and what has
    been printed so far. *)
Record env : Type := Env {
  docfx_yaml_modules : gmap string (list record);
  branch : string;
  remote : string;
  stdout : list string;
}.

Definition set_modules (m : gmap string (list record)) (app : env) : env :=
  Env m (branch app) (remote app) (stdout app).

Definition print (line : string) (app : env) : env :=
  Env (docfx_yaml_modules app) (branch app) (remote app)
      (stdout app ++ [line]).

(** [build_init]: a missing output setting is fatal, and the registry
    starts empty. [remote] and [branch] stand for what the two calls of
    git give once their output is cut ([split] at the tab and at the
    space, [strip]), the output being read as text, as where
    [check_output] returns a [str]. A call of git that fails, an output
    without a tab, and an output of [bytes], on which [split('\t')]
    raises [TypeError], are not part of this function: nothing below
    holds of a build in which [build_init] did not return. *)
Definition build_init (docfx_yaml_output remote branch : string)
  : result env :=
  if negb (truthy docfx_yaml_output) then Raise ExtensionError
  else Ok (Env ∅ branch remote []).

(** [_get_cls_module]: the owning class and module of a name. *)
Definition _get_cls_module (_type name : string)
  : option string * option string :=
  if str_in _type ["function"; "exception"] then
    (None, Some (join "." (drop_last 1 (split_dot name))))
  else if str_in _type ["method"; "attribute"] then
    (Some (join "." (drop_last 1 (split_dot name))),
     Some (join "." (drop_last 2 (split_dot name))))
  else if str_in _type ["class"] then
    (None, Some (join "." (drop_last 1 (split_dot name))))
  else if str_in _type ["module"] then
    (None, Some name)
  else (None, None).

(** [_create_datam]. The handler around the [TYPE_MAPPING] lookup
    catches [TypeError] only, and the calls of [inspect] stand outside
    it: what they raise leaves the function. *)
Definition _create_datam (app : env) (cls : option string)
    (module name _type : string) (obj : pyobj) (lines : list string)
  : result (record * env) :=
  '(mapped_type, app) ←
    match getitem TYPE_MAPPING _type with
    | Ok v => Ok (v, app)
    | Raise TypeError =>
        Ok (_type, print ("Invalid Type Mapping: " +:+ _type) app)
    | Raise e => Raise e
    end;
  let short_name := last_segment (split_dot name) in
  path ← obj_path obj;
  start_line ← obj_startline obj;
  Ok ({| module := module;
         uid := name;
         type := mapped_type;
         _type := _type;
         name := short_name;
         fullName := name;
         summary := join (String newline EmptyString) lines;
         source := Some {| remote_path := path;
                           remote_branch := branch app;
                           remote_repo := remote app;
                           source_id := short_name;
                           source_path := path;
                           startLine := start_line |};
         class := if truthy_opt cls then cls else None;
         children := if str_in _type ["class"; "module"] then Some []
                     else None;
         langs := None;
         inheritance := None |}, app).

(** [_fullname]. *)
Definition _fullname (obj : pyobj) : string :=
  obj_module obj +:+ "." +:+ obj_name obj.

(** [datam['inheritance'].append(x)], the key being present. *)
Definition append_inheritance (x : string) (d : record) : record :=
  set_inheritance (default [] (inheritance d) ++ [x]) d.

(** [insert_inheritance] (its [app] and [_type] arguments are not
    used): every base's full name, then that base's own bases, all
    into the one record. *)
Fixpoint insert_inheritance (obj : pyobj) (datam : record) : record :=
  match obj with
  | PyObj _ _ None _ _ | NoSource _ _ None _ => datam
  | PyObj _ _ (Some bases) _ _ | NoSource _ _ (Some bases) _ =>
      let datam :=
        match inheritance datam with
        | None => set_inheritance [] datam
        | Some _ => datam
        end in
      (fix each_base (bases : list pyobj) (datam : record) :=
         match bases with
         | [] => datam
         | base :: bases' =>
             each_base bases'
               (insert_inheritance base
                  (append_inheritance (_fullname base) datam))
         end) bases datam
  end.

(** [obj['children'].append(x)]. *)
Definition append_child (x : string) (obj : record) : result record :=
  c ← getkey (children obj);
  Ok (set_children (c ++ [x]) obj).

(** The loop of [insert_children] over the module's records: the
    first record that one of the three conditions accepts gets the
    new uid, and the loop breaks. *)
Fixpoint insert_children_loop (_type : string) (datam : record)
    (insert_module : list record) : result (list record) :=
  match insert_module with
  | [] => Ok []
  | obj :: rest =>
      is_member ←
        (if str_in _type ["method"; "attribute"]
            && String.eqb (Extension._type obj) "class"
         then cls ← getkey (class datam); Ok (String.eqb (uid obj) cls)
         else Ok false);
      if is_member : bool then
        obj' ← append_child (uid datam) obj; Ok (obj' :: rest)
      else if str_in _type ["function"]
              && String.eqb (Extension._type obj) "class"
              && String.eqb (name obj) (module datam +:+ ".Global")
      then obj' ← append_child (uid datam) obj; Ok (obj' :: rest)
      else if str_in _type ["class"; "exception"]
              && String.eqb (Extension._type obj) "module"
              && String.eqb (module obj) (module datam)
      then obj' ← append_child (uid datam) obj; Ok (obj' :: rest)
      else rest' ← insert_children_loop _type datam rest;
           Ok (obj :: rest')
  end.

(** [insert_children]. *)
Definition insert_children (app : env) (_type : string) (datam : record)
  : result env :=
  insert_module ← getitem (docfx_yaml_modules app) (module datam);
  insert_module' ← insert_children_loop _type datam insert_module;
  Ok (set_modules
        (<[module datam := insert_module']> (docfx_yaml_modules app)) app).

(** The synthetic holder of a module's functions. *)
Definition global_holder (module name : string) : record :=
  {| module := module;
     uid := module +:+ ".Global";
     type := "Class";
     _type := "class";
     name := last_segment (split_dot module) +:+ ".Global";
     fullName := name;
     summary := "Proxy object to hold module level functions";
     source := None;
     class := None;
     children := Some [];
     langs := Some ["python"];
     inheritance := None |}.

(** [process_docstring]. The record built here is the object that sits
    in the registry: [insert_inheritance] later changes it there, at
    the position where it was appended. *)
Definition process_docstring (app : env) (_type name : string)
    (obj : pyobj) (lines : list string) : result env :=
  let '(cls, module) := _get_cls_module _type name in
  if negb (truthy_opt module) then
    Ok (print ("Unknown Type: " +:+ _type) app)
  else
    let module := default EmptyString module in
    '(datam, app) ← _create_datam app cls module name _type obj lines;
    let before := default [] (docfx_yaml_modules app !! module) in
    let position := length before in
    let app :=
      set_modules
        (<[module := before ++ [datam]]> (docfx_yaml_modules app)) app in
    let app :=
      if String.eqb _type "module" then
        set_modules
          (alter (fun l => l ++ [global_holder module name]) module
                 (docfx_yaml_modules app)) app
      else app in
    app ← insert_children app _type datam;
    Ok (set_modules
          (alter (alter (insert_inheritance obj) position) module
                 (docfx_yaml_modules app)) app).

(** One discovery event ([options] is not used). *)
Record event : Type := Event {
  ev_type : string;
  ev_name : string;
  ev_obj : pyobj;
  ev_lines : list string;
}.

(** The host calls [process_docstring] once per event, in order. An
    exception ends the build: the state in which it is raised is not
    kept. *)
Fixpoint run (app : env) (events : list event) : result env :=
  match events with
  | [] => Ok app
  | e :: events' =>
      app' ← process_docstring app (ev_type e) (ev_name e) (ev_obj e)
                               (ev_lines e);
      run app' events'
  end.

(** What [build_finished] writes into a file: the dictionary of a
    module (its ['api_name'] is always the empty list), or the table of
    contents, a list of [{'name': ..., 'href': ...}]. The YAML text
    that [dump] makes of them is the library's. *)
Inductive yaml_file : Type :=
| module_file (items : list record)
| toc_file (toc_yaml : list (string * string)).

(** The files below the output directory, each under the path that is
    joined to the directory, and the progress messages (without their
    colours). *)
Record output : Type := Output {
  files : gmap string yaml_file;
  info : list string;
}.

(** The loop of [build_finished] over [iter_data.items()]. *)
Fixpoint build_finished_loop (verbosity : nat)
    (items : list (string * list record)) (out : output)
    (toc_yaml : list (string * string))
  : output * list (string * string) :=
  match items with
  | [] => (out, toc_yaml)
  | (filename, yaml_data) :: rest =>
      if negb (truthy filename) then
        build_finished_loop verbosity rest out toc_yaml
      else
        let out_file := filename +:+ ".yml" in
        let messages :=
          if 1 <? verbosity
          then info out ++ ["[docfx_yaml] Outputting " +:+ filename]
          else info out in
        build_finished_loop verbosity rest
          (Output (<[out_file := module_file yaml_data]> (files out))
                  messages)
          (toc_yaml ++ [(filename, filename +:+ ".yml")])
  end.

(** [build_finished]. [iter_items] is [app.env.docfx_yaml_modules.items()]
    in the order in which the dictionary gives its items. With a mode
    other than ['module'] the name [iter_data] is not bound where the
    loop reads it, and the function raises: [None]. *)
Definition build_finished (docfx_yaml_mode : string) (verbosity : nat)
    (iter_items : list (string * list record)) (out : output)
  : option output :=
  if String.eqb docfx_yaml_mode "module" then
    let '(out, toc_yaml) :=
      build_finished_loop verbosity iter_items out [] in
    Some (Output (<["toc.yml" := toc_file toc_yaml]> (files out)) (info out))
  else None.

End Extension.

(** ** [docfx_yaml/monkeypatch.py] *)

Module Monkeypatch.

(** What the normalizer asks of a rich-text node: its rendering by
    [utils.transform_node] (with [app] already supplied), its
    [astext()], and whether it is a [pending_xref]. The rendering
    engine itself is the host's. *)
Class RichText (node : Type) : Type := {
  transform_node : node → string;
  astext : node → string;
  is_pending_xref : node → bool;
}.

(** One descriptor of [parameters] or [variables]. An element of
    [type] can be [None]. *)
Record param : Type := Param {
  p_id : string;
  p_description : string;
  p_type : option (list (option string));
}.

(** One descriptor of [exceptions]. *)
Record exception_desc : Type := ExceptionDesc {
  e_type : string;
  e_description : option string;
}.

(** The ['return'] dictionary. *)
Record return_desc : Type := ReturnDesc {
  r_type : option (list string);
  r_description : option string;
}.

(** The dictionary [get_data_structure] fills; its four keys are
    always present. *)
Record data : Type := Data {
  parameters : list param;
  variables : list param;
  exceptions : list exception_desc;
  return_ : return_desc;
}.

(** The raw field list, as far as [extract_exception_desc] looks into
    it. *)
Inductive xref_child : Type :=
| literal (text : string)
| other_xref_child.

Inductive paragraph_child : Type :=
| pending_xref (reftarget : string) (children : list xref_child)
| other_paragraph_child.

Inductive body_child : Type :=
| invisible
| paragraph (children : list paragraph_child)
| other_body_child.

Record raw_field : Type := RawField {
  name_tagname : string;
  name_text : string;
  body_tagname : string;
  field_body : list body_child;
}.

Section normalizer.
Context {node : Type} `{RichText node}.

(** The content of an entry. Sphinx gives a grouped field type a list
    of [(argument, body)] pairs and any other field type one such
    pair. *)
Inductive content : Type :=
| grouped (items : list (string * list node))
| single (fieldarg : string) (body : list node).

(** An entry of [_hacked_transform]: an old field passed through, or
    a field type (of which only the name is read) with its
    content. *)
Inductive entry : Type :=
| field_node
| field_entry (fieldtype_name : string) (c : content).

(** Iterating the content as pairs, and indexing it as one pair; the
    other shape is not what these branches are given. *)
Definition as_items (c : content) : result (list (string * list node)) :=
  match c with
  | grouped items => Ok items
  | single _ _ => Raise TypeError
  end.

Definition as_body (c : content) : result (list node) :=
  match c with
  | single _ body => Ok body
  | grouped _ => Raise TypeError
  end.

(** [make_param]. *)
Definition make_param (_id _description : string)
    (_type : option (list (option string))) : param :=
  {| p_id := _id;
     p_description := _description;
     p_type := match _type with
               | Some (_ :: _) => _type
               | _ => None
               end |}.

(** [transform_para]. *)
Definition transform_para (para_field : node) : string :=
  if is_pending_xref para_field then transform_node para_field
  else astext para_field.

(** [node.first_child_matching_class(cls)] followed by the indexing
    with its result, for the two classes looked for. *)
Fixpoint first_pending_xref (children : list paragraph_child)
  : option (string * list xref_child) :=
  match children with
  | [] => None
  | pending_xref reftarget cs :: _ => Some (reftarget, cs)
  | other_paragraph_child :: rest => first_pending_xref rest
  end.

Fixpoint first_literal (children : list xref_child) : option string :=
  match children with
  | [] => None
  | literal text :: _ => Some text
  | other_xref_child :: rest => first_literal rest
  end.

Definition is_invisible (n : body_child) : bool :=
  match n with
  | invisible => true
  | _ => false
  end.

(** The [{'type': ..., 'desc': ...}] hits of one field body. *)
Fixpoint raises_of_children (children : list body_child)
  : list (string * string) :=
  match children with
  | [] => []
  | paragraph cs :: rest =>
      match first_pending_xref cs with
      | Some (reftarget, xs) =>
          match first_literal xs with
          | Some raise_type =>
              (reftarget, raise_type) :: raises_of_children rest
          | None => raises_of_children rest
          end
      | None => raises_of_children rest
      end
  | _ :: rest => raises_of_children rest
  end.

(** [extract_exception_desc]. *)
Fixpoint extract_exception_desc (field_object : list raw_field)
  : result (list (string * string)) :=
  match field_object with
  | [] => Ok []
  | field :: rest =>
      here ←
        (if String.eqb "field_name" (name_tagname field)
            && String.eqb (name_text field) "Raises"
         then
           if String.eqb (body_tagname field) "field_body" then
             Ok (raises_of_children
                   (filter (fun n => is_invisible n = false)
                           (field_body field)))
           else Raise AssertionError
         else Ok []);
      later ← extract_exception_desc rest;
      Ok (here ++ later)
  end.

(** The body of [for returntype in re.split(' or[ \n]', ...)]. *)
Definition returntype_candidate (returntype : string) : string :=
  let returntype :=
    if starts_with_sigil returntype then tail returntype
    else returntype in
  rstrip_newline returntype.

Definition append_return_type (x : string) (r : return_desc)
  : return_desc :=
  {| r_type := Some (default [] (r_type r) ++ [x]);
     r_description := r_description r |}.

(** The [returntype] branch for one node of [content[1]]. *)
Definition add_returntype (r : return_desc) (returntype_node : node)
  : return_desc :=
  let returntype_ret := transform_node returntype_node in
  if truthy returntype_ret then
    fold_left (fun r returntype =>
                 append_return_type (returntype_candidate returntype) r)
              (re_split_or returntype_ret) r
  else r.

(** The body of [for _s_type in re.split(' or[ \n]', _type)]. *)
Definition parameter_candidate (_s_type : string) : string :=
  if truthy _s_type && starts_with_sigil _s_type
  then rstrip_newline (tail _s_type)
  else _s_type.

(** The declared type of [field], when the type table has one. *)
Definition declared_type (fieldtypes : gmap string (list node))
    (field : string) : option string :=
  match fieldtypes !! field with
  | Some nodes => Some (String.concat EmptyString (map transform_para nodes))
  | None => None
  end.

(** [_para_types] of a parameter. *)
Definition parameter_types (_type : option string)
  : list (option string) :=
  if truthy_opt _type then
    map (fun _s_type => Some (parameter_candidate _s_type))
        (re_split_or (default EmptyString _type))
  else [].

(** [_para_types] of a variable. *)
Definition variable_types (_type : option string)
  : list (option string) := [_type].

(** One round of [for field, node_list in content]. *)
Definition add_field (fieldtype_name : string)
    (fieldtypes : gmap string (list node)) (d : data)
    (item : string * list node) : result data :=
  let '(field, node_list) := item in
  let _id := field in
  first_node ← first node_list;
  let _description := transform_node first_node in
  let _type := declared_type fieldtypes field in
  let d :=
    if String.eqb fieldtype_name "parameter" then
      let _data := make_param _id _description
                              (Some (parameter_types _type)) in
      Data (parameters d ++ [_data]) (variables d) (exceptions d)
           (return_ d)
    else d in
  let d :=
    if String.eqb fieldtype_name "variable" then
      let _data := make_param _id _description
                              (Some (variable_types _type)) in
      Data (parameters d) (variables d ++ [_data]) (exceptions d)
           (return_ d)
    else d in
  Ok d.

(** A loop whose body can raise. *)
Fixpoint for_each {A B : Type} (body : B → A → result B) (l : list A)
    (b : B) : result B :=
  match l with
  | [] => Ok b
  | x :: l' => b' ← body b x; for_each body l' b'
  end.

(** One round of [for entry in entries]. *)
Definition add_entry (types : gmap string (gmap string (list node)))
    (field_object : list raw_field) (d : data) (e : entry)
  : result data :=
  match e with
  | field_node => Ok d
  | field_entry fieldtype_name content =>
      let fieldtypes := default ∅ (types !! fieldtype_name) in
      d ← (if String.eqb fieldtype_name "exceptions" then
             items ← as_items content;
             for_each
               (fun d '(_type, _description) =>
                  first_node ← first _description;
                  Ok (Data (parameters d) (variables d)
                           (exceptions d ++
                              [ {| e_type := _type;
                                   e_description :=
                                     Some (transform_node first_node) |} ])
                           (return_ d)))
               items d
           else Ok d);
      d ← (if String.eqb fieldtype_name "returntype" then
             body ← as_body content;
             Ok (Data (parameters d) (variables d) (exceptions d)
                      (fold_left add_returntype body (return_ d)))
           else Ok d);
      d ← (if String.eqb fieldtype_name "returnvalue" then
             body ← as_body content;
             first_node ← first body;
             let returnvalue_ret := transform_node first_node in
             if truthy returnvalue_ret then
               Ok (Data (parameters d) (variables d) (exceptions d)
                        {| r_type := r_type (return_ d);
                           r_description := Some returnvalue_ret |})
             else Ok d
           else Ok d);
      if str_in fieldtype_name ["parameter"; "variable"] then
        items ← as_items content;
        d ← for_each (add_field fieldtype_name fieldtypes) items d;
        ret_list ← extract_exception_desc field_object;
        Ok (Data (parameters d) (variables d)
                 (exceptions d ++
                    map (fun ret => {| e_type := ret.1;
                                       e_description := None |}) ret_list)
                 (return_ d))
      else Ok d
  end.

(** [get_data_structure]. *)
Definition get_data_structure (entries : list entry)
    (types : gmap string (gmap string (list node)))
    (field_object : list raw_field) : result data :=
  for_each (add_entry types field_object) entries
           {| parameters := [];
              variables := [];
              exceptions := [];
              return_ := {| r_type := None; r_description := None |} |}.

End normalizer.

Arguments content : clear implicits.
Arguments entry : clear implicits.

(** An attribute captured from a nested [desc] node. *)
Record added_attribute : Type := AddedAttribute {
  a_uid : string;
  a_id : option string;
  a_parent : option string;
  a_class : option string;
  a_langs : list string;
  a_name : string;
  a_fullName : string;
  a_type : option string;
  a_module : option string;
  a_content : string;
  a_return_type : option (list string);
}.

(** A value of the data block that [transform_all] stores. *)
Inductive field_value : Type :=
| v_params (l : list param)
| v_exceptions (l : list exception_desc)
| v_return (r : return_desc)
| v_text (s : string)
| v_attributes (l : list added_attribute).

(** Python's truth value of such a value: an empty list, an empty
    dictionary and an empty string are false. *)
Definition is_true (v : field_value) : bool :=
  match v with
  | v_params l => negb (bool_decide (l = []))
  | v_exceptions l => negb (bool_decide (l = []))
  | v_return r =>
      match r_type r, r_description r with
      | None, None => false
      | _, _ => true
      end
  | v_text s => truthy s
  | v_attributes l => negb (bool_decide (l = []))
  end.

(** An item of a nested [desc] node. [item_ids] is its ['ids']: every
    docutils element has that key, so that the default of
    [item.get('ids', [''])] is never taken, and a signature without ids
    has the empty list. *)
Record desc_item : Type := DescItem {
  is_annotated_signature : bool;
  item_ids : list string;
  item_children_text : list string;
  item_text : string;
  item_module : option string;
}.

(** [data.update(_data)]. *)
Definition update (block : gmap string field_value) (_data : data)
  : gmap string field_value :=
  <["return" := v_return (return_ _data)]>
    (<["exceptions" := v_exceptions (exceptions _data)]>
       (<["variables" := v_params (variables _data)]>
          (<["parameters" := v_params (parameters _data)]> block))).

(** [for key, val in data.copy().items(): if not val: del data[key]]. *)
Definition drop_empty (block : gmap string field_value)
  : gmap string field_value :=
  map_fold (fun key val block =>
              if negb (is_true val) then delete key block else block)
           block block.

Section transformer.
Context {node : Type} `{RichText node}.

(** An immediate child of the node [transform_all] is given. A field
    list comes with what [_hacked_transform] made of it; an
    admonition with the text of its first child and with its copy
    without that child. *)
Inductive child : Type :=
| desc (desctype : option string) (items : list desc_item)
| field_list (entries : list (entry node))
             (types : gmap string (gmap string (list node)))
             (field_object : list raw_field)
| seealso (n : node)
| admonition (title : string) (n child_copy : node)
| other (n : node).

(** The record of one captured attribute. *)
Definition capture (is_enum : bool) (desctype : option string)
    (item : desc_item) : result added_attribute :=
  curuid ← first (item_ids item);
  let parent := slice_to curuid (rfind_dot curuid) in
  name ← first (item_children_text item);
  if is_enum then
    Ok {| a_uid := curuid; a_id := Some name; a_parent := Some parent;
          a_class := None; a_langs := ["python"]; a_name := name;
          a_fullName := curuid; a_type := desctype;
          a_module := item_module item; a_content := item_text item;
          a_return_type := Some [parent] |}
  else
    Ok {| a_uid := curuid; a_id := None; a_parent := None;
          a_class := Some parent; a_langs := ["python"]; a_name := name;
          a_fullName := curuid; a_type := Some "attribute";
          a_module := item_module item; a_content := item_text item;
          a_return_type := None |}.

Definition added_attributes (block : gmap string field_value)
  : result (list added_attribute) :=
  match block !! "added_attribute" with
  | Some (v_attributes l) => Ok l
  | Some _ => Raise TypeError
  | None => Ok []
  end.

(** One round of [for child in node], on the summary and the data
    block. *)
Definition add_child (is_enum : bool)
    (state : list string * gmap string field_value) (c : child)
  : result (list string * gmap string field_value) :=
  let '(summary, block) := state in
  let plain n :=
    let content := transform_node n in
    if negb (String.prefix "Bases: " content)
    then (summary ++ [content], block)
    else (summary, block) in
  match c with
  | desc desctype items =>
      if bool_decide (desctype = Some "attribute") then
        block ←
          for_each
            (fun block item =>
               if is_annotated_signature item then
                 sofar ← added_attributes block;
                 addedData ← capture is_enum desctype item;
                 Ok (<["added_attribute" :=
                         v_attributes (sofar ++ [addedData])]> block)
               else Ok block)
            items block;
        Ok (summary, block)
      else Ok (summary, block)
  | field_list entries types field_object =>
      _data ← get_data_structure entries types field_object;
      Ok (summary, update block _data)
  | seealso n =>
      Ok (summary, <["seealso" := v_text (transform_node n)]> block)
  | admonition title n child_copy =>
      if contains "Example" title then
        Ok (summary,
            <["example" := v_text (transform_node child_copy)]> block)
      else Ok (plain n)
  | other n => Ok (plain n)
  end.

(** [PatchedDocFieldTransformer.transform_all], up to the call of the
    method it overrides: the data block stored under [uid] in
    [env.docfx_info_field_data]. *)
Definition transform_all (is_enum : bool) (uid : option string)
    (children : list child)
    (docfx_info_field_data : gmap (option string)
                                  (gmap string field_value))
  : result (gmap (option string) (gmap string field_value)) :=
  '(summary, block) ← for_each (add_child is_enum) children ([], ∅);
  let block :=
    match summary with
    | [] => block
    | _ :: _ =>
        <["summary" :=
            v_text (join (String newline EmptyString) summary)]> block
    end in
  let block := drop_empty block in
  Ok (<[uid := block]> docfx_info_field_data).

End transformer.

Arguments child : clear implicits.

End Monkeypatch.

(** ** Definitions that follow the specification's words *)

Module Spec.
Import Extension Monkeypatch.

(** A dotted segment: a string without a dot. *)
Fixpoint dotless (s : string) : bool :=
  match s with
  | EmptyString => true
  | String c s' => negb (is_dot c) && dotless s'
  end.

(** The six kinds of a discovery event. *)
Definition kinds : list string :=
  ["module"; "class"; "method"; "function"; "attribute"; "exception"].

(** The three kind-specific rules of the hierarchy linker: [obj] can
    be the parent of the new record [datam] of kind [_type]. *)
Definition accepts (_type : string) (datam obj : record) : bool :=
  (str_in _type ["method"; "attribute"]
     && String.eqb (Extension._type obj) "class"
     && bool_decide (class datam = Some (uid obj)))
  || (str_in _type ["function"]
        && String.eqb (Extension._type obj) "class"
        && String.eqb (name obj) (module datam +:+ ".Global"))
  || (str_in _type ["class"; "exception"]
        && String.eqb (Extension._type obj) "module"
        && String.eqb (module obj) (module datam)).

(** How often [x] stands in the children lists of the records. *)
Definition occurrences (x : string) (l : list record) : nat :=
  length (filter (fun y => y = x)
                 (concat (map (fun r => default [] (children r)) l))).

(** Records that have the keys the linker reads: a class or a module
    has children; a method or an attribute knows its class. *)
Definition has_children (obj : record) : Prop :=
  str_in (_type obj) ["class"; "module"] = true → is_Some (children obj).

Definition knows_class (_type : string) (datam : record) : Prop :=
  str_in _type ["method"; "attribute"] = true → is_Some (class datam).

(** A registry whose records have the keys the linker reads. *)
Definition well_formed (modules : gmap string (list record)) : Prop :=
  ∀ (module : string) (records : list record),
    modules !! module = Some records → Forall has_children records.

(** The ancestors of an object in depth-first order over the declared
    bases, each base before its own bases. *)
Fixpoint ancestors (obj : pyobj) : list string :=
  match obj with
  | PyObj _ _ None _ _ | NoSource _ _ None _ => []
  | PyObj _ _ (Some bases) _ _ | NoSource _ _ (Some bases) _ =>
      (fix of_bases (bases : list pyobj) : list string :=
         match bases with
         | [] => []
         | base :: bases' =>
             (_fullname base :: ancestors base) ++ of_bases bases'
         end) bases
  end.

(** The bases of a class at the head of a chain of single
    inheritance: the first class of the list, whose bases are the
    rest of the chain. *)
Fixpoint chain (classes : list (string * string)) : list pyobj :=
  match classes with
  | [] => []
  | (m, n) :: rest => [PyObj m n (Some (chain rest)) EmptyString 0]
  end.

(** [return.type] as the specification words it: every entry's text
    split at the separator, each candidate without its sigil and its
    trailing newlines, all in order. *)
Definition return_types_by_the_words (texts : list string) : list string :=
  concat (map (fun text => map returntype_candidate (re_split_or text))
              texts).

(** [return.description] as the specification words it: the normalized
    description of the last occurrence. *)
Definition return_description_by_the_words (texts : list string)
  : option string := last texts.

Section candidates.
Context {node : Type} `{RichText node}.

(** The candidates one [returntype] body contributes. *)
Definition returntype_candidates (body : list node) : list string :=
  concat (map (fun n =>
                 if truthy (transform_node n)
                 then map returntype_candidate
                          (re_split_or (transform_node n))
                 else [])
              body).

(** Appending candidates to the ['return'] dictionary. *)
Definition with_types (r : return_desc) (l : list string) : return_desc :=
  match l with
  | [] => r
  | _ :: _ => {| r_type := Some (default [] (r_type r) ++ l);
                 r_description := r_description r |}
  end.

(** The description that survives several [returnvalue] entries. *)
Definition surviving_description (before : option string)
    (bodies : list node) : option string :=
  match last (filter (fun text => truthy text = true)
                     (map transform_node bodies)) with
  | Some text => Some text
  | None => before
  end.

(** A [returntype] entry and a [returnvalue] entry. *)
Definition returntype_entry (body : list node) : entry node :=
  field_entry "returntype" (single EmptyString body).

Definition returnvalue_entry (body : node) : entry node :=
  field_entry "returnvalue" (single EmptyString [body]).
End candidates.

(** Nodes that are their own text: a rendering engine that returns
    the text unchanged. *)
#[export] Instance plain_text : RichText string :=
  {| transform_node := fun text => text;
     astext := fun text => text;
     is_pending_xref := fun _ => false |}.

(** A line that ends with a newline. *)
Definition line (text : string) : string :=
  text +:+ String newline EmptyString.

(** One optional list, later: the same, or longer at its end. *)
Definition extends_opt (before after : option (list string)) : Prop :=
  after = before ∨ ∃ more, after = Some (default [] before ++ more).

(** A record, later in the run: the same record, whose children and
    inheritance may have become longer at their end. *)
Definition grown (r r' : record) : Prop :=
  ∃ c i,
    r' = Datam (module r) (uid r) (type r) (_type r) (name r) (fullName r)
               (summary r) (source r) (class r) c (langs r) i
    ∧ extends_opt (children r) c
    ∧ extends_opt (inheritance r) i.

(** A registry in which every record is kept under its own module, no
    module name is empty and no module has an empty list. *)
Definition filed (modules : gmap string (list record)) : Prop :=
  ∀ (key : string) (records : list record),
    modules !! key = Some records →
    truthy key = true ∧ records ≠ []
    ∧ Forall (fun r => module r = key) records.

(** The records a resolved event appends to its module. *)
Definition appended (_type module name : string) (datam : record)
  : list record :=
  datam :: (if String.eqb _type "module" then [global_holder module name]
            else []).

(** An object whose source [inspect] finds, and an event that asks
    [inspect] for nothing it does not find: an event that is not
    resolved does not ask. *)
Definition has_source (obj : pyobj) : bool :=
  match obj with
  | PyObj _ _ _ _ _ => true
  | NoSource _ _ _ _ => false
  end.

Definition inspectable (e : event) : bool :=
  negb (truthy_opt (_get_cls_module (ev_type e) (ev_name e)).2)
  || has_source (ev_obj e).

(** The records an event files under [key], as they are built: none
    when the event is resolved to another module or to none. *)
Definition registered (app : env) (e : event) (key : string) : list record :=
  match _get_cls_module (ev_type e) (ev_name e) with
  | (cls, Some m) =>
      if truthy m && String.eqb m key then
        match _create_datam app cls m (ev_name e) (ev_type e) (ev_obj e)
                            (ev_lines e) with
        | Ok (datam, _) => appended (ev_type e) m (ev_name e) datam
        | Raise _ => []
        end
      else []
  | (_, None) => []
  end.

(** Every uid in a children list is the uid of a record further down
    the list. *)
Fixpoint children_follow (l : list record) : bool :=
  match l with
  | [] => true
  | r :: rest =>
      forallb (fun c => str_in c (map uid rest)) (default [] (children r))
      && children_follow rest
  end.

(** A registry in which every list has its children behind their
    parents. *)
Definition all_follow (modules : gmap string (list record)) : Prop :=
  ∀ (key : string) (records : list record),
    modules !! key = Some records → children_follow records = true.

(** What a computation returned, [d] standing for an exception. *)
Definition returned {A : Type} (d : A) (r : result A) : A :=
  match r with
  | Ok a => a
  | Raise _ => d
  end.

(** A text whose last character is a newline. *)
Fixpoint ends_with_newline (s : string) : bool :=
  match s with
  | EmptyString => false
  | String c EmptyString => Ascii.eqb c newline
  | String _ s' => ends_with_newline s'
  end.

(** A ['return'] dictionary whose types, if it has the key, are a list
    that is not empty of texts that do not end with a newline. *)
Definition stripped (r : return_desc) : Prop :=
  r_type r ≠ Some []
  ∧ Forall (fun t => ends_with_newline t = false) (default [] (r_type r)).

(** An exception descriptor without the description key, and the
    descriptors made of the targets that [extract_exception_desc]
    found. *)
Definition no_description (x : exception_desc) : bool :=
  match e_description x with
  | None => true
  | Some _ => false
  end.

Definition raised (raises : list (string * string)) : list exception_desc :=
  map (fun ret => ExceptionDesc ret.1 None) raises.

Section fields.
Context {node : Type}.

(** The field names of the entries of one field type, in order. *)
Definition fields_of (name : string) (entries : list (entry node))
  : list string :=
  concat (map (fun e =>
                 match e with
                 | field_entry n (grouped items) =>
                     if String.eqb n name then map fst items else []
                 | _ => []
                 end)
              entries).

(** An entry of parameters or of variables. *)
Definition is_group (e : entry node) : bool :=
  match e with
  | field_entry n _ => str_in n ["parameter"; "variable"]
  | field_node => false
  end.
End fields.

Section children_of_a_node.
Context {node : Type} `{RichText node}.

Definition is_field_list (c : child node) : bool :=
  match c with
  | field_list _ _ _ => true
  | _ => false
  end.

(** The rendered texts of the children that are read for the summary:
    every child that is no description, no field list and no see-also,
    and no admonition with "Example" in its title. *)
Definition plain_texts (children : list (child node)) : list string :=
  concat (map (fun c =>
                 match c with
                 | other n => [transform_node n]
                 | admonition title n _ =>
                     if contains "Example" title then []
                     else [transform_node n]
                 | _ => []
                 end)
              children).

(** The summary as the code joins it: the texts that do not start
    with "Bases: ", one per line. *)
Definition summary_text (children : list (child node)) : string :=
  join (String newline EmptyString)
       (List.filter (fun content => negb (String.prefix "Bases: " content))
                    (plain_texts children)).

(** The four values that a field list gives to the data block. *)
Definition field_values (d : data) : list (string * field_value) :=
  [("parameters", v_params (parameters d));
   ("variables", v_params (variables d));
   ("exceptions", v_exceptions (exceptions d));
   ("return", v_return (return_ d))].
End children_of_a_node.

(** The entry of the table of contents for a module. *)
Definition toc_entry (filename : string) : string * string :=
  (filename, filename +:+ ".yml").

End Spec.

(** ** Properties *)

Import Extension Monkeypatch Spec.

(** *** Strings *)

Section strings.

Lemma split_dot_not_nil (s : string) : split_dot s ≠ [].
Proof.
  destruct s as [|c s]; simpl; [done|].
  destruct (is_dot c); [done|]. by destruct (split_dot s).
Qed.

Lemma split_dot_segment (seg rest : string) :
  dotless seg = true →
  split_dot (seg +:+ String "." rest) = seg :: split_dot rest.
Proof.
  induction seg as [|c seg IH]; simpl; intros Hseg; [done|].
  apply andb_prop in Hseg as [Hc Hseg].
  apply negb_true_iff in Hc. rewrite Hc, (IH Hseg). done.
Qed.

Lemma split_dot_dotless (seg : string) :
  dotless seg = true → split_dot seg = [seg].
Proof.
  induction seg as [|c seg IH]; simpl; intros Hseg; [done|].
  apply andb_prop in Hseg as [Hc Hseg].
  apply negb_true_iff in Hc. rewrite Hc, (IH Hseg). done.
Qed.

(** Splitting a dotted name gives back the segments it was joined
    from. *)
Lemma split_dot_join (segs : list string) :
  segs ≠ [] → Forall (fun seg => dotless seg = true) segs →
  split_dot (join "." segs) = segs.
Proof.
  induction segs as [|seg [|seg' segs] IH]; intros Hne Hall; [done| |].
  - simpl. apply split_dot_dotless. by inversion Hall.
  - inversion Hall as [|? ? Hseg Hrest]; subst.
    change (join "." (seg :: seg' :: segs))
      with (seg +:+ String "." (join "." (seg' :: segs))).
    rewrite (split_dot_segment _ _ Hseg). f_equal. by apply IH.
Qed.

(** Every name is the join of its segments, and they have no dot. *)
Lemma join_split_dot (s : string) : join "." (split_dot s) = s.
Proof.
  induction s as [|c s IH]; simpl; [done|].
  destruct (is_dot c) eqn:Hc.
  - apply Ascii.eqb_eq in Hc as ->.
    pose proof (split_dot_not_nil s) as Hne.
    destruct (split_dot s) as [|h t] eqn:Hs; [done|].
    change (join "." (EmptyString :: h :: t))
      with (String "." (join "." (h :: t))).
    by rewrite IH.
  - pose proof (split_dot_not_nil s) as Hne.
    destruct (split_dot s) as [|h t] eqn:Hs; [done|].
    rewrite <- IH. by destruct t.
Qed.

Lemma split_dot_all_dotless (s : string) :
  Forall (fun seg => dotless seg = true) (split_dot s).
Proof.
  induction s as [|c s IH]; simpl; [by repeat constructor|].
  destruct (is_dot c) eqn:Hc; [by constructor|].
  destruct (split_dot s) as [|h t].
  - constructor; [simpl; by rewrite Hc | constructor].
  - inversion IH; subst. constructor; [|done]. simpl. by rewrite Hc.
Qed.

End strings.

(** *** The owning class and module; the lookup of the mapped type *)

Section builder.

Lemma str_in_In (x : string) (l : list string) :
  str_in x l = true ↔ In x l.
Proof.
  unfold str_in. rewrite existsb_exists. split.
  - intros (y & Hy & Heq). by apply String.eqb_eq in Heq as ->.
  - intros Hx. exists x. split; [done|]. apply String.eqb_refl.
Qed.

Lemma str_in_false (x : string) (l : list string) :
  str_in x l = false ↔ ¬ In x l.
Proof. rewrite <- str_in_In. by destruct (str_in x l). Qed.

(** [_get_cls_module] names a module exactly for the six kinds. *)
Lemma _get_cls_module_kinds (_type name : string) :
  (_get_cls_module _type name).2 ≠ None ↔ str_in _type kinds = true.
Proof.
  unfold _get_cls_module.
  destruct (str_in _type ["function"; "exception"]) eqn:H1;
    [|destruct (str_in _type ["method"; "attribute"]) eqn:H2;
      [|destruct (str_in _type ["class"]) eqn:H3;
        [|destruct (str_in _type ["module"]) eqn:H4]]];
    rewrite ?str_in_In, ?str_in_false in *;
    unfold kinds; simpl in *; intuition congruence.
Qed.

(** Each of the six kinds has an entry in [TYPE_MAPPING]. *)
Lemma TYPE_MAPPING_kinds (_type : string) :
  str_in _type kinds = true → is_Some (TYPE_MAPPING !! _type).
Proof.
  rewrite str_in_In. unfold kinds. simpl.
  intros [<-|[<-|[<-|[<-|[<-|[<-|[]]]]]]]; eexists; vm_compute; reflexivity.
Qed.

(** After the lookup, [_create_datam] returns the record when
    [inspect] finds the source of the object. *)
Lemma _create_datam_mapped (app : env) (cls : option string)
    (module name _type mapped_type : string) (obj : pyobj)
    (lines : list string) :
  TYPE_MAPPING !! _type = Some mapped_type →
  has_source obj = true →
  ∃ datam,
    _create_datam app cls module name _type obj lines = Ok (datam, app)
    ∧ type datam = mapped_type
    ∧ Extension.module datam = module ∧ uid datam = name
    ∧ Extension._type datam = _type
    ∧ class datam = (if truthy_opt cls then cls else None)
    ∧ children datam
      = (if str_in _type ["class"; "module"] then Some [] else None)
    ∧ inheritance datam = None.
Proof.
  intros Hmap Hsource. destruct obj as [m n b p l|m n b e]; [|done].
  unfold _create_datam, getitem. rewrite Hmap. simpl.
  eexists. split; [done|]. by simpl.
Qed.

(** After the lookup, what [inspect] raises leaves [_create_datam]. *)
Lemma _create_datam_no_source (app : env) (cls : option string)
    (module name _type mapped_type m n : string)
    (b : option (list pyobj)) (e : exn) (lines : list string) :
  TYPE_MAPPING !! _type = Some mapped_type →
  _create_datam app cls module name _type (NoSource m n b e) lines = Raise e.
Proof.
  intros Hmap. unfold _create_datam, getitem. by rewrite Hmap.
Qed.

(** What a record that [_create_datam] returns is made of. *)
Lemma _create_datam_ok (app app' : env) (cls : option string)
    (module name _type : string) (obj : pyobj) (lines : list string)
    (datam : record) :
  _create_datam app cls module name _type obj lines = Ok (datam, app') →
  app' = app ∧ has_source obj = true
  ∧ TYPE_MAPPING !! _type = Some (type datam)
  ∧ Extension.module datam = module ∧ uid datam = name
  ∧ Extension._type datam = _type
  ∧ Extension.name datam = last_segment (split_dot name)
  ∧ class datam = (if truthy_opt cls then cls else None)
  ∧ children datam
    = (if str_in _type ["class"; "module"] then Some [] else None)
  ∧ inheritance datam = None.
Proof.
  unfold _create_datam, getitem.
  destruct (TYPE_MAPPING !! _type) as [mapped_type|]; [|done].
  destruct obj as [m n b p l|m n b e]; [|done]. simpl.
  intros [= <- <-]. by simpl.
Qed.

End builder.

(** C7. The owning pair is computed from the kind: for a function, an
    exception or a class the module is the name without its last
    segment and there is no class; for a method or an attribute the
    class is the name without its last segment and the module the name
    without its last two; for a module the module is the name; for any
    other kind both are unresolved. An event whose owning module is
    unresolved leaves the registry as it was, prints a diagnostic, and
    the run goes on with the next event. *)
Theorem owning_pair_by_kind (app : env) (_type : string)
    (segs : list string) (obj : pyobj) (lines : list string)
    (rest : list event) :
  segs ≠ [] → Forall (fun seg => dotless seg = true) segs →
  let name := join "." segs in
  (str_in _type ["function"; "exception"; "class"] = true →
     _get_cls_module _type name
     = (None, Some (join "." (drop_last 1 segs))))
  ∧ (str_in _type ["method"; "attribute"] = true →
     _get_cls_module _type name
     = (Some (join "." (drop_last 1 segs)),
        Some (join "." (drop_last 2 segs))))
  ∧ (_type = "module" → _get_cls_module _type name = (None, Some name))
  ∧ (str_in _type kinds = false → _get_cls_module _type name = (None, None))
  ∧ (truthy_opt (_get_cls_module _type name).2 = false →
     ∃ app',
       process_docstring app _type name obj lines = Ok app'
       ∧ docfx_yaml_modules app' = docfx_yaml_modules app
       ∧ stdout app' = stdout app ++ ["Unknown Type: " +:+ _type]
       ∧ run app (Event _type name obj lines :: rest) = run app' rest).
Proof.
  intros Hne Hsegs name.
  assert (Hsplit : split_dot name = segs) by by apply split_dot_join.
  repeat split.
  - rewrite str_in_In. simpl.
    intros [<-|[<-|[<-|[]]]]; unfold _get_cls_module; simpl;
      by rewrite Hsplit.
  - rewrite str_in_In. simpl.
    intros [<-|[<-|[]]]; unfold _get_cls_module; simpl; by rewrite Hsplit.
  - by intros ->.
  - intros Hkind. apply not_true_iff_false in Hkind.
    rewrite <- (_get_cls_module_kinds _type name) in Hkind.
    destruct (_get_cls_module _type name) as [cls [module|]] eqn:Hpair;
      simpl in Hkind; [by destruct Hkind|].
    revert Hpair. unfold _get_cls_module.
    repeat match goal with |- context [if ?b then _ else _] => destruct b end;
      congruence.
  - intros Hmodule.
    assert (Hdrop : process_docstring app _type name obj lines
                    = Ok (print ("Unknown Type: " +:+ _type) app)).
    { unfold process_docstring.
      destruct (_get_cls_module _type name) as [cls module].
      simpl in Hmodule. by rewrite Hmodule. }
    exists (print ("Unknown Type: " +:+ _type) app).
    repeat split; [done|]. simpl. by rewrite Hdrop.
Qed.

Lemma owning_pair_by_kind_witness :
  _get_cls_module "method" "pkg.Foo.bar" = (Some "pkg.Foo", Some "pkg")
  ∧ _get_cls_module "function" "pkg.sub.f" = (None, Some "pkg.sub")
  ∧ _get_cls_module "data" "pkg.x" = (None, None)
  ∧ docfx_yaml_modules
      (default (Env ∅ "" "" [])
         (match process_docstring (Env ∅ "main" "origin" []) "data" "pkg.x"
                  (PyObj "pkg" "x" None "pkg.py" 1) [] with
          | Ok app' => Some app'
          | Raise _ => None
          end)) = ∅.
Proof.
  assert (Hsegs : ∀ segs : list string,
             forallb dotless segs = true →
             Forall (fun seg => dotless seg = true) segs).
  { intros segs Hall. apply Forall_forall. intros seg Hseg.
    rewrite forallb_forall in Hall. apply Hall. by apply list_elem_of_In. }
  pose (app := Env ∅ "main" "origin" []).
  pose (obj := PyObj "pkg" "x" None "pkg.py" 1).
  destruct (owning_pair_by_kind app "method" ["pkg"; "Foo"; "bar"] obj [] [])
    as (_ & Hmethod & _); [done | by apply Hsegs |].
  destruct (owning_pair_by_kind app "function" ["pkg"; "sub"; "f"] obj [] [])
    as (Hfunction & _); [done | by apply Hsegs |].
  destruct (owning_pair_by_kind app "data" ["pkg"; "x"] obj [] [])
    as (_ & _ & _ & Hother & Hdrop); [done | by apply Hsegs |].
  split; [exact (Hmethod eq_refl)|].
  split; [exact (Hfunction eq_refl)|].
  split; [exact (Hother eq_refl)|].
  destruct Hdrop as (app' & Hrun & Hsame & _); [by rewrite (Hother eq_refl)|].
  assert (Hrun' : process_docstring app "data" "pkg.x" obj [] = Ok app')
    by exact Hrun.
  subst app obj. rewrite Hrun'. simpl. by rewrite Hsame.
Defined.

(** C10. The handler around the lookup in [TYPE_MAPPING] catches
    [TypeError] and not the failure of a missing key: a kind outside the
    table makes [_create_datam] raise [KeyError], and whenever
    [_create_datam] returns, the mapped type came from the table and
    nothing was printed. A record that reaches [_create_datam] through
    [process_docstring] has one of the six kinds, all in the table: the
    lookup succeeds and the fallback is not taken. What follows the
    lookup is the part of [inspect]: the record of the mapped type is
    returned when the source of the object is found, and what
    [inspect] raises leaves the function when it is not. *)
Theorem type_mapping_fallback_unreachable (app : env) (_type name : string)
    (obj : pyobj) (lines : list string) :
  (∀ cls module,
      TYPE_MAPPING !! _type = None →
      _create_datam app cls module name _type obj lines = Raise KeyError)
  ∧ (∀ cls module datam app',
      _create_datam app cls module name _type obj lines = Ok (datam, app') →
      app' = app ∧ TYPE_MAPPING !! _type = Some (type datam))
  ∧ (truthy_opt (_get_cls_module _type name).2 = true →
     ∃ mapped_type,
       TYPE_MAPPING !! _type = Some mapped_type
       ∧ (has_source obj = true →
          ∃ datam,
            _create_datam app (_get_cls_module _type name).1
              (default EmptyString (_get_cls_module _type name).2)
              name _type obj lines = Ok (datam, app)
            ∧ type datam = mapped_type)
       ∧ (∀ m n b e,
            obj = NoSource m n b e →
            _create_datam app (_get_cls_module _type name).1
              (default EmptyString (_get_cls_module _type name).2)
              name _type obj lines = Raise e)).
Proof.
  split; [|split].
  - intros cls module Hnone. unfold _create_datam, getitem.
    by rewrite Hnone.
  - intros cls module datam app' Hok.
    by destruct (_create_datam_ok _ _ _ _ _ _ _ _ _ Hok) as (-> & _ & -> & _).
  - intros Hmodule.
    assert (Hkind : str_in _type kinds = true).
    { apply (_get_cls_module_kinds _type name).
      by destruct ((_get_cls_module _type name).2). }
    destruct (TYPE_MAPPING_kinds _ Hkind) as [mapped_type Hmap].
    exists mapped_type. split; [done|]. split.
    + intros Hsource.
      destruct (_create_datam_mapped app (_get_cls_module _type name).1
                  (default EmptyString (_get_cls_module _type name).2)
                  name _type mapped_type obj lines Hmap Hsource)
        as (datam & Hdatam & Htype & _).
      by exists datam.
    + intros m n b e ->. by eapply _create_datam_no_source.
Qed.

Lemma type_mapping_fallback_unreachable_witness :
  _create_datam (Env ∅ "main" "origin" []) None "pkg" "pkg.x" "data"
                (PyObj "pkg" "x" None "pkg.py" 1) [] = Raise KeyError
  ∧ (∃ datam,
       _create_datam (Env ∅ "main" "origin" []) None "pkg" "pkg.E" "exception"
                     (PyObj "pkg" "E" None "pkg.py" 1) []
       = Ok (datam, Env ∅ "main" "origin" [])
       ∧ type datam = "Class")
  ∧ _create_datam (Env ∅ "main" "origin" []) (Some "pkg.Foo") "pkg"
                  "pkg.Foo.x" "attribute"
                  (NoSource "builtins" "int" None TypeError) []
    = Raise TypeError.
Proof.
  split; [|split].
  - destruct (type_mapping_fallback_unreachable
                (Env ∅ "main" "origin" []) "data" "pkg.x"
                (PyObj "pkg" "x" None "pkg.py" 1) []) as (Hkey & _).
    apply Hkey. by vm_compute.
  - destruct (type_mapping_fallback_unreachable
                (Env ∅ "main" "origin" []) "exception" "pkg.E"
                (PyObj "pkg" "E" None "pkg.py" 1) []) as (_ & Hret & Hin).
    destruct Hin as (mapped_type & Hmap & Hsource & _); [by vm_compute|].
    destruct (Hsource eq_refl) as (datam & Hdatam & Htype).
    exists datam. split; [exact Hdatam|].
    rewrite Htype. vm_compute in Hmap. congruence.
  - destruct (type_mapping_fallback_unreachable
                (Env ∅ "main" "origin" []) "attribute" "pkg.Foo.x"
                (NoSource "builtins" "int" None TypeError) [])
      as (_ & _ & Hin).
    destruct Hin as (mapped_type & _ & _ & Hraise); [by vm_compute|].
    exact (Hraise "builtins" "int" None TypeError eq_refl).
Defined.

(** *** The inheritance resolver *)

Section inheritance.

(** Induction over an object and, through its bases, its ancestors. *)
Lemma pyobj_ancestors_ind (P : pyobj → Prop) :
  (∀ obj, obj_bases obj = None → P obj) →
  (∀ obj bases, obj_bases obj = Some bases → Forall P bases → P obj) →
  ∀ obj, P obj.
Proof.
  intros Hnone Hsome. fix IH 1.
  intros [m n [bases|] p l|m n [bases|] e]; try (by apply Hnone);
    (eapply Hsome; [reflexivity|]);
    induction bases as [|base bases IHbases]; constructor;
    [apply IH|apply IHbases|apply IH|apply IHbases].
Qed.

Lemma set_inheritance_idem (l : list string) (d : record) :
  inheritance d = Some l → set_inheritance l d = d.
Proof. destruct d; simpl; by intros ->. Qed.

Lemma set_inheritance_twice (l l' : list string) (d : record) :
  set_inheritance l (set_inheritance l' d) = set_inheritance l d.
Proof. done. Qed.

(** An object without bases. *)
Lemma insert_inheritance_none (obj : pyobj) (d : record) :
  obj_bases obj = None → insert_inheritance obj d = d.
Proof. by destruct obj as [m n b p l|m n b e]; cbn [obj_bases]; intros ->. Qed.

Lemma ancestors_none (obj : pyobj) : obj_bases obj = None → ancestors obj = [].
Proof. by destruct obj as [m n b p l|m n b e]; cbn [obj_bases]; intros ->. Qed.

(** The loop over the bases, as a fold. *)
Lemma insert_inheritance_some (obj : pyobj) (bases : list pyobj)
    (d : record) :
  obj_bases obj = Some bases →
  insert_inheritance obj d
  = fold_left (fun d base =>
                 insert_inheritance base
                   (append_inheritance (_fullname base) d))
              bases
              (match inheritance d with
               | None => set_inheritance [] d
               | Some _ => d
               end).
Proof.
  destruct obj as [m n b p l|m n b e]; cbn [obj_bases]; intros ->; simpl;
    generalize (match inheritance d with
                | None => set_inheritance [] d
                | Some _ => d
                end);
    induction bases as [|base bases IH]; intros d'; simpl; try done;
    apply IH.
Qed.

Lemma ancestors_some (obj : pyobj) (bases : list pyobj) :
  obj_bases obj = Some bases →
  ancestors obj
  = concat (map (fun base => _fullname base :: ancestors base) bases).
Proof.
  destruct obj as [m n b p l|m n b e]; cbn [obj_bases]; intros ->; simpl;
    induction bases as [|base bases IH]; simpl; try done; by rewrite IH.
Qed.

Lemma insert_inheritance_bases (m n p : string) (ln : nat)
    (bases : list pyobj) (d : record) :
  insert_inheritance (PyObj m n (Some bases) p ln) d
  = fold_left (fun d base =>
                 insert_inheritance base
                   (append_inheritance (_fullname base) d))
              bases
              (match inheritance d with
               | None => set_inheritance [] d
               | Some _ => d
               end).
Proof. by apply insert_inheritance_some. Qed.

Lemma ancestors_bases (m n p : string) (ln : nat) (bases : list pyobj) :
  ancestors (PyObj m n (Some bases) p ln)
  = concat (map (fun base => _fullname base :: ancestors base) bases).
Proof. by apply ancestors_some. Qed.

(** On a record that has the key, the resolver appends the ancestors
    of the object in depth-first order and changes nothing else. *)
Lemma insert_inheritance_appends (obj : pyobj) :
  ∀ (d : record) (l : list string),
    inheritance d = Some l →
    insert_inheritance obj d = set_inheritance (l ++ ancestors obj) d.
Proof.
  induction obj as [obj Hnone|obj bases Hbases IH] using pyobj_ancestors_ind;
    intros d l Hd.
  - rewrite (insert_inheritance_none _ _ Hnone), (ancestors_none _ Hnone).
    rewrite app_nil_r. by rewrite set_inheritance_idem.
  - rewrite (insert_inheritance_some _ _ _ Hbases), (ancestors_some _ _ Hbases),
      Hd.
    clear Hbases. revert d l Hd.
    induction IH as [|base bases Hbase _ IHbases]; intros d l Hd.
    + simpl. rewrite app_nil_r. by rewrite set_inheritance_idem.
    + cbn [fold_left map concat].
      unfold append_inheritance at 2. rewrite Hd. cbn [default].
      rewrite (Hbase _ (l ++ [_fullname base])) by done.
      rewrite set_inheritance_twice.
      rewrite (IHbases _ ((l ++ [_fullname base]) ++ ancestors base))
        by done.
      rewrite set_inheritance_twice. f_equal.
      by rewrite <- !app_assoc.
Qed.

(** The resolver, on any object and any record. *)
Lemma insert_inheritance_any (obj : pyobj) (d : record) :
  insert_inheritance obj d
  = match obj_bases obj with
    | None => d
    | Some _ =>
        set_inheritance (default [] (inheritance d) ++ ancestors obj) d
    end.
Proof.
  destruct (obj_bases obj) as [bases|] eqn:Hbases;
    [|by apply insert_inheritance_none].
  destruct (inheritance d) as [l|] eqn:Hd.
  - by apply insert_inheritance_appends.
  - transitivity (insert_inheritance obj (set_inheritance [] d)).
    + rewrite !(insert_inheritance_some _ _ _ Hbases). by rewrite Hd.
    + by rewrite (insert_inheritance_appends _ _ []).
Qed.

Lemma ancestors_chain (m n p : string) (ln : nat)
    (classes : list (string * string)) :
  ancestors (PyObj m n (Some (chain classes)) p ln)
  = map (fun c => c.1 +:+ "." +:+ c.2) classes.
Proof.
  revert m n p ln.
  induction classes as [|[m' n'] classes IH]; intros m n p ln; [done|].
  rewrite ancestors_bases. cbn [chain map concat]. rewrite IH.
  by rewrite app_nil_r.
Qed.

End inheritance.

(** C6. For a class that has bases, the resolver puts into the one
    record the full names of all its ancestors in depth-first order over
    the declared bases, each base before its own bases, after what the
    list held before, and changes no other key. For a class at the head
    of an acyclic chain of bases A, B, C the list of a fresh record is
    [A; B; C]. *)
Theorem inheritance_flattens_ancestors (m n p : string) (ln : nat)
    (bases : list pyobj) (datam : record) :
  insert_inheritance (PyObj m n (Some bases) p ln) datam
  = set_inheritance
      (default [] (inheritance datam)
         ++ ancestors (PyObj m n (Some bases) p ln)) datam
  ∧ ∀ classes : list (string * string),
      inheritance
        (insert_inheritance (PyObj m n (Some (chain classes)) p ln) datam)
      = Some (default [] (inheritance datam)
                ++ map (fun c => c.1 +:+ "." +:+ c.2) classes).
Proof.
  assert (Hgen : ∀ bases',
            insert_inheritance (PyObj m n (Some bases') p ln) datam
            = set_inheritance
                (default [] (inheritance datam)
                   ++ ancestors (PyObj m n (Some bases') p ln)) datam).
  { intros bases'. destruct (inheritance datam) as [l|] eqn:Hd.
    - by apply insert_inheritance_appends.
    - transitivity (insert_inheritance (PyObj m n (Some bases') p ln)
                      (set_inheritance [] datam)).
      + simpl. by rewrite Hd.
      + by rewrite (insert_inheritance_appends _ _ []). }
  split; [apply Hgen|].
  intros classes. by rewrite Hgen, ancestors_chain.
Qed.

(** The chain A, B, C of the specification, through [process_docstring]:
    the class record in the registry lists the three ancestors. *)
Example inheritance_of_a_chain :
  let base := [("pkg", "A"); ("pkg", "B"); ("pkg", "C")] in
  let cls := PyObj "pkg" "Foo" (Some (chain base)) "pkg.py" 7 in
  (app ← run (Env ∅ "main" "origin" [])
         [Event "module" "pkg" (PyObj "pkg" "pkg" None "pkg.py" 1) [];
          Event "class" "pkg.Foo" cls []];
   Ok (map (fun r => (uid r, inheritance r, children r))
           (default [] (docfx_yaml_modules app !! "pkg"))))
  = Ok [("pkg", None, Some ["pkg.Foo"]);
        ("pkg.Global", None, Some []);
        ("pkg.Foo", Some ["pkg.A"; "pkg.B"; "pkg.C"], Some [])].
Proof. by vm_compute. Qed.

(** *** The hierarchy linker *)

Section linker.

Lemma occurrences_app (x : string) (l1 l2 : list record) :
  occurrences x (l1 ++ l2) = occurrences x l1 + occurrences x l2.
Proof.
  unfold occurrences.
  by rewrite map_app, concat_app, filter_app, length_app.
Qed.

Lemma occurrences_cons (x : string) (r : record) (l : list record) :
  occurrences x (r :: l)
  = length (filter (fun y => y = x) (default [] (children r)))
    + occurrences x l.
Proof.
  unfold occurrences. simpl. by rewrite filter_app, length_app.
Qed.

(** A record that a rule accepts is a class or a module. *)
Lemma accepts_class_or_module (_type : string) (datam obj : record) :
  accepts _type datam obj = true →
  str_in (Extension._type obj) ["class"; "module"] = true.
Proof.
  unfold accepts. rewrite !orb_true_iff, !andb_true_iff.
  intros [[[[_ Hk] _]|[[_ Hk] _]]|[[_ Hk] _]];
    apply String.eqb_eq in Hk; by rewrite Hk.
Qed.

(** The first test of the loop body, when the new record knows its
    class. *)
Lemma is_member_rule (_type : string) (datam obj : record) :
  knows_class _type datam →
  (if str_in _type ["method"; "attribute"]
      && String.eqb (Extension._type obj) "class"
   then cls ← getkey (class datam); Ok (String.eqb (uid obj) cls)
   else Ok false)
  = Ok (str_in _type ["method"; "attribute"]
        && String.eqb (Extension._type obj) "class"
        && bool_decide (class datam = Some (uid obj))).
Proof.
  intros Hknows. unfold knows_class in Hknows.
  destruct (str_in _type ["method"; "attribute"]); simpl; [|done].
  destruct (String.eqb (Extension._type obj) "class"); simpl; [|done].
  destruct (Hknows eq_refl) as [cls ->]. simpl. f_equal.
  destruct (String.eqb_spec (uid obj) cls) as [->|Hne].
  - by rewrite bool_decide_eq_true_2.
  - rewrite bool_decide_eq_false_2; [done|]. congruence.
Qed.

(** One round of the loop. *)
Lemma insert_children_loop_cons (_type : string) (datam obj : record)
    (rest : list record) :
  knows_class _type datam →
  insert_children_loop _type datam (obj :: rest)
  = if accepts _type datam obj
    then obj' ← append_child (uid datam) obj; Ok (obj' :: rest)
    else rest' ← insert_children_loop _type datam rest; Ok (obj :: rest').
Proof.
  intros Hknows. cbn [insert_children_loop].
  rewrite (is_member_rule _ _ _ Hknows). unfold accepts.
  cbn [mbind result_bind].
  destruct (str_in _type ["method"; "attribute"]
            && String.eqb (Extension._type obj) "class"
            && bool_decide (class datam = Some (uid obj))); [done|].
  cbn [orb].
  destruct (str_in _type ["function"]
            && String.eqb (Extension._type obj) "class"
            && String.eqb (name obj) (module datam +:+ ".Global"));
    [done|].
  cbn [orb].
  by destruct (str_in _type ["class"; "exception"]
               && String.eqb (Extension._type obj) "module"
               && String.eqb (Extension.module obj) (module datam)).
Qed.

End linker.

(** C2. For a new record, [insert_children] appends its uid to the
    children of at most one record of the module's list: the first one,
    in insertion order, that one of the three rules accepts. Every other
    record of the list stays as it was and no other module's list is
    touched, so the event adds the uid once at most. *)
Theorem insert_children_first_match (app : env) (_type : string)
    (datam : record) (insert_module : list record) :
  knows_class _type datam →
  docfx_yaml_modules app !! module datam = Some insert_module →
  Forall has_children insert_module →
  ∃ after_scan,
    insert_children app _type datam
    = Ok (set_modules
            (<[module datam := after_scan]> (docfx_yaml_modules app)) app)
    ∧ insert_children_loop _type datam insert_module = Ok after_scan
    ∧ ((Forall (fun obj => accepts _type datam obj = false) insert_module
        ∧ after_scan = insert_module
        ∧ occurrences (uid datam) after_scan
          = occurrences (uid datam) insert_module)
       ∨ (∃ earlier parent later kids,
            insert_module = earlier ++ parent :: later
            ∧ Forall (fun obj => accepts _type datam obj = false) earlier
            ∧ accepts _type datam parent = true
            ∧ children parent = Some kids
            ∧ after_scan
              = earlier ++ set_children (kids ++ [uid datam]) parent :: later
            ∧ occurrences (uid datam) after_scan
              = S (occurrences (uid datam) insert_module))).
Proof.
  intros Hknows Hlist Hall.
  assert (Hscan : ∃ after_scan,
    insert_children_loop _type datam insert_module = Ok after_scan
    ∧ ((Forall (fun obj => accepts _type datam obj = false) insert_module
        ∧ after_scan = insert_module
        ∧ occurrences (uid datam) after_scan
          = occurrences (uid datam) insert_module)
       ∨ (∃ earlier parent later kids,
            insert_module = earlier ++ parent :: later
            ∧ Forall (fun obj => accepts _type datam obj = false) earlier
            ∧ accepts _type datam parent = true
            ∧ children parent = Some kids
            ∧ after_scan
              = earlier ++ set_children (kids ++ [uid datam]) parent :: later
            ∧ occurrences (uid datam) after_scan
              = S (occurrences (uid datam) insert_module)))).
  { clear Hlist. induction Hall as [|obj rest Hobj Hrest IH].
    - exists []. split; [done|]. left. by repeat split.
    - rewrite (insert_children_loop_cons _ _ _ _ Hknows).
      destruct (accepts _type datam obj) eqn:Hacc.
      + destruct (Hobj (accepts_class_or_module _ _ _ Hacc)) as [kids Hkids].
        exists (set_children (kids ++ [uid datam]) obj :: rest).
        split; [unfold append_child; by rewrite Hkids|].
        right. exists [], obj, rest, kids. repeat split; try done.
        cbn [List.app]. rewrite !occurrences_cons.
        cbn [set_children children]. rewrite Hkids.
        cbn [default from_option id].
        rewrite filter_app, length_app, filter_cons_True by done.
        cbn [filter list_filter length]. lia.
      + destruct IH as (after_rest & Hloop & Hcases).
        exists (obj :: after_rest). split; [by rewrite Hloop|].
        destruct Hcases as [(Hnone & -> & _)
                           |(earlier & parent & later & kids & -> & Hearlier
                             & Hparent & Hkids & -> & Hocc)].
        * left. split; [by constructor|]. split; [done|].
          by rewrite !occurrences_cons.
        * right. exists (obj :: earlier), parent, later, kids.
          repeat split; try done; [by constructor|].
          cbn [List.app]. rewrite !occurrences_cons, Hocc. lia. }
  destruct Hscan as (after_scan & Hloop & Hcases).
  exists after_scan. split; [|by split].
  unfold insert_children, getitem. rewrite Hlist.
  cbn [mbind result_bind]. by rewrite Hloop.
Qed.

Lemma insert_children_first_match_witness :
  let method :=
    Datam "pkg" "pkg.Foo.bar" "Method" "method" "bar" "pkg.Foo.bar"
          "" None (Some "pkg.Foo") None None None in
  let cls :=
    Datam "pkg" "pkg.Foo" "Class" "class" "Foo" "pkg.Foo" "" None None
          (Some ["pkg.Foo.baz"]) None None in
  let other :=
    Datam "lib" "lib" "Namespace" "module" "lib" "lib" "" None None
          (Some []) None None in
  let registry :=
    [Datam "pkg" "pkg" "Namespace" "module" "pkg" "pkg" "" None None
           (Some ["pkg.Foo"]) None None;
     global_holder "pkg" "pkg"; cls; cls; method] in
  let app :=
    Env (<["pkg" := registry]> {[ "lib" := [other] ]}) "main" "origin" [] in
  (app' ← insert_children app "method" method;
   Ok (docfx_yaml_modules app' !! "pkg", docfx_yaml_modules app' !! "lib"))
  = Ok (Some [Datam "pkg" "pkg" "Namespace" "module" "pkg" "pkg" "" None None
                    (Some ["pkg.Foo"]) None None;
              global_holder "pkg" "pkg";
              set_children ["pkg.Foo.baz"; "pkg.Foo.bar"] cls; cls; method],
        Some [other]).
Proof.
  intros method cls other registry app.
  destruct (insert_children_first_match app "method" method registry)
    as (after_scan & Hrun & Hloop & _).
  - intros _. by eexists.
  - by vm_compute.
  - repeat (apply Forall_cons_2 || apply Forall_nil_2);
      intros Hkind; vm_compute in Hkind;
      first [discriminate Hkind | by eexists].
  - rewrite Hrun. vm_compute in Hloop. injection Hloop as <-.
    by vm_compute.
Defined.

(** *** The field data normalizer *)

Section normalizer_facts.
Context {node : Type} `{RichText node}.

Lemma with_types_nil (r : return_desc) : with_types r [] = r.
Proof. done. Qed.

Lemma with_types_app (r : return_desc) (l1 l2 : list string) :
  with_types (with_types r l1) l2 = with_types r (l1 ++ l2).
Proof.
  destruct l1 as [|x l1]; [done|].
  destruct l2 as [|y l2]; [by rewrite app_nil_r|].
  simpl. by rewrite <- app_assoc.
Qed.

Lemma with_types_one (r : return_desc) (x : string) :
  append_return_type x r = with_types r [x].
Proof. done. Qed.

(** The inner loop over the candidates of one text. *)
Lemma append_candidates (candidates : list string) (r : return_desc) :
  fold_left (fun r returntype =>
               append_return_type (returntype_candidate returntype) r)
            candidates r
  = with_types r (map returntype_candidate candidates).
Proof.
  revert r. induction candidates as [|x l IH]; intros r; [done|].
  cbn [fold_left map]. rewrite IH, with_types_one, with_types_app. done.
Qed.

(** The loop over the nodes of one [returntype] body. *)
Lemma add_returntypes (body : list node) (r : return_desc) :
  fold_left add_returntype body r
  = with_types r (returntype_candidates body).
Proof.
  revert r. induction body as [|n body IH]; intros r; [done|].
  cbn [fold_left]. rewrite IH. unfold returntype_candidates.
  cbn [map concat]. rewrite <- with_types_app. f_equal.
  unfold add_returntype. destruct (truthy (transform_node n)); [|done].
  apply append_candidates.
Qed.

(** One [returntype] entry. *)
Lemma add_returntype_entry
    (types : gmap string (gmap string (list node)))
    (field_object : list raw_field) (d : data) (fieldarg : string)
    (body : list node) :
  add_entry types field_object d
            (field_entry "returntype" (single fieldarg body))
  = Ok (Data (parameters d) (variables d) (exceptions d)
             (with_types (return_ d) (returntype_candidates body))).
Proof.
  unfold add_entry. cbn. by rewrite add_returntypes.
Qed.

(** One [returnvalue] entry. *)
Lemma add_returnvalue_entry
    (types : gmap string (gmap string (list node)))
    (field_object : list raw_field) (d : data) (fieldarg : string)
    (n : node) (rest : list node) :
  add_entry types field_object d
            (field_entry "returnvalue" (single fieldarg (n :: rest)))
  = Ok (if truthy (transform_node n)
        then Data (parameters d) (variables d) (exceptions d)
                  {| r_type := r_type (return_ d);
                     r_description := Some (transform_node n) |}
        else d).
Proof.
  unfold add_entry. cbn. by destruct (truthy (transform_node n)).
Qed.

(** What a parameter candidate is, next to a return type candidate. *)
Lemma parameter_candidate_cases (_s_type : string) :
  parameter_candidate _s_type
  = if starts_with_sigil _s_type then returntype_candidate _s_type
    else _s_type.
Proof.
  unfold parameter_candidate, returntype_candidate.
  destruct _s_type as [|c s]; [done|]. simpl.
  by destruct (Ascii.eqb c "@" || Ascii.eqb c "~").
Qed.

End normalizer_facts.

Section normalizer_loops.
Context {node : Type} `{RichText node}.

(** Several [returntype] entries in a row, from any state. *)
Lemma add_returntype_entries
    (types : gmap string (gmap string (list node)))
    (field_object : list raw_field) (bodies : list (list node)) (d : data) :
  for_each (add_entry types field_object) (map returntype_entry bodies) d
  = Ok (Data (parameters d) (variables d) (exceptions d)
             (with_types (return_ d)
                         (concat (map returntype_candidates bodies)))).
Proof.
  revert d. induction bodies as [|body bodies IH]; intros d.
  - by destruct d.
  - cbn [map for_each].
    change (returntype_entry body)
      with (field_entry "returntype" (single EmptyString body)).
    rewrite add_returntype_entry. cbn [mbind result_bind].
    rewrite IH. cbn [parameters variables exceptions return_ concat].
    by rewrite with_types_app.
Qed.

Lemma add_returnvalue_entries
    (types : gmap string (gmap string (list node)))
    (field_object : list raw_field) (bodies : list node) (d : data) :
  for_each (add_entry types field_object) (map returnvalue_entry bodies) d
  = Ok (Data (parameters d) (variables d) (exceptions d)
             {| r_type := r_type (return_ d);
                r_description :=
                  surviving_description (r_description (return_ d))
                                        bodies |}).
Proof.
  revert d. induction bodies as [|n bodies IH]; intros d.
  - by destruct d as [? ? ? []].
  - cbn [map for_each].
    change (returnvalue_entry n)
      with (field_entry "returnvalue" (single EmptyString [n])).
    rewrite add_returnvalue_entry. cbn [mbind result_bind].
    rewrite IH. f_equal. unfold surviving_description.
    cbn [map]. rewrite filter_cons.
    destruct (truthy (transform_node n)) eqn:Hn.
    + rewrite decide_True by done. rewrite last_cons.
      cbn [parameters variables exceptions return_ r_type r_description].
      by destruct (last _).
    + rewrite decide_False by congruence. done.
Qed.

End normalizer_loops.

(** C5, as the code has it. Every node of a [returntype] entry whose
    rendered text is not empty is split at " or" followed by a space or
    a newline; each candidate loses one leading "@" or "~" if it has
    one, then its trailing newlines, and is appended to [return.type].
    The candidates of all [returntype] entries accumulate in one list,
    in order, after what the list held; a node whose rendered text is
    empty appends nothing, and with nothing appended there is no type
    key. "int or str" gives ["int"; "str"]. *)
Theorem returntype_accumulates {node : Type} `{RichText node}
    (types : gmap string (gmap string (list node)))
    (field_object : list raw_field) (bodies : list (list node)) :
  get_data_structure (map returntype_entry bodies) types field_object
  = Ok {| parameters := []; variables := []; exceptions := [];
          return_ := with_types {| r_type := None; r_description := None |}
                       (concat (map returntype_candidates bodies)) |}
  ∧ (∀ (d : data) (fieldarg : string) (body : list node),
       add_entry types field_object d
                 (field_entry "returntype" (single fieldarg body))
       = Ok (Data (parameters d) (variables d) (exceptions d)
                  (with_types (return_ d) (returntype_candidates body))))
  ∧ (∀ n : node,
       returntype_candidates [n]
       = if truthy (transform_node n)
         then map (fun candidate =>
                     rstrip_newline (if starts_with_sigil candidate
                                     then tail candidate else candidate))
                  (re_split_or (transform_node n))
         else [])
  ∧ get_data_structure (node := string) [returntype_entry ["int or str"]]
                       ∅ []
    = Ok {| parameters := []; variables := []; exceptions := [];
            return_ := {| r_type := Some ["int"; "str"];
                          r_description := None |} |}.
Proof.
  split; [apply add_returntype_entries|].
  split; [intros d fieldarg body; apply add_returntype_entry|].
  split; [|by vm_compute].
  intros n. unfold returntype_candidates. cbn [map concat].
  by rewrite app_nil_r.
Qed.

(** C5 as stated, refuted: for a [returntype] entry whose rendered text
    is empty the words give the one candidate "" to append, and the code
    appends nothing. *)
Lemma returntype_empty_text_appends_nothing :
  (d ← get_data_structure (node := string) [returntype_entry [""]] ∅ [];
   Ok (default [] (r_type (return_ d))))
  ≠ Ok (return_types_by_the_words [""]).
Proof. by vm_compute. Qed.

(** C9, as the code has it. With several [returnvalue] entries,
    [return.description] is the rendered description of the last entry
    whose rendered description is not empty; when no entry has one, the
    key keeps what it held (it is absent in a fresh block). *)
Theorem returnvalue_last_nonempty {node : Type} `{RichText node}
    (types : gmap string (gmap string (list node)))
    (field_object : list raw_field) (bodies : list node) :
  get_data_structure (map returnvalue_entry bodies) types field_object
  = Ok {| parameters := []; variables := []; exceptions := [];
          return_ :=
            {| r_type := None;
               r_description :=
                 last (filter (fun text => truthy text = true)
                              (map transform_node bodies)) |} |}
  ∧ ∀ (d : data) (fieldarg : string) (n : node) (rest : list node),
      add_entry types field_object d
                (field_entry "returnvalue" (single fieldarg (n :: rest)))
      = Ok (if truthy (transform_node n)
            then Data (parameters d) (variables d) (exceptions d)
                      {| r_type := r_type (return_ d);
                         r_description := Some (transform_node n) |}
            else d).
Proof.
  split; [|intros; apply add_returnvalue_entry].
  unfold get_data_structure. rewrite add_returnvalue_entries.
  unfold surviving_description.
  cbn [parameters variables exceptions return_ r_type r_description].
  by destruct (last _).
Qed.

(** C9 as stated, refuted: when the last [returnvalue] entry renders to
    the empty text, the description of the earlier entry stays. *)
Lemma returnvalue_empty_last_keeps_earlier :
  (d ← get_data_structure (node := string)
         [returnvalue_entry "a value"; returnvalue_entry ""] ∅ [];
   Ok (r_description (return_ d)))
  ≠ Ok (return_description_by_the_words ["a value"; ""]).
Proof. by vm_compute. Qed.

(** C3 (the code departs from it). A parameter's declared type is split
    at the same separator as a return type, and a candidate with a sigil
    loses the sigil and its trailing newlines; a candidate without a
    sigil keeps its trailing newline, where the return type loses it:
    "mypkg.Bar\n" stays "mypkg.Bar\n". *)
Theorem parameter_type_keeps_newline :
  get_data_structure (node := string)
    [field_entry "parameter" (grouped [("x", ["the x"])])]
    {[ "parameter" := {[ "x" := [line "mypkg.Bar"] ]} ]} []
  = Ok {| parameters := [Param "x" "the x" (Some [Some (line "mypkg.Bar")])];
          variables := []; exceptions := [];
          return_ := {| r_type := None; r_description := None |} |}
  ∧ get_data_structure (node := string)
      [field_entry "parameter" (grouped [("x", ["the x"])])]
      {[ "parameter" := {[ "x" := [line "@mypkg.Bar"] ]} ]} []
    = Ok {| parameters := [Param "x" "the x" (Some [Some "mypkg.Bar"])];
            variables := []; exceptions := [];
            return_ := {| r_type := None; r_description := None |} |}
  ∧ get_data_structure (node := string)
      [returntype_entry [line "mypkg.Bar"]] ∅ []
    = Ok {| parameters := []; variables := []; exceptions := [];
            return_ := {| r_type := Some ["mypkg.Bar"];
                          r_description := None |} |}
  ∧ ∀ _s_type : string,
      parameter_candidate _s_type
      = if starts_with_sigil _s_type then returntype_candidate _s_type
        else _s_type.
Proof.
  repeat split; try (by vm_compute). apply parameter_candidate_cases.
Qed.

(** C4 (the code departs from it). A variable without a declared type
    gets the type list [[None]]: the descriptor has a type key, whose
    value is a list holding [None]. *)
Theorem variable_without_type_has_type_key {node : Type} `{RichText node}
    (field : string) (n : node) (rest : list node)
    (field_object : list raw_field) :
  ∀ raises,
    extract_exception_desc field_object = Ok raises →
    get_data_structure
      [field_entry "variable" (grouped [(field, n :: rest)])] ∅ field_object
    = Ok {| parameters := [];
            variables := [Param field (transform_node n) (Some [None])];
            exceptions := map (fun ret => ExceptionDesc ret.1 None) raises;
            return_ := {| r_type := None; r_description := None |} |}.
Proof.
  intros raises Hraises. unfold get_data_structure. cbn.
  unfold declared_type. rewrite lookup_empty. cbn. by rewrite Hraises.
Qed.

Lemma variable_without_type_has_type_key_witness :
  get_data_structure (node := string)
    [field_entry "variable" (grouped [("v", ["the v"])])] ∅ []
  = Ok {| parameters := [];
          variables := [Param "v" "the v" (Some [None])];
          exceptions := [];
          return_ := {| r_type := None; r_description := None |} |}.
Proof.
  exact (variable_without_type_has_type_key (node := string)
           "v" "the v" [] [] [] eq_refl).
Defined.

(** *** The holder of a module's functions *)

Section global_holder_facts.

Lemma length_append (a s : string) :
  String.length (a +:+ s) = String.length a + String.length s.
Proof. induction a as [|c a IH]; simpl; [done|]. by rewrite IH. Qed.

Lemma append_cancel_r (a b s : string) : a +:+ s = b +:+ s → a = b.
Proof.
  revert b. induction a as [|c a IH]; intros [|c' b] Heq.
  - done.
  - apply (f_equal String.length) in Heq.
    rewrite !length_append in Heq. cbn [String.length] in Heq. lia.
  - apply (f_equal String.length) in Heq.
    rewrite !length_append in Heq. cbn [String.length] in Heq. lia.
  - simpl in Heq. injection Heq as -> Heq. f_equal. by apply IH.
Qed.

Lemma last_In (l : list string) : l ≠ [] → In (List.last l EmptyString) l.
Proof.
  induction l as [|x [|y l] IH]; intros Hne; [done|by left|].
  right. by apply IH.
Qed.

(** The last segment of a name is the name itself exactly when the
    name has no dot. *)
Lemma last_segment_self (m : string) :
  last_segment (split_dot m) = m ↔ dotless m = true.
Proof.
  split.
  - intros Hself.
    pose proof (split_dot_all_dotless m) as Hall.
    rewrite Forall_forall in Hall. rewrite <- Hself. apply Hall.
    apply list_elem_of_In, last_In, split_dot_not_nil.
  - intros Hm. by rewrite (split_dot_dotless _ Hm).
Qed.

(** The rule for functions accepts the holder of a module exactly when
    the module's name has no dot. *)
Lemma function_rule_on_holder (datam : record) (fullname : string) :
  accepts "function" datam (global_holder (module datam) fullname)
  = dotless (module datam).
Proof.
  unfold accepts. cbn.
  destruct (String.eqb_spec
              (last_segment (split_dot (module datam)) +:+ ".Global")
              (module datam +:+ ".Global")) as [Heq|Hne].
  - apply append_cancel_r in Heq. symmetry. by apply last_segment_self.
  - destruct (dotless (module datam)) eqn:Hm; [|done].
    apply last_segment_self in Hm. by rewrite Hm in Hne.
Qed.

End global_holder_facts.

(** C1 (the code departs from it). After the event of module "pkg.sub",
    the event of its function "pkg.sub.f" leaves the children of
    "pkg.sub.Global" empty: the uid of the function is in no children
    list. The holder's name is the last segment of the module with
    ".Global", and the linker looks for the whole module name with
    ".Global"; the two agree exactly for a module name without a dot,
    and for module "pkg" the function is linked as the claim says. *)
Theorem function_of_dotted_module_unlinked :
  (app ← run (Env ∅ "main" "origin" [])
         [Event "module" "pkg.sub" (PyObj "pkg" "sub" None "pkg/sub.py" 1) [];
          Event "function" "pkg.sub.f"
                (PyObj "pkg.sub" "f" None "pkg/sub.py" 3) []];
   Ok (map (fun entry =>
              (entry.1, map (fun r => (uid r, name r, children r)) entry.2))
           (map_to_list (docfx_yaml_modules app))))
  = Ok [("pkg.sub",
         [("pkg.sub", "sub", Some []);
          ("pkg.sub.Global", "sub.Global", Some []);
          ("pkg.sub.f", "f", None)])]
  ∧ (app ← run (Env ∅ "main" "origin" [])
           [Event "module" "pkg" (PyObj "pkg" "pkg" None "pkg.py" 1) [];
            Event "function" "pkg.f" (PyObj "pkg" "f" None "pkg.py" 3) []];
     Ok (map (fun entry =>
                (entry.1, map (fun r => (uid r, name r, children r)) entry.2))
             (map_to_list (docfx_yaml_modules app))))
    = Ok [("pkg",
           [("pkg", "pkg", Some []);
            ("pkg.Global", "pkg.Global", Some ["pkg.f"]);
            ("pkg.f", "f", None)])]
  ∧ ∀ (datam : record) (fullname : string),
      accepts "function" datam (global_holder (module datam) fullname)
      = dotless (module datam).
Proof.
  split; [by vm_compute|]. split; [by vm_compute|].
  apply function_rule_on_holder.
Qed.

(** *** Empty values of the data block *)

Section data_block.
Context {node : Type} `{RichText node}.

(** The loop that deletes, on any map it deletes from. *)
Lemma delete_loop_lookup (scanned target : gmap string field_value)
    (key : string) :
  map_fold (fun key val block =>
              if negb (is_true val) then delete key block else block)
           target scanned !! key
  = match scanned !! key with
    | Some val => if is_true val then target !! key else None
    | None => target !! key
    end.
Proof.
  apply (map_fold_weak_ind
           (fun result scanned =>
              result !! key
              = match scanned !! key with
                | Some val => if is_true val then target !! key else None
                | None => target !! key
                end)).
  - by rewrite lookup_empty.
  - intros i x m r Hfresh IH.
    destruct (decide (i = key)) as [->|Hne].
    + rewrite lookup_insert_eq. rewrite Hfresh in IH.
      destruct (is_true x); simpl; [done|]. apply lookup_delete_eq.
    + rewrite lookup_insert_ne by done.
      destruct (is_true x); simpl; [done|].
      by rewrite lookup_delete_ne.
Qed.

Lemma drop_empty_lookup (block : gmap string field_value) (key : string) :
  drop_empty block !! key
  = match block !! key with
    | Some val => if is_true val then Some val else None
    | None => None
    end.
Proof.
  unfold drop_empty. rewrite delete_loop_lookup.
  by destruct (block !! key).
Qed.

End data_block.

(** C8. After the children have been read, every key of the data block
    whose value is empty (an empty list, an empty dictionary, an empty
    string) is deleted and every other key keeps its value; the block
    stored has no empty value. A block updated with field data whose
    parameters, variables, exceptions and return are all empty has none
    of these four keys. *)
Theorem empty_values_dropped {node : Type} `{RichText node}
    (is_enum : bool) (uid : option string) (children : list (child node))
    (docfx_info_field_data : gmap (option string) (gmap string field_value))
    (summary : list string) (block : gmap string field_value) :
  for_each (add_child is_enum) children ([], ∅) = Ok (summary, block) →
  (∀ (block : gmap string field_value) (key : string),
      drop_empty block !! key
      = match block !! key with
        | Some val => if is_true val then Some val else None
        | None => None
        end)
  ∧ (∃ stored,
       transform_all is_enum uid children docfx_info_field_data
       = Ok (<[uid := stored]> docfx_info_field_data)
       ∧ stored
         = drop_empty
             (match summary with
              | [] => block
              | _ :: _ =>
                  <["summary" :=
                      v_text (join (String newline EmptyString) summary)]>
                    block
              end)
       ∧ ∀ key val, stored !! key = Some val → is_true val = true)
  ∧ (∀ (block : gmap string field_value) (key : string),
       In key ["parameters"; "variables"; "exceptions"; "return"] →
       drop_empty
         (update block
                 {| parameters := []; variables := []; exceptions := [];
                    return_ := {| r_type := None; r_description := None |} |})
         !! key = None).
Proof.
  intros Hloop. split; [apply drop_empty_lookup|]. split.
  - eexists. split; [|split; [reflexivity|]].
    + unfold transform_all. rewrite Hloop. reflexivity.
    + intros key val. rewrite drop_empty_lookup.
      destruct (_ !! key) as [val'|]; [|done].
      destruct (is_true val') eqn:Htrue; [|done]. by intros [= <-].
  - intros block' key Hkey. rewrite drop_empty_lookup. unfold update.
    simpl in Hkey.
    destruct Hkey as [<-|[<-|[<-|[<-|[]]]]];
      repeat (rewrite lookup_insert_ne by done);
      by rewrite lookup_insert_eq.
Qed.

Lemma empty_values_dropped_witness :
  transform_all (node := string) false (Some "pkg.Foo.bar")
    [field_list [] ∅ []; other "Does the thing."; seealso ""] ∅
  = Ok {[ Some "pkg.Foo.bar" := {[ "summary" := v_text "Does the thing." ]} ]}.
Proof.
  destruct (empty_values_dropped (node := string) false (Some "pkg.Foo.bar")
              [field_list [] ∅ []; other "Does the thing."; seealso ""] ∅
              ["Does the thing."]
              (<["seealso" := v_text ""]>
                 (update ∅ {| parameters := []; variables := [];
                              exceptions := [];
                              return_ := {| r_type := None;
                                            r_description := None |} |})))
    as (_ & (stored & Hstored & Hval & _) & _); [by vm_compute|].
  rewrite Hstored, Hval. by vm_compute.
Defined.

(** *** The keys of the registry *)

Section registry.

Lemma truthy_append (a b : string) : truthy (a +:+ b) = truthy a || truthy b.
Proof. by destruct a. Qed.

(** A member whose module is named has a class that is named. *)
Lemma class_of_member_named (segs : list string) :
  truthy (join "." (drop_last 2 segs)) = true →
  truthy (join "." (drop_last 1 segs)) = true.
Proof.
  destruct segs as [|a [|b [|c rest]]]; try done.
  unfold drop_last. cbn [length].
  replace (S (S (S (length rest))) - 1) with (S (S (length rest))) by lia.
  intros _. cbn [take].
  change (join "." (a :: b :: take (length rest) (c :: rest)))
    with (a +:+ String "." (join "." (b :: take (length rest) (c :: rest)))).
  rewrite truthy_append. apply orb_true_r.
Qed.

(** The resolver leaves the kind and the children of a record alone. *)
Lemma insert_inheritance_keeps (obj : pyobj) (d : record) :
  has_children d → has_children (insert_inheritance obj d).
Proof.
  intros Hd. rewrite insert_inheritance_any.
  destruct (obj_bases obj); exact Hd.
Qed.

(** The loop of the linker returns, and the records keep their keys. *)
Lemma insert_children_loop_total (_type : string) (datam : record)
    (insert_module : list record) :
  knows_class _type datam →
  Forall has_children insert_module →
  ∃ after_scan,
    insert_children_loop _type datam insert_module = Ok after_scan
    ∧ Forall has_children after_scan.
Proof.
  intros Hknows Hall. induction Hall as [|obj rest Hobj Hrest IH].
  - by exists [].
  - rewrite (insert_children_loop_cons _ _ _ _ Hknows).
    destruct (accepts _type datam obj) eqn:Hacc.
    + destruct (Hobj (accepts_class_or_module _ _ _ Hacc)) as [kids Hkids].
      exists (set_children (kids ++ [uid datam]) obj :: rest).
      split; [unfold append_child; by rewrite Hkids|].
      constructor; [|done]. intros _. by eexists.
    + destruct IH as (after_rest & Hloop & Hafter).
      exists (obj :: after_rest). split; [by rewrite Hloop|].
      by constructor.
Qed.

Lemma well_formed_insert (modules : gmap string (list record))
    (module : string) (records : list record) :
  well_formed modules → Forall has_children records →
  well_formed (<[module := records]> modules).
Proof.
  intros Hwf Hrecords k l. rewrite lookup_insert.
  case_decide; [by intros [= <-]|]. apply Hwf.
Qed.

Lemma well_formed_alter (modules : gmap string (list record))
    (module : string) (f : list record → list record) :
  well_formed modules →
  (∀ l, Forall has_children l → Forall has_children (f l)) →
  well_formed (alter f module modules).
Proof.
  intros Hwf Hf k l. rewrite lookup_alter. case_decide; [subst k|apply Hwf].
  destruct (modules !! module) as [l0|] eqn:Hl0; [|done].
  intros [= <-]. apply Hf. by apply (Hwf module).
Qed.

Lemma well_formed_empty : well_formed ∅.
Proof. intros key records. by rewrite lookup_empty. Qed.

(** The record of a resolved event has the keys the linker reads. *)
Lemma built_keys (app app' : env) (_type name : string) (obj : pyobj)
    (lines : list string) (cls : option string) (m : string)
    (datam : record) :
  _get_cls_module _type name = (cls, Some m) →
  truthy m = true →
  _create_datam app cls m name _type obj lines = Ok (datam, app') →
  knows_class _type datam ∧ has_children datam.
Proof.
  intros Hpair Hm Hcreate.
  destruct (_create_datam_ok _ _ _ _ _ _ _ _ _ Hcreate)
    as (_ & _ & _ & _ & _ & Hty & _ & Hcls & Hkids & _).
  split.
  - intros Hmember. rewrite Hcls.
    assert (Hcls' : truthy_opt cls = true); [|rewrite Hcls'; by destruct cls].
    revert Hpair. unfold _get_cls_module.
    assert (str_in _type ["function"; "exception"] = false) as ->.
    { apply str_in_false. apply str_in_In in Hmember. simpl in *.
      intuition congruence. }
    rewrite Hmember. intros [= <- <-]. by apply class_of_member_named.
  - unfold has_children. rewrite Hty, Hkids. intros ->. by eexists.
Qed.

(** For a resolved event, [_create_datam] returns the record when
    [inspect] finds the source of the object, and raises when it does
    not. *)
Lemma _create_datam_resolved (app : env) (_type name : string)
    (obj : pyobj) (lines : list string) (cls : option string) (m : string) :
  _get_cls_module _type name = (cls, Some m) →
  if has_source obj
  then ∃ datam, _create_datam app cls m name _type obj lines = Ok (datam, app)
  else ∃ e, _create_datam app cls m name _type obj lines = Raise e.
Proof.
  intros Hpair.
  assert (Hkind : str_in _type kinds = true).
  { apply (_get_cls_module_kinds _type name). by rewrite Hpair. }
  destruct (TYPE_MAPPING_kinds _ Hkind) as [mapped_type Hmap].
  destruct obj as [mo n b p l|mo n b e]; cbn [has_source].
  - destruct (_create_datam_mapped app cls m name _type mapped_type
                (PyObj mo n b p l) lines Hmap eq_refl) as (datam & Hok & _).
    by exists datam.
  - exists e. by eapply _create_datam_no_source.
Qed.

End registry.

(** ** Further properties *)

(** *** What one event does to the registry *)

Section one_event.

(** A resolved event whose record is built, in full: the record and
    (for a module) the holder are appended to the module's list, the
    list is scanned once for a parent, and the record, at the place
    where it was appended, receives its ancestors. *)
Lemma process_docstring_resolved (app app' : env) (_type name : string)
    (obj : pyobj) (lines : list string) (cls : option string) (m : string)
    (datam : record) :
  well_formed (docfx_yaml_modules app) →
  _get_cls_module _type name = (cls, Some m) →
  truthy m = true →
  _create_datam app cls m name _type obj lines = Ok (datam, app') →
  ∃ after_scan,
    (module datam = m ∧ uid datam = name ∧ Extension._type datam = _type)
    ∧ knows_class _type datam
    ∧ Forall has_children after_scan
    ∧ insert_children_loop _type datam
        (default [] (docfx_yaml_modules app !! m)
           ++ appended _type m name datam)
      = Ok after_scan
    ∧ process_docstring app _type name obj lines
      = Ok (set_modules
              (<[m := alter (insert_inheritance obj)
                            (length (default [] (docfx_yaml_modules app !! m)))
                            after_scan]> (docfx_yaml_modules app)) app).
Proof.
  intros Hwf Hpair Hm Hcreate.
  destruct (built_keys _ _ _ _ _ _ _ _ _ Hpair Hm Hcreate)
    as [Hknows Hdatam].
  destruct (_create_datam_ok _ _ _ _ _ _ _ _ _ Hcreate)
    as (-> & _ & _ & Hmod & Huid & Hty & _).
  set (before := default [] (docfx_yaml_modules app !! m)).
  assert (Hbefore : Forall has_children before).
  { unfold before. destruct (docfx_yaml_modules app !! m) as [l|] eqn:Hl;
      [by apply (Hwf m)|constructor]. }
  assert (Hnews : Forall has_children (before ++ appended _type m name datam)).
  { apply Forall_app_2; [done|]. unfold appended.
    destruct (String.eqb _type "module"); repeat constructor; try done.
    intros _. by eexists. }
  destruct (insert_children_loop_total _type datam _ Hknows Hnews)
    as (after_scan & Hloop & Hafter).
  exists after_scan.
  split; [done|]. split; [done|]. split; [done|]. split; [done|].
  unfold process_docstring. rewrite Hpair. cbn [truthy_opt negb default].
  rewrite Hm. cbn [negb from_option id]. rewrite Hcreate.
  cbn [mbind result_bind]. fold before.
  assert (Happ : (if String.eqb _type "module"
                  then set_modules
                         (alter (fun l => l ++ [global_holder m name]) m
                            (docfx_yaml_modules
                               (set_modules (<[m := before ++ [datam]]>
                                               (docfx_yaml_modules app)) app)))
                         (set_modules (<[m := before ++ [datam]]>
                                         (docfx_yaml_modules app)) app)
                  else set_modules (<[m := before ++ [datam]]>
                                      (docfx_yaml_modules app)) app)
                 = set_modules (<[m := before ++ appended _type m name datam]>
                                  (docfx_yaml_modules app)) app).
  { unfold appended. destruct (String.eqb _type "module"); [|done].
    cbn. rewrite alter_insert_eq. by rewrite <- app_assoc. }
  rewrite Happ. unfold insert_children, getitem. rewrite Hmod. cbn.
  rewrite lookup_insert_eq. cbn [mbind result_bind]. rewrite Hloop.
  cbn. by rewrite insert_insert_eq, alter_insert_eq.
Qed.

(** An event whose module is unresolved only prints. *)
Lemma process_docstring_unresolved (app : env) (_type name : string)
    (obj : pyobj) (lines : list string) :
  truthy_opt (_get_cls_module _type name).2 = false →
  process_docstring app _type name obj lines
  = Ok (print ("Unknown Type: " +:+ _type) app).
Proof.
  intros Hmodule. unfold process_docstring.
  destruct (_get_cls_module _type name) as [cls module].
  simpl in Hmodule. by rewrite Hmodule.
Qed.

(** What [_create_datam] raises leaves [process_docstring]: there is no
    handler around the call. *)
Lemma process_docstring_raises (app : env) (_type name : string)
    (obj : pyobj) (lines : list string) (cls : option string) (m : string)
    (e : exn) :
  _get_cls_module _type name = (cls, Some m) →
  truthy m = true →
  _create_datam app cls m name _type obj lines = Raise e →
  process_docstring app _type name obj lines = Raise e.
Proof.
  intros Hpair Hm Hcreate. unfold process_docstring. rewrite Hpair.
  cbn [truthy_opt negb default]. rewrite Hm. cbn [negb from_option id].
  by rewrite Hcreate.
Qed.

(** The two ways an event can go. *)
Lemma resolved_or_not (_type name : string) :
  truthy_opt (_get_cls_module _type name).2 = false
  ∨ ∃ cls m, _get_cls_module _type name = (cls, Some m) ∧ truthy m = true.
Proof.
  destruct (_get_cls_module _type name) as [cls [m|]] eqn:Hpair;
    [|by left]. simpl.
  destruct (truthy m) eqn:Hm; [right; by exists cls, m|by left].
Qed.

(** An event that returned was unresolved, or its record was built. *)
Lemma process_docstring_ok (app app' : env) (_type name : string)
    (obj : pyobj) (lines : list string) :
  process_docstring app _type name obj lines = Ok app' →
  (truthy_opt (_get_cls_module _type name).2 = false
   ∧ app' = print ("Unknown Type: " +:+ _type) app)
  ∨ (∃ cls m datam,
       _get_cls_module _type name = (cls, Some m) ∧ truthy m = true
       ∧ has_source obj = true
       ∧ _create_datam app cls m name _type obj lines = Ok (datam, app)).
Proof.
  intros Hrun.
  destruct (resolved_or_not _type name) as [Hnot|(cls & m & Hpair & Hm)].
  - left. split; [done|].
    rewrite (process_docstring_unresolved _ _ _ _ _ Hnot) in Hrun.
    by injection Hrun.
  - right. exists cls, m.
    destruct (_create_datam app cls m name _type obj lines)
      as [[datam app1]|e] eqn:Hcreate.
    + destruct (_create_datam_ok _ _ _ _ _ _ _ _ _ Hcreate)
        as (-> & Hsource & _).
      by exists datam.
    + rewrite (process_docstring_raises _ _ _ _ _ _ _ _ Hpair Hm Hcreate)
        in Hrun.
      done.
Qed.

(** An event that returns leaves the registry with its keys. *)
Lemma process_docstring_shape (app app' : env) (_type name : string)
    (obj : pyobj) (lines : list string) :
  well_formed (docfx_yaml_modules app) →
  process_docstring app _type name obj lines = Ok app' →
  well_formed (docfx_yaml_modules app').
Proof.
  intros Hwf Hrun.
  destruct (process_docstring_ok _ _ _ _ _ _ Hrun)
    as [[_ ->]|(cls & m & datam & Hpair & Hm & _ & Hcreate)];
    [exact Hwf|].
  destruct (process_docstring_resolved app app _type name obj lines cls m
              datam Hwf Hpair Hm Hcreate)
    as (after_scan & _ & _ & Hafter & _ & Hdone).
  rewrite Hdone in Hrun. injection Hrun as <-.
  cbn [docfx_yaml_modules set_modules].
  apply well_formed_insert; [done|]. apply Forall_alter; [done|].
  intros x _. apply insert_inheritance_keeps.
Qed.

(** An event that asks [inspect] for nothing it does not find
    returns. *)
Lemma process_docstring_returns (app : env) (_type name : string)
    (obj : pyobj) (lines : list string) :
  well_formed (docfx_yaml_modules app) →
  inspectable (Event _type name obj lines) = true →
  ∃ app', process_docstring app _type name obj lines = Ok app'.
Proof.
  intros Hwf Hfound.
  destruct (resolved_or_not _type name) as [Hnot|(cls & m & Hpair & Hm)].
  - eexists. by apply process_docstring_unresolved.
  - assert (Hsource : has_source obj = true).
    { revert Hfound. unfold inspectable. cbn [ev_type ev_name ev_obj].
      rewrite Hpair. cbn [snd truthy_opt]. by rewrite Hm. }
    pose proof (_create_datam_resolved app _type name obj lines cls m Hpair)
      as Hbuilt.
    rewrite Hsource in Hbuilt. destruct Hbuilt as [datam Hcreate].
    destruct (process_docstring_resolved app app _type name obj lines cls m
                datam Hwf Hpair Hm Hcreate)
      as (after_scan & _ & _ & _ & _ & Hdone).
    by eexists.
Qed.

(** A resolved event whose object has no source raises. *)
Lemma process_docstring_fatal (app : env) (_type name : string)
    (obj : pyobj) (lines : list string) :
  inspectable (Event _type name obj lines) = false →
  ∃ e, process_docstring app _type name obj lines = Raise e.
Proof.
  unfold inspectable. cbn [ev_type ev_name ev_obj].
  rewrite orb_false_iff, negb_false_iff. intros [Hmodule Hsource].
  destruct (resolved_or_not _type name) as [Hnot|(cls & m & Hpair & Hm)];
    [congruence|].
  pose proof (_create_datam_resolved app _type name obj lines cls m Hpair)
    as Hbuilt.
  rewrite Hsource in Hbuilt. destruct Hbuilt as [e Hraise].
  exists e. by eapply process_docstring_raises.
Qed.

(** A run that returned went through its first event. *)
Lemma run_cons (app app' : env) (e : event) (events : list event) :
  run app (e :: events) = Ok app' →
  ∃ app1,
    process_docstring app (ev_type e) (ev_name e) (ev_obj e) (ev_lines e)
    = Ok app1
    ∧ run app1 events = Ok app'.
Proof.
  cbn [run].
  destruct (process_docstring app (ev_type e) (ev_name e) (ev_obj e)
              (ev_lines e)) as [app1|err]; [|done].
  intros Hrun. by exists app1.
Qed.

Lemma run_shape (events : list event) (app app' : env) :
  well_formed (docfx_yaml_modules app) →
  run app events = Ok app' →
  well_formed (docfx_yaml_modules app').
Proof.
  revert app. induction events as [|e events IH]; intros app Hwf.
  - by intros [= <-].
  - intros Hrun. destruct (run_cons _ _ _ _ Hrun) as (app1 & Hstep & Hrest).
    apply (IH app1); [|done].
    by apply (process_docstring_shape _ _ _ _ _ _ Hwf Hstep).
Qed.

Lemma run_returns (events : list event) (app : env) :
  well_formed (docfx_yaml_modules app) →
  Forall (fun e => inspectable e = true) events →
  ∃ app', run app events = Ok app'.
Proof.
  intros Hwf Hall. revert app Hwf.
  induction Hall as [|e events He _ IH]; intros app Hwf; [by exists app|].
  destruct e as [_type name obj lines].
  destruct (process_docstring_returns app _type name obj lines Hwf He)
    as [app1 Hstep].
  destruct (IH app1 (process_docstring_shape _ _ _ _ _ _ Hwf Hstep))
    as [app' Hrun].
  exists app'. cbn [run ev_type ev_name ev_obj ev_lines]. by rewrite Hstep.
Qed.

Lemma run_found (events : list event) (app app' : env) :
  run app events = Ok app' →
  Forall (fun e => inspectable e = true) events.
Proof.
  revert app. induction events as [|e events IH]; intros app Hrun;
    [constructor|].
  destruct (run_cons _ _ _ _ Hrun) as (app1 & Hstep & Hrest).
  constructor; [|by apply (IH app1)].
  destruct e as [_type name obj lines].
  destruct (inspectable (Event _type name obj lines)) eqn:Hfound; [done|].
  destruct (process_docstring_fatal app _type name obj lines Hfound)
    as [err Hraise].
  cbn [ev_type ev_name ev_obj ev_lines] in Hstep. congruence.
Qed.

Lemma extends_opt_refl (o : option (list string)) : extends_opt o o.
Proof. by left. Qed.

Lemma grown_refl (r : record) : grown r r.
Proof.
  exists (children r), (inheritance r). destruct r.
  repeat split; apply extends_opt_refl.
Qed.

Lemma grown_module (r r' : record) : grown r r' → module r' = module r.
Proof. by intros (c & i & -> & _). Qed.

Lemma grown_set_children (obj : record) (kids more : list string) :
  children obj = Some kids → grown obj (set_children (kids ++ more) obj).
Proof.
  intros Hkids. exists (Some (kids ++ more)), (inheritance obj).
  split; [done|]. split; [|apply extends_opt_refl].
  right. exists more. by rewrite Hkids.
Qed.

Lemma grown_insert_inheritance (obj : pyobj) (d : record) :
  grown d (insert_inheritance obj d).
Proof.
  rewrite insert_inheritance_any.
  destruct (obj_bases obj); [|apply grown_refl].
  exists (children d), (Some (default [] (inheritance d) ++ ancestors obj)).
  split; [done|]. split; [apply extends_opt_refl|]. right. by eexists.
Qed.

(** The scan, when the first parent is known. *)
Lemma insert_children_loop_at (_type : string) (datam parent : record)
    (earlier later : list record) (kids : list string) :
  knows_class _type datam →
  Forall (fun obj => accepts _type datam obj = false) earlier →
  accepts _type datam parent = true →
  children parent = Some kids →
  insert_children_loop _type datam (earlier ++ parent :: later)
  = Ok (earlier ++ set_children (kids ++ [uid datam]) parent :: later).
Proof.
  intros Hknows Hearlier Hparent Hkids.
  induction Hearlier as [|obj earlier Hobj _ IH].
  - cbn [app]. rewrite (insert_children_loop_cons _ _ _ _ Hknows), Hparent.
    unfold append_child. by rewrite Hkids.
  - cbn [app]. rewrite (insert_children_loop_cons _ _ _ _ Hknows), Hobj.
    by rewrite IH.
Qed.

(** The scan, when there is no parent. *)
Lemma insert_children_loop_none (_type : string) (datam : record)
    (insert_module : list record) :
  knows_class _type datam →
  Forall (fun obj => accepts _type datam obj = false) insert_module →
  insert_children_loop _type datam insert_module = Ok insert_module.
Proof.
  intros Hknows Hnone. induction Hnone as [|obj rest Hobj _ IH]; [done|].
  rewrite (insert_children_loop_cons _ _ _ _ Hknows), Hobj. by rewrite IH.
Qed.

(** The scan changes records only by making children longer. *)
Lemma insert_children_loop_grown (_type : string) (datam : record)
    (insert_module after_scan : list record) :
  knows_class _type datam →
  Forall has_children insert_module →
  insert_children_loop _type datam insert_module = Ok after_scan →
  Forall2 grown insert_module after_scan.
Proof.
  intros Hknows Hall. revert after_scan.
  induction Hall as [|obj rest Hobj Hrest IH]; intros after_scan.
  - intros [= <-]. constructor.
  - rewrite (insert_children_loop_cons _ _ _ _ Hknows).
    destruct (accepts _type datam obj) eqn:Hacc.
    + destruct (Hobj (accepts_class_or_module _ _ _ Hacc)) as [kids Hkids].
      unfold append_child. rewrite Hkids. intros [= <-].
      constructor; [by apply grown_set_children|].
      apply Forall_Forall2_diag, Forall_forall. intros. apply grown_refl.
    + destruct (insert_children_loop _type datam rest) as [rest'|e];
        [|done].
      intros [= <-]. constructor; [apply grown_refl|by apply IH].
Qed.

(** The records an event appends are no parent of its record. *)
Lemma appended_not_parent (kind m name : string) (datam : record) :
  _type datam = kind →
  Forall (fun obj => accepts kind datam obj = false)
         (appended kind m name datam).
Proof.
  intros Hty.
  assert (Hself : accepts kind datam datam = false).
  { unfold accepts. rewrite Hty.
    destruct (String.eqb_spec kind "class") as [Hc|Hc];
      destruct (String.eqb_spec kind "module") as [Hm|Hm];
      try (rewrite Hc in *); try (rewrite Hm in *); try done;
      cbn; rewrite ?andb_false_r; done. }
  unfold appended. destruct (String.eqb_spec kind "module") as [Hm|Hm].
  - rewrite Hm in *. apply Forall_cons_2; [done|].
    apply Forall_cons_2; [by cbn|]. apply Forall_nil_2.
  - apply Forall_cons_2; [done|]. apply Forall_nil_2.
Qed.

End one_event.

(** X1. Over a registry whose classes and modules have their children,
    as the empty registry of [build_init] has, a run returns exactly
    when [inspect] finds the source of the object of every resolved
    event. A resolved event whose object has no source (a built-in, or
    an attribute whose value is no class and no function) raises what
    [inspect] raises and ends the run; an event that is not resolved
    asks [inspect] for nothing and only prints. Nothing else is fatal:
    no module list is missing, and no record lacks the key the linker
    reads. *)
Theorem run_returns_when_sources_are_found (app : env)
    (events : list event) :
  well_formed (docfx_yaml_modules app) →
  (∃ app', run app events = Ok app')
  ↔ Forall (fun e => inspectable e = true) events.
Proof.
  intros Hwf. split.
  - intros [app' Hrun]. by apply (run_found events app app').
  - by apply run_returns.
Qed.

Lemma run_returns_when_sources_are_found_witness :
  (∃ app',
     run (Env ∅ "main" "origin" [])
         [Event "method" "pkg.Foo.bar" (PyObj "pkg" "bar" None "pkg.py" 9) [];
          Event "data" "pkg.x" (NoSource "builtins" "int" None TypeError) [];
          Event "function" "f" (NoSource "" "f" None TypeError) []]
     = Ok app')
  ∧ ¬ (∃ app',
         run (Env ∅ "main" "origin" [])
             [Event "class" "pkg.Foo" (PyObj "pkg" "Foo" None "pkg.py" 4) [];
              Event "attribute" "pkg.Foo.x"
                    (NoSource "builtins" "int" None TypeError) []]
         = Ok app').
Proof.
  split.
  - apply (run_returns_when_sources_are_found (Env ∅ "main" "origin" [])).
    + intros key records. cbn. by rewrite lookup_empty.
    + repeat (apply Forall_cons_2 || apply Forall_nil_2); reflexivity.
  - intros Hrun.
    apply (run_returns_when_sources_are_found (Env ∅ "main" "origin" []))
      in Hrun.
    + apply Forall_cons in Hrun as [_ Hrest].
      apply Forall_cons in Hrest as [Hattribute _].
      vm_compute in Hattribute. discriminate Hattribute.
    + intros key records. cbn. by rewrite lookup_empty.
Defined.

(** X2. Resolving the same object into a record a second time appends
    its ancestors a second time: the resolver keeps no memory of what
    the list holds. *)
Theorem inheritance_resolved_twice (m n p : string) (ln : nat)
    (bases : list pyobj) (datam : record) :
  inheritance
    (insert_inheritance (PyObj m n (Some bases) p ln)
       (insert_inheritance (PyObj m n (Some bases) p ln) datam))
  = Some (default [] (inheritance datam)
            ++ ancestors (PyObj m n (Some bases) p ln)
            ++ ancestors (PyObj m n (Some bases) p ln)).
Proof.
  set (obj := PyObj m n (Some bases) p ln).
  assert (Hfirst : ∃ d,
             insert_inheritance obj datam = d
             ∧ inheritance d
               = Some (default [] (inheritance datam) ++ ancestors obj)).
  { destruct (inheritance datam) as [l|] eqn:Hl.
    - eexists. split; [reflexivity|].
      by rewrite (insert_inheritance_appends _ _ _ Hl).
    - eexists. split; [reflexivity|].
      replace (insert_inheritance obj datam)
        with (insert_inheritance obj (set_inheritance [] datam)).
      + by rewrite (insert_inheritance_appends _ _ []).
      + unfold obj. rewrite !insert_inheritance_bases. by rewrite Hl. }
  destruct Hfirst as (d & -> & Hd).
  rewrite (insert_inheritance_appends _ _ _ Hd). cbn.
  by rewrite <- app_assoc.
Qed.

(** X3. A resolved event whose record [_create_datam] has built, and
    whose module's list holds a record that a rule of the linker
    accepts, no earlier record being accepted: the new uid goes to the
    end of that record's children, every other record of the list stays
    as it was, and the new record, with its ancestors resolved, goes to
    the end of the list. *)
Theorem record_linked_to_first_parent (app app' : env) (_type name : string)
    (obj : pyobj) (lines : list string) (cls : option string) (m : string)
    (earlier later : list record) (parent datam : record) :
  well_formed (docfx_yaml_modules app) →
  _get_cls_module _type name = (cls, Some m) →
  truthy m = true →
  docfx_yaml_modules app !! m = Some (earlier ++ parent :: later) →
  _create_datam app cls m name _type obj lines = Ok (datam, app') →
  Forall (fun obj => accepts _type datam obj = false) earlier →
  accepts _type datam parent = true →
  process_docstring app _type name obj lines
  = Ok (set_modules
          (<[m := earlier
                    ++ set_children
                         (default [] (children parent) ++ [name]) parent
                    :: later ++ [insert_inheritance obj datam]]>
             (docfx_yaml_modules app)) app).
Proof.
  intros Hwf Hpair Hm Hlist Hcreate Hearlier Hparent.
  destruct (process_docstring_resolved app app' _type name obj lines cls m
              datam Hwf Hpair Hm Hcreate)
    as (after_scan & (Hmod & Huid & Hty) & Hknows & _ & Hloop & Hrun).
  rewrite Hrun. clear Hrun. revert Hloop. rewrite Hlist.
  cbn [default from_option id].
  assert (Hkids : is_Some (children parent)).
  { pose proof (Hwf _ _ Hlist) as Hall.
    apply Forall_app in Hall as [_ Hall].
    apply Forall_cons in Hall as [Hp _].
    apply Hp. by apply (accepts_class_or_module _type datam). }
  destruct Hkids as [kids Hkids]. rewrite Hkids. cbn [default from_option id].
  assert (Hnot : String.eqb _type "module" = false).
  { destruct (String.eqb_spec _type "module") as [->|]; [|done].
    revert Hparent. unfold accepts. by cbn. }
  unfold appended. rewrite Hnot. rewrite <- app_assoc. cbn [List.app].
  rewrite (insert_children_loop_at _type datam parent earlier
             (later ++ [datam]) kids Hknows Hearlier Hparent Hkids).
  intros [= <-]. rewrite Huid. do 2 f_equal.
  change (earlier ++ set_children (kids ++ [name]) parent
            :: later ++ [datam])
    with (earlier ++ (set_children (kids ++ [name]) parent :: later)
            ++ [datam]).
  rewrite (app_assoc earlier).
  replace (length (earlier ++ parent :: later))
    with (length (earlier ++ set_children (kids ++ [name]) parent :: later)
          + 0)
    by (rewrite !length_app; cbn [length]; lia).
  rewrite alter_app_r. cbn. by rewrite <- app_assoc.
Qed.

Lemma record_linked_to_first_parent_witness :
  let module_record :=
    Datam "pkg" "pkg" "Namespace" "module" "pkg" "pkg" "" None None
          (Some []) None None in
  (app ← process_docstring
           (Env {[ "pkg" := [module_record; global_holder "pkg" "pkg"] ]}
                "main" "origin" [])
           "class" "pkg.Foo" (PyObj "pkg" "Foo" (Some []) "pkg.py" 4) [];
   Ok (map (fun r => (uid r, children r, inheritance r))
           (default [] (docfx_yaml_modules app !! "pkg"))))
  = Ok [("pkg", Some ["pkg.Foo"], None);
        ("pkg.Global", Some [], None);
        ("pkg.Foo", Some [], Some [])].
Proof.
  intros module_record.
  set (app := Env {[ "pkg" := [module_record; global_holder "pkg" "pkg"] ]}
                  "main" "origin" []).
  set (obj := PyObj "pkg" "Foo" (Some []) "pkg.py" 4).
  pose (datam := (returned (module_record, app)
                    (_create_datam app None "pkg" "pkg.Foo" "class" obj [])).1).
  rewrite (record_linked_to_first_parent app app "class" "pkg.Foo" obj []
             None "pkg" [] [global_holder "pkg" "pkg"] module_record datam).
  - by vm_compute.
  - intros key records. cbn [docfx_yaml_modules app].
    rewrite lookup_singleton_Some. intros [_ <-].
    repeat (apply Forall_cons_2 || apply Forall_nil_2);
      intros _; by eexists.
  - reflexivity.
  - reflexivity.
  - reflexivity.
  - by vm_compute.
  - apply Forall_nil_2.
  - by vm_compute.
Defined.

(** X4. A resolved event whose record [_create_datam] has built, and
    whose module's list holds no record that a rule of the linker
    accepts (a method found before its class, a class found before its
    module, a function of a module whose name has a dot): no children
    list changes, and the records of the event go to the end of the
    list, the new record with its ancestors resolved. *)
Theorem record_without_parent (app app' : env) (_type name : string)
    (obj : pyobj) (lines : list string) (cls : option string) (m : string)
    (datam : record) :
  well_formed (docfx_yaml_modules app) →
  _get_cls_module _type name = (cls, Some m) →
  truthy m = true →
  _create_datam app cls m name _type obj lines = Ok (datam, app') →
  Forall (fun obj => accepts _type datam obj = false)
         (default [] (docfx_yaml_modules app !! m)) →
  process_docstring app _type name obj lines
  = Ok (set_modules
          (<[m := default [] (docfx_yaml_modules app !! m)
                    ++ appended _type m name
                         (insert_inheritance obj datam)]>
             (docfx_yaml_modules app)) app).
Proof.
  intros Hwf Hpair Hm Hcreate Hnone.
  destruct (process_docstring_resolved app app' _type name obj lines cls m
              datam Hwf Hpair Hm Hcreate)
    as (after_scan & (Hmod & Huid & Hty) & Hknows & _ & Hloop & Hrun).
  rewrite Hrun. clear Hrun. revert Hloop.
  rewrite (insert_children_loop_none _type datam _ Hknows).
  - intros [= <-]. do 2 f_equal.
    replace (length (default [] (docfx_yaml_modules app !! m)))
      with (length (default [] (docfx_yaml_modules app !! m)) + 0) by lia.
    by rewrite alter_app_r.
  - apply Forall_app_2; [done|]. by apply appended_not_parent.
Qed.

Lemma record_without_parent_witness :
  (app ← process_docstring (Env ∅ "main" "origin" []) "method" "pkg.Foo.bar"
           (PyObj "pkg" "bar" None "pkg.py" 9) [];
   Ok (map (fun r => (uid r, class r, children r))
           (default [] (docfx_yaml_modules app !! "pkg"))))
  = Ok [("pkg.Foo.bar", Some "pkg.Foo", None)].
Proof.
  set (app := Env ∅ "main" "origin" []).
  set (obj := PyObj "pkg" "bar" None "pkg.py" 9).
  pose (datam := (returned (global_holder "" "", app)
                    (_create_datam app (Some "pkg.Foo") "pkg" "pkg.Foo.bar"
                                   "method" obj [])).1).
  rewrite (record_without_parent app app "method" "pkg.Foo.bar" obj []
             (Some "pkg.Foo") "pkg" datam).
  - by vm_compute.
  - intros key records. cbn. by rewrite lookup_empty.
  - reflexivity.
  - reflexivity.
  - by vm_compute.
  - cbn. rewrite lookup_empty. apply Forall_nil_2.
Defined.

(** X5. A module event with a name that is not empty, whose record
    [_create_datam] has built, appends two records to the end of the
    list kept under that name, the module's own and the holder of its
    functions, and changes no record that the list held: a second event
    of the same module appends both again. *)
Theorem module_event_appends_two (app app' : env) (name : string)
    (obj : pyobj) (lines : list string) (datam : record) :
  well_formed (docfx_yaml_modules app) →
  truthy name = true →
  _create_datam app None name name "module" obj lines = Ok (datam, app') →
  process_docstring app "module" name obj lines
  = Ok (set_modules
          (<[name := default [] (docfx_yaml_modules app !! name)
                       ++ [insert_inheritance obj datam;
                           global_holder name name]]>
             (docfx_yaml_modules app)) app).
Proof.
  intros Hwf Hname Hcreate.
  destruct (process_docstring_resolved app app' "module" name obj lines None
              name datam Hwf eq_refl Hname Hcreate)
    as (after_scan & (Hmod & Huid & Hty) & Hknows & _ & Hloop & Hrun).
  rewrite Hrun. clear Hrun. revert Hloop.
  rewrite (insert_children_loop_none "module" datam _ Hknows).
  - intros [= <-]. do 2 f_equal.
    replace (length (default [] (docfx_yaml_modules app !! name)))
      with (length (default [] (docfx_yaml_modules app !! name)) + 0) by lia.
    by rewrite alter_app_r.
  - apply Forall_forall. intros r _. unfold accepts. by cbn.
Qed.

Lemma module_event_appends_two_witness :
  (app ← run (Env ∅ "main" "origin" [])
         [Event "module" "pkg" (PyObj "pkg" "pkg" None "pkg.py" 1) [];
          Event "module" "pkg" (PyObj "pkg" "pkg" None "pkg.py" 1) []];
   Ok (map uid (default [] (docfx_yaml_modules app !! "pkg"))))
  = Ok ["pkg"; "pkg.Global"; "pkg"; "pkg.Global"].
Proof.
  pose (obj := PyObj "pkg" "pkg" None "pkg.py" 1).
  pose (first := (returned (global_holder "" "", Env ∅ "main" "origin" [])
                    (_create_datam (Env ∅ "main" "origin" []) None "pkg" "pkg"
                                   "module" obj [])).1).
  assert (Hrun1 : process_docstring (Env ∅ "main" "origin" []) "module" "pkg"
                    obj [] = Ok (set_modules
              (<["pkg" := default [] (docfx_yaml_modules
                                         (Env ∅ "main" "origin" []) !! "pkg")
                           ++ [insert_inheritance obj first;
                               global_holder "pkg" "pkg"]]>
                 (docfx_yaml_modules (Env ∅ "main" "origin" [])))
              (Env ∅ "main" "origin" []))).
  { apply (module_event_appends_two (Env ∅ "main" "origin" [])
             (Env ∅ "main" "origin" []) "pkg" obj [] first).
    - intros key records. cbn. by rewrite lookup_empty.
    - reflexivity.
    - by vm_compute. }
  cbn [run ev_type ev_name ev_obj ev_lines]. fold obj. rewrite Hrun1.
  by vm_compute.
Defined.

(** *** What a run does to the registry *)

Section run_facts.

Lemma extends_opt_trans (a b c : option (list string)) :
  extends_opt a b → extends_opt b c → extends_opt a c.
Proof.
  intros [->|[more ->]] [->|[more' ->]].
  - by left.
  - right. by exists more'.
  - right. by exists more.
  - right. exists (more ++ more'). cbn. by rewrite app_assoc.
Qed.

Lemma grown_trans (r1 r2 r3 : record) : grown r1 r2 → grown r2 r3 → grown r1 r3.
Proof.
  intros (c & i & -> & Hc & Hi) (c' & i' & -> & Hc' & Hi'). cbn in *.
  exists c', i'. split; [done|]. split; by eapply extends_opt_trans.
Qed.

Lemma Forall2_grown_refl (l : list record) : Forall2 grown l l.
Proof. apply Forall_Forall2_diag, Forall_forall. intros. apply grown_refl. Qed.

Lemma Forall2_grown_trans (l1 l2 l3 : list record) :
  Forall2 grown l1 l2 → Forall2 grown l2 l3 → Forall2 grown l1 l3.
Proof.
  intros H12. revert l3.
  induction H12 as [|r1 r2 l1 l2 Hr _ IH]; intros l3 H23;
    inversion H23; subst; constructor; [by eapply grown_trans|by apply IH].
Qed.

(** The children of a record that [_create_datam] returns. *)
Lemma _create_datam_children (app app' : env) (cls : option string)
    (m name _type : string) (obj : pyobj) (lines : list string)
    (datam : record) :
  _create_datam app cls m name _type obj lines = Ok (datam, app') →
  children datam
  = (if str_in _type ["class"; "module"] then Some [] else None)
  ∧ has_children datam.
Proof.
  intros Hcreate.
  destruct (_create_datam_ok _ _ _ _ _ _ _ _ _ Hcreate)
    as (_ & _ & _ & _ & _ & Hty & _ & _ & Hkids & _).
  split; [done|]. unfold has_children. rewrite Hty, Hkids.
  intros ->. by eexists.
Qed.

Lemma appended_has_children (app app' : env) (cls : option string)
    (m name _type : string) (obj : pyobj) (lines : list string)
    (datam : record) :
  _create_datam app cls m name _type obj lines = Ok (datam, app') →
  Forall has_children (appended _type m name datam).
Proof.
  intros Hcreate. apply _create_datam_children in Hcreate as [_ Hdatam].
  unfold appended. apply Forall_cons_2; [done|].
  destruct (String.eqb _type "module"); [|apply Forall_nil_2].
  apply Forall_cons_2; [|apply Forall_nil_2]. intros _. by eexists.
Qed.

Lemma before_has_children (modules : gmap string (list record)) (m : string) :
  well_formed modules → Forall has_children (default [] (modules !! m)).
Proof.
  intros Hwf. destruct (modules !! m) as [l|] eqn:Hl;
    [by apply (Hwf m)|apply Forall_nil_2].
Qed.

(** A resolved event whose record is built, by what it does to the
    records: the list of its module gets the records of the event at
    its end, and its records change by growing only. *)
Lemma process_docstring_grows (app app' : env) (_type name : string)
    (obj : pyobj) (lines : list string) (cls : option string) (m : string)
    (datam : record) :
  well_formed (docfx_yaml_modules app) →
  _get_cls_module _type name = (cls, Some m) →
  truthy m = true →
  _create_datam app cls m name _type obj lines = Ok (datam, app') →
  ∃ after,
    module datam = m
    ∧ Forall2 grown
        (default [] (docfx_yaml_modules app !! m)
           ++ appended _type m name datam) after
    ∧ process_docstring app _type name obj lines
      = Ok (set_modules (<[m := after]> (docfx_yaml_modules app)) app).
Proof.
  intros Hwf Hpair Hm Hcreate.
  destruct (process_docstring_resolved app app' _type name obj lines cls m
              datam Hwf Hpair Hm Hcreate)
    as (after_scan & (Hmod & Huid & Hty) & Hknows & _ & Hloop & Hrun).
  eexists. split; [done|]. split; [|exact Hrun].
  apply Forall2_alter_r.
  - apply (insert_children_loop_grown _type datam _ _ Hknows); [|done].
    apply Forall_app_2; [by apply before_has_children|].
    by eapply appended_has_children.
  - intros x y _ _ Hxy. eapply grown_trans; [done|].
    apply grown_insert_inheritance.
Qed.

(** The records an event files depend on the environment through the
    branch and the remote only. *)
Lemma registered_env (app app' : env) (e : event) (key : string) :
  branch app' = branch app → remote app' = remote app →
  registered app' e key = registered app e key.
Proof.
  intros Hb Hr. unfold registered.
  destruct (_get_cls_module (ev_type e) (ev_name e)) as [cls [m|]]; [|done].
  destruct (truthy m && String.eqb m key); [|done].
  unfold _create_datam.
  destruct (getitem TYPE_MAPPING (ev_type e)) as [v|[]];
    cbn [mbind result_bind]; try done;
    destruct (ev_obj e) as [mo n b p l|mo n b err];
    cbn [obj_path obj_startline mbind result_bind]; try done;
    cbn [print branch remote];
    by rewrite Hb, Hr.
Qed.

Lemma registered_unresolved (app : env) (e : event) (key : string) :
  truthy_opt (_get_cls_module (ev_type e) (ev_name e)).2 = false →
  registered app e key = [].
Proof.
  unfold registered.
  destruct (_get_cls_module (ev_type e) (ev_name e)) as [cls [m|]]; [|done].
  cbn. by intros ->.
Qed.

(** One event that returns, on every list of the registry. *)
Lemma process_docstring_step (app app' : env) (e : event) :
  well_formed (docfx_yaml_modules app) →
  process_docstring app (ev_type e) (ev_name e) (ev_obj e) (ev_lines e)
  = Ok app' →
  branch app' = branch app ∧ remote app' = remote app
  ∧ ∀ key,
      Forall2 grown
        (default [] (docfx_yaml_modules app !! key) ++ registered app e key)
        (default [] (docfx_yaml_modules app' !! key)).
Proof.
  intros Hwf Hrun.
  destruct (process_docstring_ok _ _ _ _ _ _ Hrun)
    as [[Hnot ->]|(cls & m & datam & Hpair & Hm & _ & Hcreate)].
  - split; [done|]. split; [done|]. intros key.
    rewrite (registered_unresolved _ _ _ Hnot), app_nil_r.
    apply Forall2_grown_refl.
  - destruct (process_docstring_grows app app (ev_type e) (ev_name e)
                (ev_obj e) (ev_lines e) cls m datam Hwf Hpair Hm Hcreate)
      as (after & Hmod & Hgrown & Hrun').
    rewrite Hrun' in Hrun. injection Hrun as <-.
    split; [done|]. split; [done|]. intros key.
    unfold registered. rewrite Hpair, Hm, Hcreate. cbn [andb set_modules
      docfx_yaml_modules].
    destruct (String.eqb_spec m key) as [<-|Hne].
    + by rewrite lookup_insert_eq.
    + rewrite lookup_insert_ne by done. rewrite app_nil_r.
      apply Forall2_grown_refl.
Qed.

(** A run that returns, on every list of the registry. *)
Lemma run_grows (events : list event) (app app' : env) :
  well_formed (docfx_yaml_modules app) →
  run app events = Ok app' →
  ∀ key,
    Forall2 grown
      (default [] (docfx_yaml_modules app !! key)
         ++ concat (map (fun e => registered app e key) events))
      (default [] (docfx_yaml_modules app' !! key)).
Proof.
  revert app. induction events as [|e events IH]; intros app Hwf Hrun.
  - injection Hrun as <-. intros key. cbn. rewrite app_nil_r.
    apply Forall2_grown_refl.
  - destruct (run_cons _ _ _ _ Hrun) as (app1 & Hstep & Hrest).
    destruct (process_docstring_step app app1 e Hwf Hstep)
      as (Hb & Hr & Hgrown).
    pose proof (IH app1 (process_docstring_shape _ _ _ _ _ _ Hwf Hstep) Hrest)
      as Hall.
    intros key. cbn [map concat]. rewrite app_assoc.
    eapply Forall2_grown_trans; [|apply Hall].
    apply Forall2_app; [apply Hgrown|].
    rewrite (map_ext (fun e => registered app1 e key)
                     (fun e => registered app e key))
      by (intros e'; by apply registered_env).
    apply Forall2_grown_refl.
Qed.

(** One event keeps the records filed. *)
Lemma process_docstring_filed (app app' : env) (e : event) :
  well_formed (docfx_yaml_modules app) →
  filed (docfx_yaml_modules app) →
  process_docstring app (ev_type e) (ev_name e) (ev_obj e) (ev_lines e)
  = Ok app' →
  filed (docfx_yaml_modules app').
Proof.
  intros Hwf Hfiled Hrun.
  destruct (process_docstring_ok _ _ _ _ _ _ Hrun)
    as [[Hnot ->]|(cls & m & datam & Hpair & Hm & _ & Hcreate)]; [done|].
  destruct (process_docstring_grows app app (ev_type e) (ev_name e)
              (ev_obj e) (ev_lines e) cls m datam Hwf Hpair Hm Hcreate)
    as (after & Hmod & Hgrown & Hrun').
  rewrite Hrun' in Hrun. injection Hrun as <-.
  intros key records. cbn [set_modules docfx_yaml_modules].
  rewrite lookup_insert. case_decide as Hkey; [|apply Hfiled].
  subst key. intros [= <-]. split; [done|]. split.
  + intros ->. apply Forall2_length in Hgrown.
    rewrite length_app in Hgrown. unfold appended in Hgrown.
    cbn [length] in Hgrown. lia.
  + eapply Forall2_Forall_r; [exact Hgrown|].
    apply Forall_app_2.
    * destruct (docfx_yaml_modules app !! m) as [l|] eqn:Hl;
        [|apply Forall_nil_2].
      destruct (Hfiled _ _ Hl) as (_ & _ & Hall).
      eapply Forall_impl; [exact Hall|]. cbn [default from_option id].
      intros r Hr r' Hgr. by rewrite (grown_module _ _ Hgr).
    * unfold appended. apply Forall_cons_2.
      { intros r' Hgr. by rewrite (grown_module _ _ Hgr). }
      destruct (String.eqb (ev_type e) "module"); [|apply Forall_nil_2].
      apply Forall_cons_2; [|apply Forall_nil_2].
      intros r' Hgr. by rewrite (grown_module _ _ Hgr).
Qed.

Lemma run_filed (events : list event) (app app' : env) :
  well_formed (docfx_yaml_modules app) →
  filed (docfx_yaml_modules app) →
  run app events = Ok app' →
  filed (docfx_yaml_modules app').
Proof.
  revert app. induction events as [|e events IH]; intros app Hwf Hfiled.
  - by intros [= <-].
  - intros Hrun. destruct (run_cons _ _ _ _ Hrun) as (app1 & Hstep & Hrest).
    apply (IH app1); [|exact (process_docstring_filed app app1 e Hwf Hfiled
                                Hstep)|done].
    exact (process_docstring_shape _ _ _ _ _ _ Hwf Hstep).
Qed.

Lemma Forall2_grown_uids (l l' : list record) :
  Forall2 grown l l' → map uid l' = map uid l.
Proof.
  induction 1 as [|r r' l l' (c & i & -> & _) _ IH]; [done|].
  cbn. by rewrite IH.
Qed.

Lemma build_init_registry (docfx_yaml_output remote branch : string)
    (app : env) :
  build_init docfx_yaml_output remote branch = Ok app →
  docfx_yaml_modules app = ∅.
Proof.
  unfold build_init. destruct (truthy docfx_yaml_output); [|done].
  by intros [= <-].
Qed.

End run_facts.

(** X6. In the registry that a run builds after [build_init], no module
    name is empty, no module has an empty list, and every record is
    kept in the list of the module that the record itself names. *)
Theorem registry_stays_filed (docfx_yaml_output remote branch : string)
    (events : list event) (app app' : env) :
  build_init docfx_yaml_output remote branch = Ok app →
  run app events = Ok app' →
  filed (docfx_yaml_modules app').
Proof.
  intros Hinit. apply build_init_registry in Hinit.
  apply run_filed; rewrite Hinit; intros key records;
    by rewrite lookup_empty.
Qed.

Lemma registry_stays_filed_witness :
  filed (docfx_yaml_modules
           (returned (Env ∅ "" "" [])
              (run (Env ∅ "main" "origin" [])
                 [Event "module" "pkg.sub"
                        (PyObj "pkg" "sub" None "pkg/sub.py" 1) [];
                  Event "function" ".f" (PyObj "" "f" None "f.py" 1) [];
                  Event "class" "pkg.sub.Foo"
                        (PyObj "pkg.sub" "Foo" (Some []) "pkg/sub.py" 5)
                        []]))).
Proof.
  apply (registry_stays_filed "_build" "origin" "main"
           [Event "module" "pkg.sub" (PyObj "pkg" "sub" None "pkg/sub.py" 1) [];
            Event "function" ".f" (PyObj "" "f" None "f.py" 1) [];
            Event "class" "pkg.sub.Foo"
                  (PyObj "pkg.sub" "Foo" (Some []) "pkg/sub.py" 5) []]
           (Env ∅ "main" "origin" [])).
  - reflexivity.
  - by vm_compute.
Defined.

(** X7. After a run that has returned, the list of every module holds
    what it held before, in the same order, and after that the records
    of the events resolved to that module, in the order of the events
    (for a module event its record, then the holder). Each record is as
    it was or as it was built, except that its children and its
    inheritance may have grown at their end: no record is removed,
    moved or rewritten, and the uids of the list are those of the
    events, in order. *)
Theorem run_registers_in_order (app app' : env) (events : list event) :
  well_formed (docfx_yaml_modules app) →
  run app events = Ok app' →
  ∀ key,
    Forall2 grown
      (default [] (docfx_yaml_modules app !! key)
         ++ concat (map (fun e => registered app e key) events))
      (default [] (docfx_yaml_modules app' !! key))
    ∧ map uid (default [] (docfx_yaml_modules app' !! key))
      = map uid (default [] (docfx_yaml_modules app !! key))
          ++ concat (map (fun e => map uid (registered app e key))
                         events).
Proof.
  intros Hwf Hrun key.
  pose proof (run_grows events app app' Hwf Hrun key) as Hall.
  split; [exact Hall|].
  rewrite (Forall2_grown_uids _ _ Hall).
  by rewrite map_app, concat_map, map_map.
Qed.

Lemma run_registers_in_order_witness :
  let events :=
    [Event "module" "pkg" (PyObj "pkg" "pkg" None "pkg.py" 1) [];
     Event "data" "pkg.x" (NoSource "builtins" "int" None TypeError) [];
     Event "class" "pkg.Foo" (PyObj "pkg" "Foo" (Some []) "pkg.py" 4) []] in
  let app' :=
    returned (Env ∅ "" "" []) (run (Env ∅ "main" "origin" []) events) in
  Forall2 grown
    (default [] (docfx_yaml_modules (Env ∅ "main" "origin" []) !! "pkg")
       ++ concat
            (map (fun e => registered (Env ∅ "main" "origin" []) e "pkg")
                 events))
    (default [] (docfx_yaml_modules app' !! "pkg"))
  ∧ map uid (default [] (docfx_yaml_modules app' !! "pkg"))
    = ["pkg"; "pkg.Global"; "pkg.Foo"].
Proof.
  intros events app'.
  destruct (run_registers_in_order (Env ∅ "main" "origin" []) app' events)
    with (key := "pkg") as [Hgrown Huids].
  - intros key records. cbn. by rewrite lookup_empty.
  - by vm_compute.
  - split; [exact Hgrown|]. rewrite Huids. by vm_compute.
Defined.

(** *** Children and the records they name *)

Section children_facts.

Lemma str_in_app (x : string) (l1 l2 : list string) :
  str_in x (l1 ++ l2) = str_in x l1 || str_in x l2.
Proof. unfold str_in. apply existsb_app. Qed.

(** The first record that a test accepts, when there is one. *)
Lemma first_accepted {A : Type} (p : A → bool) (l : list A) :
  Forall (fun x => p x = false) l
  ∨ ∃ earlier x later,
      l = earlier ++ x :: later
      ∧ Forall (fun x => p x = false) earlier ∧ p x = true.
Proof.
  induction l as [|x l IH]; [left; apply Forall_nil_2|].
  destruct (p x) eqn:Hx.
  - right. exists [], x, l. split; [done|]. split; [apply Forall_nil_2|done].
  - destruct IH as [Hnone|(earlier & y & later & -> & Hearlier & Hy)].
    + left. by apply Forall_cons_2.
    + right. exists (x :: earlier), y, later. split; [done|].
      split; [by apply Forall_cons_2|done].
Qed.

Lemma map_uid_set_children (earlier later : list record) (parent : record)
    (c : list string) :
  map uid (earlier ++ set_children c parent :: later)
  = map uid (earlier ++ parent :: later).
Proof. by rewrite !map_app. Qed.

Lemma children_follow_app (l news : list record) :
  children_follow l = true → children_follow news = true →
  children_follow (l ++ news) = true.
Proof.
  intros Hl Hnews. induction l as [|r rest IH]; [done|].
  cbn [children_follow List.app] in *.
  apply andb_true_iff in Hl as [Hr Hrest].
  apply andb_true_iff. split; [|by apply IH].
  rewrite forallb_forall in Hr. apply forallb_forall. intros c Hc.
  rewrite map_app, str_in_app, (Hr c Hc). done.
Qed.

(** A record gets a child that names a record further down. *)
Lemma children_follow_linked (earlier later : list record) (parent : record)
    (kids : list string) (x : string) :
  children_follow (earlier ++ parent :: later) = true →
  children parent = Some kids →
  str_in x (map uid later) = true →
  children_follow (earlier ++ set_children (kids ++ [x]) parent :: later)
  = true.
Proof.
  intros Hl Hkids Hx. induction earlier as [|r rest IH].
  - cbn [children_follow List.app set_children children default
         from_option id] in *.
    rewrite Hkids in Hl. cbn [default from_option id] in Hl.
    apply andb_true_iff in Hl as [Hparent Hlater].
    apply andb_true_iff. split; [|done].
    rewrite forallb_app, Hparent. cbn [forallb]. by rewrite Hx.
  - cbn [children_follow List.app] in *.
    apply andb_true_iff in Hl as [Hr Hrest].
    apply andb_true_iff. split; [|by apply IH].
    by rewrite map_uid_set_children.
Qed.

Lemma map_uid_alter (f : record → record) (i : nat) (l : list record) :
  (∀ r, uid (f r) = uid r) → map uid (alter f i l) = map uid l.
Proof.
  intros Hf. revert i. induction l as [|r l IH]; intros [|i]; [done..| |].
  - cbn. by rewrite Hf.
  - cbn. by rewrite IH.
Qed.

Lemma children_follow_alter (f : record → record) (i : nat)
    (l : list record) :
  (∀ r, uid (f r) = uid r) → (∀ r, children (f r) = children r) →
  children_follow (alter f i l) = children_follow l.
Proof.
  intros Hu Hc. revert i. induction l as [|r l IH]; intros [|i]; [done..| |].
  - cbn. by rewrite Hc.
  - cbn. by rewrite IH, (map_uid_alter f i l Hu).
Qed.

(** The resolver leaves the uid and the children of a record alone. *)
Lemma insert_inheritance_uid_children (obj : pyobj) (d : record) :
  uid (insert_inheritance obj d) = uid d
  ∧ children (insert_inheritance obj d) = children d.
Proof.
  rewrite insert_inheritance_any. by destruct (obj_bases obj).
Qed.

(** The records of an event name no child. *)
Lemma children_follow_appended (app app' : env) (cls : option string)
    (m name _type : string) (obj : pyobj) (lines : list string)
    (datam : record) :
  _create_datam app cls m name _type obj lines = Ok (datam, app') →
  children_follow (appended _type m name datam) = true.
Proof.
  intros Hcreate. apply _create_datam_children in Hcreate as [Hkids _].
  unfold appended. cbn [children_follow]. rewrite Hkids.
  destruct (str_in _type ["class"; "module"]);
    by destruct (String.eqb _type "module").
Qed.

(** One event keeps the children behind their parents. *)
Lemma process_docstring_children_follow (app app' : env) (e : event) :
  well_formed (docfx_yaml_modules app) →
  all_follow (docfx_yaml_modules app) →
  process_docstring app (ev_type e) (ev_name e) (ev_obj e) (ev_lines e)
  = Ok app' →
  all_follow (docfx_yaml_modules app').
Proof.
  intros Hwf Hall Hrun.
  destruct (process_docstring_ok _ _ _ _ _ _ Hrun)
    as [[Hnot ->]|(cls & m & datam & Hpair & Hm & _ & Hcreate)].
  - exact Hall.
  - destruct (process_docstring_resolved app app (ev_type e) (ev_name e)
                (ev_obj e) (ev_lines e) cls m datam Hwf Hpair Hm Hcreate)
      as (after_scan & (Hmod & Huid & Hty) & Hknows & _ & Hloop & Hrun').
    rewrite Hrun' in Hrun. injection Hrun as <-.
    intros key records. cbn [set_modules docfx_yaml_modules].
    rewrite lookup_insert. case_decide as Hkey; [|apply Hall].
    subst key. intros [= <-].
    rewrite children_follow_alter
      by (intros r; apply insert_inheritance_uid_children).
    set (before := default [] (docfx_yaml_modules app !! m)) in *.
    set (news := appended (ev_type e) m (ev_name e) datam) in *.
    assert (Hbefore : children_follow before = true).
    { unfold before.
      destruct (docfx_yaml_modules app !! m) as [l|] eqn:Hl; [|done].
      by apply (Hall m). }
    assert (Hnews : children_follow news = true)
      by (by eapply children_follow_appended).
    assert (Hboth : children_follow (before ++ news) = true)
      by (by apply children_follow_app).
    destruct (first_accepted (accepts (ev_type e) datam) before)
      as [Hnone|(earlier & parent & later & Hsplit & Hearlier & Hparent)].
    + rewrite (insert_children_loop_none (ev_type e) datam _ Hknows)
        in Hloop.
      * by injection Hloop as <-.
      * apply Forall_app_2; [done|]. by apply appended_not_parent.
    + assert (Hkids : is_Some (children parent)).
      { pose proof (before_has_children _ m Hwf) as Hhas.
        fold before in Hhas. rewrite Hsplit in Hhas.
        apply Forall_app in Hhas as [_ Hhas].
        apply Forall_cons in Hhas as [Hp _].
        apply Hp. by apply (accepts_class_or_module (ev_type e) datam). }
      destruct Hkids as [kids Hkids].
      rewrite Hsplit, <- app_assoc in Hloop, Hboth.
      cbn [List.app] in Hloop, Hboth.
      rewrite (insert_children_loop_at (ev_type e) datam parent earlier
                 (later ++ news) kids Hknows Hearlier Hparent Hkids)
        in Hloop.
      injection Hloop as <-.
      apply children_follow_linked; [done..|].
      rewrite map_app, str_in_app. unfold news, appended. cbn [map].
      unfold str_in at 2. cbn [existsb]. rewrite String.eqb_refl.
      apply orb_true_r.
Qed.

Lemma run_children_follow (events : list event) (app app' : env) :
  well_formed (docfx_yaml_modules app) →
  all_follow (docfx_yaml_modules app) →
  run app events = Ok app' →
  all_follow (docfx_yaml_modules app').
Proof.
  revert app. induction events as [|e events IH]; intros app Hwf Hall.
  - by intros [= <-].
  - intros Hrun. destruct (run_cons _ _ _ _ Hrun) as (app1 & Hstep & Hrest).
    apply (IH app1);
      [|exact (process_docstring_children_follow app app1 e Hwf Hall Hstep)
       |done].
    exact (process_docstring_shape _ _ _ _ _ _ Hwf Hstep).
Qed.

End children_facts.

(** X8. In the registry that a run builds after [build_init], every
    uid in a children list is the uid of a record further down the same
    module's list: a parent stands before each of its children, in the
    same module, and no children list names a record that is not
    there. *)
Theorem children_are_later_records (docfx_yaml_output remote branch : string)
    (events : list event) (app app' : env) (key : string)
    (records : list record) :
  build_init docfx_yaml_output remote branch = Ok app →
  run app events = Ok app' →
  docfx_yaml_modules app' !! key = Some records →
  children_follow records = true.
Proof.
  intros Hinit Hrun. apply build_init_registry in Hinit.
  revert key records.
  apply (run_children_follow events app app'); [| |done];
    rewrite Hinit; intros key records; by rewrite lookup_empty.
Qed.

Lemma children_are_later_records_witness :
  children_follow
    (default []
       (docfx_yaml_modules
          (returned (Env ∅ "" "" [])
             (run (Env ∅ "main" "origin" [])
                [Event "module" "pkg" (PyObj "pkg" "pkg" None "pkg.py" 1) [];
                 Event "class" "pkg.Foo"
                       (PyObj "pkg" "Foo" (Some []) "pkg.py" 4) [];
                 Event "method" "pkg.Foo.bar"
                       (PyObj "pkg" "bar" None "pkg.py" 6) [];
                 Event "function" "pkg.f"
                       (PyObj "pkg" "f" None "pkg.py" 9) []]))
        !! "pkg"))
  = true.
Proof.
  apply (children_are_later_records "_build" "origin" "main"
           [Event "module" "pkg" (PyObj "pkg" "pkg" None "pkg.py" 1) [];
            Event "class" "pkg.Foo" (PyObj "pkg" "Foo" (Some []) "pkg.py" 4) [];
            Event "method" "pkg.Foo.bar" (PyObj "pkg" "bar" None "pkg.py" 6) [];
            Event "function" "pkg.f" (PyObj "pkg" "f" None "pkg.py" 9) []]
           (Env ∅ "main" "origin" [])
           (returned (Env ∅ "" "" [])
              (run (Env ∅ "main" "origin" [])
                 [Event "module" "pkg" (PyObj "pkg" "pkg" None "pkg.py" 1) [];
                  Event "class" "pkg.Foo"
                        (PyObj "pkg" "Foo" (Some []) "pkg.py" 4) [];
                  Event "method" "pkg.Foo.bar"
                        (PyObj "pkg" "bar" None "pkg.py" 6) [];
                  Event "function" "pkg.f"
                        (PyObj "pkg" "f" None "pkg.py" 9) []]))
           "pkg").
  - reflexivity.
  - by vm_compute.
  - by vm_compute.
Defined.

(** *** Names, owners and uids *)

Section names.

Lemma append_assoc (a b c : string) : (a +:+ b) +:+ c = a +:+ b +:+ c.
Proof.
  induction a as [|x a IH]; [done|].
  change (String x ((a +:+ b) +:+ c) = String x (a +:+ b +:+ c)).
  by rewrite IH.
Qed.

Lemma join_snoc (init : list string) (x : string) :
  init ≠ [] → join "." (init ++ [x]) = join "." init +:+ "." +:+ x.
Proof.
  induction init as [|y [|y' init] IH]; intros Hne; [done|done|].
  change (join "." ((y :: y' :: init) ++ [x]))
    with (y +:+ "." +:+ join "." ((y' :: init) ++ [x])).
  rewrite IH by done.
  change (join "." (y :: y' :: init))
    with (y +:+ "." +:+ join "." (y' :: init)).
  by rewrite !append_assoc.
Qed.

Lemma drop_last_snoc {A : Type} (init : list A) (x : A) :
  drop_last 1 (init ++ [x]) = init.
Proof.
  unfold drop_last. rewrite length_app. cbn [length].
  replace (length init + 1 - 1) with (length init) by lia.
  by rewrite take_app_length.
Qed.

Lemma drop_last_twice {A : Type} (l : list A) :
  drop_last 1 (drop_last 1 l) = drop_last 2 l.
Proof.
  unfold drop_last. rewrite length_take, take_take. f_equal. lia.
Qed.

Lemma drop_last_short {A : Type} (k : nat) (l : list A) :
  length l ≤ k → drop_last k l = [].
Proof.
  intros Hk. unfold drop_last.
  replace (length l - k) with 0 by lia. done.
Qed.

(** A name whose owner is named is the owner, a dot, and the last
    segment. *)
Lemma name_of_owner (name : string) :
  truthy (join "." (drop_last 1 (split_dot name))) = true →
  name = join "." (drop_last 1 (split_dot name)) +:+ "."
           +:+ last_segment (split_dot name).
Proof.
  intros Howner. rewrite <- (join_split_dot name) at 1. revert Howner.
  generalize (split_dot_not_nil name). generalize (split_dot name) as segs.
  intros segs Hne. destruct segs as [|s segs _] using rev_ind; [done|].
  rewrite drop_last_snoc. unfold last_segment. rewrite last_last.
  intros Hinit. apply join_snoc. by intros ->.
Qed.

(** The segments of an owner are the segments of the name without the
    last. *)
Lemma split_dot_owner (name : string) :
  truthy (join "." (drop_last 1 (split_dot name))) = true →
  split_dot (join "." (drop_last 1 (split_dot name)))
  = drop_last 1 (split_dot name).
Proof.
  intros Howner. apply split_dot_join.
  - intros Hnil. by rewrite Hnil in Howner.
  - unfold drop_last. apply Forall_take, split_dot_all_dotless.
Qed.

(** What [_create_datam] writes from its arguments. *)
Lemma _create_datam_keys (app app' : env) (cls : option string)
    (m name _type : string) (obj : pyobj) (lines : list string)
    (datam : record) :
  _create_datam app cls m name _type obj lines = Ok (datam, app') →
  module datam = m ∧ uid datam = name
  ∧ Extension.name datam = last_segment (split_dot name)
  ∧ class datam = (if truthy_opt cls then cls else None).
Proof.
  intros Hcreate.
  by destruct (_create_datam_ok _ _ _ _ _ _ _ _ _ Hcreate)
    as (_ & _ & _ & Hmod & Huid & _ & Hname & Hcls & _).
Qed.

End names.

(** X9. A record that [_create_datam] has built for a resolved event
    that is no module has the uid that its owner and its name make: the
    owner, a dot, the name, where the owner is the class of a method or
    an attribute and the module of any other record. The class of a
    method or an attribute is its module, a dot, and the last segment
    of the class; a method or an attribute always has a class, another
    record never. *)
Theorem uid_is_owner_and_name (app app' : env) (_type name : string)
    (obj : pyobj) (lines : list string) (cls : option string) (m : string)
    (datam : record) :
  _get_cls_module _type name = (cls, Some m) →
  truthy m = true →
  _type ≠ "module" →
  _create_datam app cls m name _type obj lines = Ok (datam, app') →
  uid datam
  = default (module datam) (class datam) +:+ "." +:+ Extension.name datam
  ∧ (∀ c, class datam = Some c →
          c = module datam +:+ "." +:+ last_segment (split_dot c))
  ∧ (is_Some (class datam) ↔ str_in _type ["method"; "attribute"] = true).
Proof.
  intros Hpair Hm Hnot Hcreate.
  destruct (_create_datam_keys _ _ _ _ _ _ _ _ _ Hcreate)
    as (-> & -> & -> & ->).
  revert Hpair. unfold _get_cls_module.
  destruct (str_in _type ["function"; "exception"]) eqn:H1;
    [|destruct (str_in _type ["method"; "attribute"]) eqn:H2;
      [|destruct (str_in _type ["class"]) eqn:H3;
        [|destruct (str_in _type ["module"]) eqn:H4]]].
  - intros [= <- <-]. cbn [truthy_opt default from_option id].
    split; [by apply name_of_owner|]. split; [done|].
    split; [by intros []|].
    apply str_in_In in H1. rewrite str_in_In. simpl in *.
    intuition congruence.
  - intros [= <- <-].
    pose proof (class_of_member_named _ Hm) as Hcls.
    cbn [truthy_opt]. rewrite Hcls. cbn [default from_option id].
    split; [by apply name_of_owner|]. split; [|by split; [|eexists]].
    intros c [= <-].
    assert (Hsegs : drop_last 1 (split_dot (join "."
                                   (drop_last 1 (split_dot name))))
                    = drop_last 2 (split_dot name)).
    { rewrite (split_dot_owner name Hcls). apply drop_last_twice. }
    rewrite <- Hsegs. apply name_of_owner. by rewrite Hsegs.
  - intros [= <- <-]. cbn [truthy_opt default from_option id].
    split; [by apply name_of_owner|]. split; [done|].
    split; [by intros []|done].
  - apply str_in_In in H4. simpl in H4. intuition congruence.
  - done.
Qed.

Lemma uid_is_owner_and_name_witness :
  let datam :=
    (returned (global_holder "" "", Env ∅ "" "" [])
       (_create_datam (Env ∅ "main" "origin" []) (Some "pkg.sub.Foo")
          "pkg.sub" "pkg.sub.Foo.bar" "method"
          (PyObj "pkg.sub" "bar" None "pkg/sub.py" 8) [])).1 in
  uid datam = "pkg.sub.Foo.bar"
  ∧ uid datam
    = default (module datam) (class datam) +:+ "." +:+ Extension.name datam
  ∧ (∀ c, class datam = Some c →
          c = module datam +:+ "." +:+ last_segment (split_dot c))
  ∧ (is_Some (class datam) ↔ str_in "method" ["method"; "attribute"] = true).
Proof.
  intros datam. split; [by vm_compute|].
  apply (uid_is_owner_and_name (Env ∅ "main" "origin" [])
           (Env ∅ "main" "origin" []) "method"
           "pkg.sub.Foo.bar" (PyObj "pkg.sub" "bar" None "pkg/sub.py" 8) []
           (Some "pkg.sub.Foo") "pkg.sub" datam).
  - reflexivity.
  - reflexivity.
  - discriminate.
  - by vm_compute.
Defined.

(** X10. A name with too few segments for its kind is not registered: a
    function, an exception or a class whose name has no dot, and a
    method or an attribute whose name has fewer than three segments, have
    an empty owning module, and the event only prints the diagnostic
    of an unknown type. *)
Theorem short_name_is_dropped (app : env) (_type name : string)
    (obj : pyobj) (lines : list string) :
  (str_in _type ["function"; "exception"; "class"] = true
   ∧ length (split_dot name) ≤ 1)
  ∨ (str_in _type ["method"; "attribute"] = true
     ∧ length (split_dot name) ≤ 2) →
  process_docstring app _type name obj lines
  = Ok (print ("Unknown Type: " +:+ _type) app).
Proof.
  intros Hshort. apply process_docstring_unresolved.
  unfold _get_cls_module.
  destruct Hshort as [[Hkind Hlen]|[Hkind Hlen]].
  - rewrite (drop_last_short 1 _ Hlen).
    apply str_in_In in Hkind. simpl in Hkind.
    destruct Hkind as [<-|[<-|[<-|[]]]]; done.
  - rewrite (drop_last_short 2 _ Hlen).
    apply str_in_In in Hkind. simpl in Hkind.
    destruct Hkind as [<-|[<-|[]]]; done.
Qed.

Lemma short_name_is_dropped_witness :
  process_docstring (Env ∅ "main" "origin" []) "class" "Foo"
    (PyObj "__main__" "Foo" (Some []) "main.py" 3) ["A class."]
  = Ok (Env ∅ "main" "origin" ["Unknown Type: class"])
  ∧ process_docstring (Env ∅ "main" "origin" []) "method" "Foo.bar"
      (PyObj "__main__" "bar" None "main.py" 5) []
    = Ok (Env ∅ "main" "origin" ["Unknown Type: method"]).
Proof.
  split.
  - apply (short_name_is_dropped (Env ∅ "main" "origin" []) "class" "Foo").
    left. split; [reflexivity|]. cbn. lia.
  - apply (short_name_is_dropped (Env ∅ "main" "origin" []) "method"
             "Foo.bar").
    right. split; [reflexivity|]. cbn. lia.
Defined.

(** *** The files of [build_finished] *)

Section build.

(** The table of contents that the loop returns. *)
Lemma build_finished_loop_toc (verbosity : nat)
    (items : list (string * list record)) (out : output)
    (toc_yaml : list (string * string)) :
  (build_finished_loop verbosity items out toc_yaml).2
  = toc_yaml ++ map toc_entry (List.filter truthy (map fst items)).
Proof.
  revert out toc_yaml.
  induction items as [|[filename yaml_data] items IH]; intros out toc_yaml.
  - cbn. by rewrite app_nil_r.
  - cbn [build_finished_loop map fst List.filter].
    destruct (truthy filename); cbn [negb]; rewrite IH; [|done].
    cbn [map]. by rewrite <- app_assoc.
Qed.

(** The messages that the loop leaves. *)
Lemma build_finished_loop_info (verbosity : nat)
    (items : list (string * list record)) (out : output)
    (toc_yaml : list (string * string)) :
  info (build_finished_loop verbosity items out toc_yaml).1
  = info out
      ++ (if 1 <? verbosity
          then map (fun filename => "[docfx_yaml] Outputting " +:+ filename)
                   (List.filter truthy (map fst items))
          else []).
Proof.
  revert out toc_yaml.
  induction items as [|[filename yaml_data] items IH]; intros out toc_yaml.
  - cbn [build_finished_loop map fst List.filter].
    destruct (1 <? verbosity); by rewrite app_nil_r.
  - cbn [build_finished_loop map fst List.filter].
    destruct (truthy filename); cbn [negb]; rewrite IH; [|done].
    cbn [info]. destruct (1 <? verbosity); [|done].
    cbn [map]. by rewrite <- app_assoc.
Qed.

(** A path that is no module's file is not written by the loop. *)
Lemma build_finished_loop_other (verbosity : nat)
    (items : list (string * list record)) (out : output)
    (toc_yaml : list (string * string)) (path : string) :
  (∀ filename, filename ∈ map fst items → truthy filename = true →
               path ≠ filename +:+ ".yml") →
  files (build_finished_loop verbosity items out toc_yaml).1 !! path
  = files out !! path.
Proof.
  revert out toc_yaml.
  induction items as [|[filename yaml_data] items IH];
    intros out toc_yaml Hpath; [done|].
  cbn [build_finished_loop].
  assert (Hrest : ∀ filename0, filename0 ∈ map fst items →
                    truthy filename0 = true → path ≠ filename0 +:+ ".yml").
  { intros filename0 Hin. apply Hpath. cbn [map].
    by apply list_elem_of_further. }
  destruct (truthy filename) eqn:Hf; cbn [negb]; rewrite (IH _ _ Hrest);
    [|done].
  cbn [files]. apply lookup_insert_ne. symmetry. apply Hpath; [|done].
  cbn [map fst]. apply list_elem_of_here.
Qed.

(** The file of a module with a name, after the loop. *)
Lemma build_finished_loop_file (verbosity : nat)
    (items : list (string * list record)) (out : output)
    (toc_yaml : list (string * string)) (filename : string)
    (yaml_data : list record) :
  NoDup (map fst items) →
  (filename, yaml_data) ∈ items →
  truthy filename = true →
  files (build_finished_loop verbosity items out toc_yaml).1
    !! (filename +:+ ".yml")
  = Some (module_file yaml_data).
Proof.
  revert out toc_yaml.
  induction items as [|[filename0 yaml_data0] items IH];
    intros out toc_yaml Hnodup Hin Hf; [by apply elem_of_nil in Hin|].
  cbn [map fst] in Hnodup. apply NoDup_cons in Hnodup as [Hfresh Hnodup].
  cbn [build_finished_loop].
  apply elem_of_cons in Hin as [[= <- <-]|Hin].
  - rewrite Hf. cbn [negb]. rewrite build_finished_loop_other.
    + cbn [files]. apply lookup_insert_eq.
    + intros other Hother _ Heq. apply append_cancel_r in Heq.
      by subst other.
  - destruct (truthy filename0); cbn [negb]; by apply IH.
Qed.

Lemma build_finished_returns (verbosity : nat)
    (iter_items : list (string * list record)) (out : output) :
  build_finished "module" verbosity iter_items out
  = Some (Output
            (<["toc.yml" :=
                 toc_file (build_finished_loop verbosity iter_items out []).2]>
               (files (build_finished_loop verbosity iter_items out []).1))
            (info (build_finished_loop verbosity iter_items out []).1)).
Proof.
  unfold build_finished. cbn [String.eqb].
  change ("module" =? "module")%string with true.
  by destruct (build_finished_loop verbosity iter_items out []).
Qed.

(** What [build_finished] leaves for the items of a dictionary. *)
Lemma build_finished_items (verbosity : nat)
    (iter_items : list (string * list record)) (out : output) :
  NoDup (map fst iter_items) →
  ∃ out',
    build_finished "module" verbosity iter_items out = Some out'
    ∧ files out' !! "toc.yml"
      = Some (toc_file (map toc_entry
                            (List.filter truthy (map fst iter_items))))
    ∧ (∀ filename yaml_data,
         (filename, yaml_data) ∈ iter_items →
         truthy filename = true → filename ≠ "toc" →
         files out' !! (filename +:+ ".yml") = Some (module_file yaml_data))
    ∧ (∀ path,
         path ≠ "toc.yml" →
         (∀ filename, filename ∈ map fst iter_items →
                      truthy filename = true → path ≠ filename +:+ ".yml") →
         files out' !! path = files out !! path)
    ∧ info out'
      = info out
          ++ (if 1 <? verbosity
              then map (fun filename =>
                          "[docfx_yaml] Outputting " +:+ filename)
                       (List.filter truthy (map fst iter_items))
              else []).
Proof.
  intros Hnodup. eexists. split; [apply build_finished_returns|].
  cbn [files info]. split; [|split; [|split]].
  - rewrite lookup_insert_eq, build_finished_loop_toc. done.
  - intros filename yaml_data Hin Hf Hnot.
    rewrite lookup_insert_ne.
    + by apply build_finished_loop_file.
    + intros Heq. apply Hnot.
      symmetry. by apply (append_cancel_r "toc" filename ".yml").
  - intros path Hpath Hother. rewrite lookup_insert_ne by done.
    by apply build_finished_loop_other.
  - apply build_finished_loop_info.
Qed.

(** The items of the registry, in any order. *)
Lemma registry_items (modules : gmap string (list record))
    (iter_items : list (string * list record)) :
  iter_items ≡ₚ map_to_list modules →
  NoDup (map fst iter_items)
  ∧ ∀ key records,
      (key, records) ∈ iter_items ↔ modules !! key = Some records.
Proof.
  intros Hperm. split.
  - change (NoDup (iter_items.*1)). rewrite Hperm.
    apply NoDup_fst_map_to_list.
  - intros key records. rewrite Hperm. apply elem_of_map_to_list.
Qed.

Lemma filter_all {A : Type} (p : A → bool) (l : list A) :
  (∀ x, x ∈ l → p x = true) → List.filter p l = l.
Proof.
  induction l as [|x l IH]; intros Hall; [done|]. cbn [List.filter].
  rewrite (Hall x) by apply list_elem_of_here.
  rewrite IH; [done|]. intros y Hy. apply Hall. by apply list_elem_of_further.
Qed.

End build.

(** X11. [build_finished] in the mode ['module'], over the items of a
    dictionary: every item with a name that is not empty gets the file
    of that name with [.yml], holding the item's records, and an entry
    of the table of contents, in the order of the items; an item with
    the empty name gets neither. The table of contents is written last
    into [toc.yml], also where a module named [toc] had its file; no
    other file changes. In any other mode the function fails. *)
Theorem build_finished_files (docfx_yaml_mode : string) (verbosity : nat)
    (iter_items : list (string * list record)) (out : output) :
  NoDup (map fst iter_items) →
  (docfx_yaml_mode ≠ "module" →
   build_finished docfx_yaml_mode verbosity iter_items out = None)
  ∧ ∃ out',
      build_finished "module" verbosity iter_items out = Some out'
      ∧ files out' !! "toc.yml"
        = Some (toc_file (map toc_entry
                              (List.filter truthy (map fst iter_items))))
      ∧ (∀ filename yaml_data,
           (filename, yaml_data) ∈ iter_items →
           truthy filename = true → filename ≠ "toc" →
           files out' !! (filename +:+ ".yml")
           = Some (module_file yaml_data))
      ∧ (∀ path,
           path ≠ "toc.yml" →
           (∀ filename, filename ∈ map fst iter_items →
                        truthy filename = true →
                        path ≠ filename +:+ ".yml") →
           files out' !! path = files out !! path)
      ∧ info out'
        = info out
            ++ (if 1 <? verbosity
                then map (fun filename =>
                            "[docfx_yaml] Outputting " +:+ filename)
                         (List.filter truthy (map fst iter_items))
                else []).
Proof.
  intros Hnodup. split; [|by apply build_finished_items].
  intros Hmode. unfold build_finished.
  destruct (String.eqb_spec docfx_yaml_mode "module"); done.
Qed.

Lemma build_finished_files_witness :
  let foo :=
    Datam "pkg" "pkg.Foo" "Class" "class" "Foo" "pkg.Foo" "" None None
          (Some []) None None in
  let contents :=
    Datam "toc" "toc.Page" "Class" "class" "Page" "toc.Page" "" None None
          (Some []) None None in
  build_finished "module" 2 [("pkg", [foo]); ("", []); ("toc", [contents])]
                 (Output ∅ [])
  = Some (Output
            {[ "pkg.yml" := module_file [foo];
               "toc.yml" := toc_file [("pkg", "pkg.yml");
                                      ("toc", "toc.yml")] ]}
            ["[docfx_yaml] Outputting pkg"; "[docfx_yaml] Outputting toc"]).
Proof.
  intros foo contents.
  destruct (build_finished_files "module" 2
              [("pkg", [foo]); ("", []); ("toc", [contents])] (Output ∅ []))
    as (_ & out' & Hrun & _).
  - cbn [map fst].
    repeat (apply NoDup_cons_2;
            [intros Hin%list_elem_of_In; cbn in Hin; intuition discriminate|]).
    apply NoDup_nil_2.
  - rewrite Hrun. vm_compute in Hrun. by injection Hrun as <-.
Defined.

(** X12. After a run that follows [build_init], [build_finished] skips
    no module of the registry: the table of contents has one entry for
    every module, and every module not named [toc] has its file, which
    holds all the records of the module's list. *)
Theorem every_module_is_written (docfx_yaml_output remote branch : string)
    (events : list event) (app app' : env) (verbosity : nat)
    (iter_items : list (string * list record)) (out : output) :
  build_init docfx_yaml_output remote branch = Ok app →
  run app events = Ok app' →
  iter_items ≡ₚ map_to_list (docfx_yaml_modules app') →
  ∃ out',
    build_finished "module" verbosity iter_items out = Some out'
    ∧ files out' !! "toc.yml"
      = Some (toc_file (map toc_entry (map fst iter_items)))
    ∧ (∀ key, key ∈ map fst iter_items
              ↔ is_Some (docfx_yaml_modules app' !! key))
    ∧ (∀ key records,
         docfx_yaml_modules app' !! key = Some records → key ≠ "toc" →
         files out' !! (key +:+ ".yml") = Some (module_file records)).
Proof.
  intros Hinit Hrun Hperm.
  assert (Hfiled : filed (docfx_yaml_modules app')).
  { apply build_init_registry in Hinit.
    apply (run_filed events app app'); [| |done];
      rewrite Hinit; intros key records; by rewrite lookup_empty. }
  destruct (registry_items _ _ Hperm) as [Hnodup Hitems].
  assert (Hkeys : ∀ key, key ∈ map fst iter_items
                         ↔ is_Some (docfx_yaml_modules app' !! key)).
  { intros key.
    change (key ∈ iter_items.*1 ↔ is_Some (docfx_yaml_modules app' !! key)).
    rewrite list_elem_of_fmap. split.
    - intros ([key' records] & -> & Hin). apply Hitems in Hin. by eexists.
    - intros [records Hrecords]. exists (key, records).
      split; [done|]. by apply Hitems. }
  destruct (build_finished_items verbosity iter_items out Hnodup)
    as (out' & Hbuild & Htoc & Hfiles & _).
  exists out'. split; [done|]. split; [|split; [done|]].
  - rewrite Htoc. rewrite filter_all; [done|].
    intros key Hkey. apply Hkeys in Hkey as [records Hrecords].
    by destruct (Hfiled _ _ Hrecords).
  - intros key records Hrecords Hnot.
    apply Hfiles; [by apply Hitems| |done].
    by destruct (Hfiled _ _ Hrecords).
Qed.

Lemma every_module_is_written_witness :
  ∃ out',
    build_finished "module" 0
      (map_to_list
         (docfx_yaml_modules
            (returned (Env ∅ "" "" [])
               (run (Env ∅ "main" "origin" [])
                  [Event "module" "pkg" (PyObj "pkg" "pkg" None "pkg.py" 1)
                         []]))))
      (Output ∅ [])
    = Some out'
    ∧ files out' !! "toc.yml" = Some (toc_file [("pkg", "pkg.yml")])
    ∧ ∃ records,
        files out' !! "pkg.yml" = Some (module_file records)
        ∧ map uid records = ["pkg"; "pkg.Global"].
Proof.
  pose (events := [Event "module" "pkg" (PyObj "pkg" "pkg" None "pkg.py" 1)
                         []]).
  pose (app' := returned (Env ∅ "" "" [])
                  (run (Env ∅ "main" "origin" []) events)).
  destruct (every_module_is_written "_build" "origin" "main" events
              (Env ∅ "main" "origin" []) app' 0
              (map_to_list (docfx_yaml_modules app')) (Output ∅ []))
    as (out' & Hbuild & Htoc & _ & Hfiles).
  - reflexivity.
  - by vm_compute.
  - reflexivity.
  - exists out'. split; [exact Hbuild|]. split.
    + rewrite Htoc. by vm_compute.
    + eexists. split.
      * refine (Hfiles "pkg" _ _ _); [vm_compute; reflexivity|discriminate].
      * by vm_compute.
Defined.

(** *** What the normalizer accounts for *)

Ltac bind_ok H x Hx :=
  match type of H with
  | mbind _ ?m = Ok _ =>
      destruct m as [x|] eqn:Hx;
      [cbn [mbind result_bind] in H
      |cbn [mbind result_bind] in H; discriminate H]
  end.

Section normalizer_accounts.
Context {node : Type} `{RichText node}.

Lemma re_split_or_from_not_nil (acc s : string) : re_split_or_from acc s ≠ [].
Proof.
  revert acc. induction s as [|c s IH]; intros acc; [done|].
  cbn [re_split_or_from]. repeat case_match; first [done | apply IH].
Qed.

Lemma ends_with_newline_rstrip (s : string) :
  ends_with_newline (rstrip_newline s) = false.
Proof.
  induction s as [|c s IH]; [done|]. cbn [rstrip_newline].
  destruct (rstrip_newline s) as [|c' r] eqn:Hr.
  - destruct (Ascii.eqb c newline) eqn:Hc; [done|]. exact Hc.
  - exact IH.
Qed.

Lemma returntype_candidates_stripped (body : list node) :
  Forall (fun t => ends_with_newline t = false) (returntype_candidates body).
Proof.
  unfold returntype_candidates.
  induction body as [|n body IH]; [apply Forall_nil_2|].
  cbn [map concat]. apply Forall_app_2; [|done].
  destruct (truthy (transform_node n)); [|apply Forall_nil_2].
  apply Forall_map, Forall_true. intros text. apply ends_with_newline_rstrip.
Qed.

Lemma stripped_with_types (r : return_desc) (l : list string) :
  stripped r → Forall (fun t => ends_with_newline t = false) l →
  stripped (with_types r l).
Proof.
  intros [Hne Hall] Hl. destruct l as [|x l]; [done|].
  split; cbn [with_types r_type default from_option id].
  - intros [= Hnil]. by destruct (default [] (r_type r)).
  - by apply Forall_app_2.
Qed.

Lemma filter_raised (raises : list (string * string)) :
  List.filter no_description (raised raises) = raised raises.
Proof.
  induction raises as [|ret raises IH]; [done|].
  change (ExceptionDesc ret.1 None
            :: List.filter no_description (raised raises)
          = ExceptionDesc ret.1 None :: raised raises).
  by rewrite IH.
Qed.

(** One field of a group. *)
Lemma add_field_ok (name : string) (fieldtypes : gmap string (list node))
    (d d' : data) (item : string * list node) :
  add_field name fieldtypes d item = Ok d' →
  return_ d' = return_ d ∧ exceptions d' = exceptions d
  ∧ map p_id (parameters d')
    = map p_id (parameters d)
        ++ (if String.eqb name "parameter" then [item.1] else [])
  ∧ map p_id (variables d')
    = map p_id (variables d)
        ++ (if String.eqb name "variable" then [item.1] else []).
Proof.
  destruct item as [field nodes]. unfold add_field.
  destruct nodes as [|n rest]; [done|]. cbn [first mbind result_bind].
  intros [= <-].
  destruct (String.eqb name "parameter"), (String.eqb name "variable");
    cbn [parameters variables exceptions return_ make_param p_id fst];
    rewrite ?map_app, ?app_nil_r; done.
Qed.

(** The fields of a group. *)
Lemma add_fields_ok (name : string) (fieldtypes : gmap string (list node))
    (items : list (string * list node)) (d d' : data) :
  for_each (add_field name fieldtypes) items d = Ok d' →
  return_ d' = return_ d ∧ exceptions d' = exceptions d
  ∧ map p_id (parameters d')
    = map p_id (parameters d)
        ++ (if String.eqb name "parameter" then map fst items else [])
  ∧ map p_id (variables d')
    = map p_id (variables d)
        ++ (if String.eqb name "variable" then map fst items else []).
Proof.
  revert d. induction items as [|item items IH]; intros d.
  - intros [= <-]. by destruct (String.eqb name "parameter"),
      (String.eqb name "variable"); rewrite ?app_nil_r.
  - cbn [for_each]. intros Hok. bind_ok Hok d1 Hd1.
    apply add_field_ok in Hd1 as (Hr1 & He1 & Hp1 & Hv1).
    apply IH in Hok as (Hr & He & Hp & Hv).
    rewrite Hr, He, Hp, Hv, Hr1, He1, Hp1, Hv1.
    split; [done|]. split; [done|].
    destruct (String.eqb name "parameter"), (String.eqb name "variable");
      cbn [map]; rewrite <- ?app_assoc; done.
Qed.

(** The items of an entry of exceptions. *)
Lemma add_exceptions_ok (items : list (string * list node)) (d d' : data) :
  for_each
    (fun d '(_type, _description) =>
       first_node ← first _description;
       Ok (Data (parameters d) (variables d)
                (exceptions d ++
                   [ {| e_type := _type;
                        e_description := Some (transform_node first_node) |} ])
                (return_ d)))
    items d = Ok d' →
  parameters d' = parameters d ∧ variables d' = variables d
  ∧ return_ d' = return_ d
  ∧ List.filter no_description (exceptions d')
    = List.filter no_description (exceptions d).
Proof.
  revert d. induction items as [|[_type nodes] items IH]; intros d.
  - by intros [= <-].
  - cbn [for_each]. intros Hok. bind_ok Hok d1 Hd1.
    destruct nodes as [|n rest]; [done|].
    cbn [first mbind result_bind] in Hd1. injection Hd1 as <-.
    apply IH in Hok as (Hp & Hv & Hr & He).
    rewrite Hp, Hv, Hr, He.
    cbn [parameters variables exceptions return_].
    rewrite List.filter_app. cbn. by rewrite app_nil_r.
Qed.

(** One entry, by what it adds. *)
Lemma add_entry_ok (types : gmap string (gmap string (list node)))
    (field_object : list raw_field) (d d' : data) (e : entry node) :
  add_entry types field_object d e = Ok d' →
  map p_id (parameters d')
  = map p_id (parameters d) ++ fields_of "parameter" [e]
  ∧ map p_id (variables d')
    = map p_id (variables d) ++ fields_of "variable" [e]
  ∧ (stripped (return_ d) → stripped (return_ d'))
  ∧ ∀ raises,
      extract_exception_desc field_object = Ok raises →
      List.filter no_description (exceptions d')
      = List.filter no_description (exceptions d)
          ++ (if is_group e then raised raises else []).
Proof.
  destruct e as [|name c].
  { intros [= <-]. cbn. rewrite !app_nil_r. done. }
  unfold add_entry. intros Hok.
  bind_ok Hok d1 H1. bind_ok Hok d2 H2. bind_ok Hok d3 H3.
  assert (Hd1 : parameters d1 = parameters d ∧ variables d1 = variables d
                ∧ return_ d1 = return_ d
                ∧ List.filter no_description (exceptions d1)
                  = List.filter no_description (exceptions d)).
  { revert H1. destruct (String.eqb name "exceptions"); intros H1;
      [|by injection H1 as <-].
    bind_ok H1 items Hitems. by apply add_exceptions_ok in H1. }
  assert (Hd2 : parameters d2 = parameters d1 ∧ variables d2 = variables d1
                ∧ exceptions d2 = exceptions d1
                ∧ (stripped (return_ d1) → stripped (return_ d2))).
  { revert H2. destruct (String.eqb name "returntype"); intros H2;
      [|by injection H2 as <-].
    bind_ok H2 body Hbody. injection H2 as <-.
    cbn [parameters variables exceptions return_].
    split; [done|]. split; [done|]. split; [done|].
    intros Hstripped. rewrite add_returntypes.
    apply stripped_with_types; [done|].
    apply returntype_candidates_stripped. }
  assert (Hd3 : parameters d3 = parameters d2 ∧ variables d3 = variables d2
                ∧ exceptions d3 = exceptions d2
                ∧ r_type (return_ d3) = r_type (return_ d2)).
  { revert H3. destruct (String.eqb name "returnvalue"); intros H3;
      [|by injection H3 as <-].
    bind_ok H3 body Hbody. bind_ok H3 first_node Hfirst.
    revert H3. destruct (truthy (transform_node first_node));
      by intros [= <-]. }
  destruct Hd1 as (Hp1 & Hv1 & Hr1 & He1).
  destruct Hd2 as (Hp2 & Hv2 & He2 & Hr2).
  destruct Hd3 as (Hp3 & Hv3 & He3 & Hr3).
  assert (Hstripped : stripped (return_ d) → stripped (return_ d3)).
  { rewrite <- Hr1. intros Hs. apply Hr2 in Hs. unfold stripped in *.
    by rewrite Hr3. }
  cbn [is_group fields_of map concat].
  destruct (str_in name ["parameter"; "variable"]) eqn:Hgroup.
  - bind_ok Hok items Hitems. bind_ok Hok d4 H4. bind_ok Hok ret_list Hret.
    injection Hok as <-. cbn [parameters variables exceptions return_].
    apply add_fields_ok in H4 as (Hr4 & He4 & Hp4 & Hv4).
    destruct c as [items'|]; [|done]. injection Hitems as ->.
    rewrite Hp4, Hv4, Hr4, He4, Hp3, Hv3, He3, Hp2, Hv2, He2, Hp1, Hv1.
    rewrite !app_nil_r.
    split; [done|]. split; [done|]. split; [done|].
    intros raises Hraises.
    assert (ret_list = raises) as -> by congruence.
    rewrite List.filter_app, He1. f_equal. apply filter_raised.
  - injection Hok as <-.
    rewrite Hp3, Hv3, He3, Hp2, Hv2, He2, Hp1, Hv1.
    assert (Hp : String.eqb name "parameter" = false).
    { unfold str_in in Hgroup. cbn [existsb] in Hgroup.
      by destruct (String.eqb name "parameter"). }
    assert (Hv : String.eqb name "variable" = false).
    { unfold str_in in Hgroup. cbn [existsb] in Hgroup.
      destruct (String.eqb name "variable"); [|done].
      by rewrite orb_true_r in Hgroup. }
    rewrite Hp, Hv.
    split; [by destruct c; rewrite !app_nil_r|].
    split; [by destruct c; rewrite !app_nil_r|].
    split; [done|]. intros raises _. by rewrite He1, app_nil_r.
Qed.

(** The entries, from any state. *)
Lemma add_entries_ok (types : gmap string (gmap string (list node)))
    (field_object : list raw_field) (entries : list (entry node))
    (d d' : data) :
  for_each (add_entry types field_object) entries d = Ok d' →
  map p_id (parameters d')
  = map p_id (parameters d) ++ fields_of "parameter" entries
  ∧ map p_id (variables d')
    = map p_id (variables d) ++ fields_of "variable" entries
  ∧ (stripped (return_ d) → stripped (return_ d'))
  ∧ ∀ raises,
      extract_exception_desc field_object = Ok raises →
      List.filter no_description (exceptions d')
      = List.filter no_description (exceptions d)
          ++ concat (map (fun _ => raised raises)
                         (List.filter is_group entries)).
Proof.
  revert d. induction entries as [|e entries IH]; intros d.
  - intros [= <-]. cbn. by rewrite !app_nil_r.
  - cbn [for_each]. intros Hok. bind_ok Hok d1 Hd1.
    apply add_entry_ok in Hd1 as (Hp1 & Hv1 & Hs1 & He1).
    apply IH in Hok as (Hp & Hv & Hs & He).
    rewrite Hp, Hv, Hp1, Hv1. unfold fields_of in *.
    cbn [map concat] in *. rewrite !app_nil_r in *.
    rewrite <- !app_assoc.
    split; [done|]. split; [done|]. split; [by intros ?; apply Hs, Hs1|].
    intros raises Hraises. rewrite (He raises Hraises), (He1 raises Hraises).
    cbn [List.filter]. destruct (is_group e); cbn [map concat];
      by rewrite <- ?app_assoc, ?app_nil_r.
Qed.

End normalizer_accounts.

(** X13. No return type that [get_data_structure] returns ends with a
    newline, whatever the rendered texts are, and the ['return']
    dictionary never has a type key with an empty list: the key is
    absent or holds at least one type. *)
Theorem return_types_are_stripped {node : Type} `{RichText node}
    (entries : list (entry node))
    (types : gmap string (gmap string (list node)))
    (field_object : list raw_field) (d : data) :
  get_data_structure entries types field_object = Ok d →
  r_type (return_ d) ≠ Some []
  ∧ Forall (fun t => ends_with_newline t = false)
           (default [] (r_type (return_ d))).
Proof.
  intros Hok. apply add_entries_ok in Hok as (_ & _ & Hstripped & _).
  apply Hstripped. split; [done|apply Forall_nil_2].
Qed.

Lemma return_types_are_stripped_witness :
  let d := returned (Data [] [] [] (ReturnDesc None None))
             (get_data_structure (node := string)
                [returntype_entry [line (line "int") +:+ " or "]] ∅ []) in
  r_type (return_ d) ≠ Some []
  ∧ Forall (fun t => ends_with_newline t = false)
           (default [] (r_type (return_ d))).
Proof.
  intros d.
  apply (return_types_are_stripped (node := string)
           [returntype_entry [line (line "int") +:+ " or "]] ∅ []).
  by vm_compute.
Defined.

(** X14. The parameters and the variables that [get_data_structure]
    returns are, in order, the fields of the parameter entries and of
    the variable entries: one descriptor for each field, whose id is the
    field's name; no other entry adds a parameter or a variable. *)
Theorem descriptors_follow_fields {node : Type} `{RichText node}
    (entries : list (entry node))
    (types : gmap string (gmap string (list node)))
    (field_object : list raw_field) (d : data) :
  get_data_structure entries types field_object = Ok d →
  map p_id (parameters d) = fields_of "parameter" entries
  ∧ map p_id (variables d) = fields_of "variable" entries.
Proof.
  intros Hok. by apply add_entries_ok in Hok as (Hp & Hv & _).
Qed.

Lemma descriptors_follow_fields_witness :
  let entries :=
    [field_entry "parameter" (grouped [("a", ["the a"]); ("b", ["the b"])]);
     returnvalue_entry "a value";
     field_entry "variable" (grouped [("v", ["the v"])]);
     field_entry "parameter" (grouped [("c", ["the c"])])] in
  let d := returned (Data [] [] [] (ReturnDesc None None))
             (get_data_structure (node := string) entries ∅ []) in
  map p_id (parameters d) = ["a"; "b"; "c"] ∧ map p_id (variables d) = ["v"].
Proof.
  intros entries d.
  destruct (descriptors_follow_fields (node := string) entries ∅ [] d)
    as [Hp Hv]; [by vm_compute|].
  split; [rewrite Hp|rewrite Hv]; by vm_compute.
Defined.

(** X15. The exceptions without a description that [get_data_structure]
    returns are the targets of the Raises fields of the field list,
    once for every entry of parameters or of variables: a field list
    with both has every target twice, and one with neither has none. *)
Theorem raises_once_per_group {node : Type} `{RichText node}
    (entries : list (entry node))
    (types : gmap string (gmap string (list node)))
    (field_object : list raw_field) (d : data)
    (raises : list (string * string)) :
  get_data_structure entries types field_object = Ok d →
  extract_exception_desc field_object = Ok raises →
  List.filter no_description (exceptions d)
  = concat (map (fun _ => raised raises) (List.filter is_group entries)).
Proof.
  intros Hok Hraises. apply add_entries_ok in Hok as (_ & _ & _ & He).
  by rewrite (He raises Hraises).
Qed.

Lemma raises_once_per_group_witness :
  let field_object :=
    [RawField "field_name" "Raises" "field_body"
       [paragraph [pending_xref "ValueError" [literal "ValueError"]]]] in
  let entries :=
    [field_entry "parameter" (grouped [("a", ["the a"])]);
     field_entry "exceptions" (grouped [("KeyError", ["no key"])]);
     field_entry "variable" (grouped [("v", ["the v"])])] in
  exceptions (returned (Data [] [] [] (ReturnDesc None None))
                (get_data_structure (node := string) entries ∅ field_object))
  = [ExceptionDesc "ValueError" None;
     ExceptionDesc "KeyError" (Some "no key");
     ExceptionDesc "ValueError" None].
Proof.
  intros field_object entries.
  set (d := returned (Data [] [] [] (ReturnDesc None None))
              (get_data_structure (node := string) entries ∅ field_object)).
  assert (Hraised : List.filter no_description (exceptions d)
                    = concat (map (fun _ => raised [("ValueError", "ValueError")])
                                  (List.filter is_group entries))).
  { apply (raises_once_per_group (node := string) entries ∅ field_object);
      by vm_compute. }
  by vm_compute.
Defined.

(** X16. A parameter whose declared type is missing, or renders to the
    empty text, gets no type key. A parameter with a declared type gets
    the list of its candidates, which has at least one element and
    holds no [None]: the key of a parameter is never an empty list. *)
Theorem parameter_type_key {node : Type} `{RichText node}
    (fieldtypes : gmap string (list node)) (d : data) (field : string)
    (n : node) (rest : list node) :
  ∃ ty,
    add_field "parameter" fieldtypes d (field, n :: rest)
    = Ok (Data (parameters d ++ [Param field (transform_node n) ty])
               (variables d) (exceptions d) (return_ d))
    ∧ (truthy_opt (declared_type fieldtypes field) = false → ty = None)
    ∧ (∀ text,
         declared_type fieldtypes field = Some text → truthy text = true →
         re_split_or text ≠ []
         ∧ ty = Some (map (fun candidate => Some (parameter_candidate candidate))
                          (re_split_or text))).
Proof.
  eexists. split; [reflexivity|]. split.
  - intros Hnone. unfold parameter_types. by rewrite Hnone.
  - intros text Htext Htruthy.
    pose proof (re_split_or_from_not_nil EmptyString text) as Hne.
    split; [done|]. unfold parameter_types. rewrite Htext.
    cbn [truthy_opt default from_option id]. rewrite Htruthy.
    unfold re_split_or in *.
    by destruct (re_split_or_from EmptyString text).
Qed.

(** *** The parent of a captured attribute *)

Section parents.

Lemma split_dot_two (s : string) :
  dotless s = false → ∃ h h' t, split_dot s = h :: h' :: t.
Proof.
  induction s as [|c s IH]; [done|]. cbn [dotless split_dot].
  destruct (is_dot c) eqn:Hc; cbn [negb andb].
  - intros _. pose proof (split_dot_not_nil s) as Hne.
    destruct (split_dot s) as [|h t]; [done|]. by exists EmptyString, h, t.
  - intros Hs. destruct (IH Hs) as (h & h' & t & ->).
    by exists (String c h), h', t.
Qed.

Lemma drop_last_cons {A : Type} (x y : A) (l : list A) :
  drop_last 1 (x :: y :: l) = x :: drop_last 1 (y :: l).
Proof.
  unfold drop_last. cbn [length].
  replace (S (S (length l)) - 1) with (S (length l)) by lia.
  replace (S (length l) - 1) with (length l) by lia. done.
Qed.

(** The name without its last segment, for a name that goes on. *)
Lemma owner_cons (c : ascii) (s : string) :
  dotless s = false →
  join "." (drop_last 1 (split_dot (String c s)))
  = String c (join "." (drop_last 1 (split_dot s))).
Proof.
  intros Hs. destruct (split_dot_two s Hs) as (h & h' & t & Hsplit).
  cbn [split_dot]. rewrite Hsplit.
  destruct (is_dot c) eqn:Hc.
  - apply Ascii.eqb_eq in Hc as ->. rewrite drop_last_cons.
    rewrite (drop_last_cons h h' t). done.
  - rewrite !drop_last_cons. by destruct (drop_last 1 (h' :: t)).
Qed.

(** A dot is a character of its own. *)
Lemma dot_is_no_continuation (c : ascii) :
  is_dot c = true → is_continuation c = false.
Proof. intros Hc. by apply Ascii.eqb_eq in Hc as ->. Qed.

Lemma chars_append (a b : string) : chars (a +:+ b) = chars a + chars b.
Proof.
  induction a as [|c a IH]; [done|].
  change (String c a +:+ b) with (String c (a +:+ b)). cbn [chars].
  rewrite IH. by destruct (is_continuation c).
Qed.

(** Where the last dot is, counted in characters. *)
Lemma rfind_dot_from_owner (s : string) (i found : Z) :
  rfind_dot_from i found s
  = if dotless s then found
    else (i + Z.of_nat (chars (join "." (drop_last 1 (split_dot s)))))%Z.
Proof.
  revert i found. induction s as [|c s IH]; intros i found; [done|].
  cbn [rfind_dot_from dotless].
  destruct (is_continuation c) eqn:Hcont.
  - assert (Hc : is_dot c = false).
    { destruct (is_dot c) eqn:Hc; [|done].
      apply dot_is_no_continuation in Hc. congruence. }
    rewrite Hc, IH. cbn [negb andb].
    destruct (dotless s) eqn:Hs; [done|].
    rewrite (owner_cons c s Hs). cbn [chars]. by rewrite Hcont.
  - rewrite IH. destruct (dotless s) eqn:Hs.
    + destruct (is_dot c) eqn:Hc; cbn [negb andb]; [|done].
      cbn [split_dot]. rewrite Hc, (split_dot_dotless s Hs). cbn. lia.
    + rewrite andb_false_r, (owner_cons c s Hs). cbn [chars].
      rewrite Hcont. lia.
Qed.

(** The characters of a text before one of its characters. *)
Lemma take_chars_prefix (a b : string) (c : ascii) :
  is_continuation c = false →
  take_chars (chars a) (a +:+ String c b) = a.
Proof.
  intros Hc. induction a as [|x a IH].
  - change (EmptyString +:+ String c b) with (String c b).
    cbn [chars take_chars]. by rewrite Hc.
  - change (String x a +:+ String c b) with (String x (a +:+ String c b)).
    cbn [chars take_chars].
    destruct (is_continuation x); cbn [take_chars]; by rewrite IH.
Qed.

(** A name that goes on is its owner, a dot, and its last segment. *)
Lemma name_after_owner (name : string) :
  dotless name = false →
  name = join "." (drop_last 1 (split_dot name)) +:+ "."
           +:+ last_segment (split_dot name).
Proof.
  intros Hname. destruct (split_dot_two name Hname) as (h & h' & t & Hsplit).
  rewrite <- (join_split_dot name) at 1. rewrite Hsplit.
  destruct (h :: h' :: t) as [|x segs _] eqn:Hsegs using rev_ind; [done|].
  rewrite drop_last_snoc. unfold last_segment. rewrite last_last.
  apply join_snoc. intros ->. by destruct t.
Qed.

(** [curuid[:curuid.rfind('.')]]. *)
Lemma slice_to_rfind_dot (s : string) :
  slice_to s (rfind_dot s)
  = if dotless s then take_chars (chars s - 1) s
    else join "." (drop_last 1 (split_dot s)).
Proof.
  unfold rfind_dot, slice_to. rewrite rfind_dot_from_owner.
  destruct (dotless s) eqn:Hs.
  - cbn [Z.ltb Z.compare]. f_equal. lia.
  - set (owner := join "." (drop_last 1 (split_dot s))).
    assert (Hname : s = owner +:+ "." +:+ last_segment (split_dot s))
      by (by apply name_after_owner).
    assert (Hlen : chars owner ≤ chars s).
    { rewrite (f_equal chars Hname), chars_append. lia. }
    destruct (0 + Z.of_nat (chars owner) <? 0)%Z eqn:Hneg; [lia|].
    replace (Z.to_nat (Z.min (0 + Z.of_nat (chars owner))
                             (Z.of_nat (chars s))))
      with (chars owner) by lia.
    rewrite Hname at 1.
    exact (take_chars_prefix owner (last_segment (split_dot s)) "."
             eq_refl).
Qed.

End parents.

(** X17. A captured attribute takes its uid from the first of the ids
    of its signature, and a signature without ids raises [IndexError].
    The parent of the attribute (its class, or for a member of an
    enumeration its parent and its return type) is what stands before
    the last dot of the uid, which is the class that [_get_cls_module]
    gives to an attribute of that name. A uid without a dot has no last
    dot: the search gives -1 and the slice takes the last character
    off, so that the parent of "RED" is "RE". *)
Theorem capture_parent (is_enum : bool) (desctype : option string)
    (item : desc_item) :
  (item_ids item = [] → capture is_enum desctype item = Raise IndexError)
  ∧ (∀ curuid ids name texts,
       item_ids item = curuid :: ids →
       item_children_text item = name :: texts →
       ∃ attribute,
         capture is_enum desctype item = Ok attribute
         ∧ a_uid attribute = curuid
         ∧ a_name attribute = name
         ∧ (if is_enum then a_parent attribute else a_class attribute)
           = Some (if dotless curuid
                   then take_chars (chars curuid - 1) curuid
                   else default EmptyString
                          (_get_cls_module "attribute" curuid).1)
         ∧ (is_enum = true →
            a_return_type attribute
            = option_map (fun p => [p]) (a_parent attribute))).
Proof.
  split.
  - intros Hids. unfold capture. by rewrite Hids.
  - intros curuid ids name texts Hids Htexts. unfold capture.
    rewrite Hids, Htexts. cbn [mbind result_bind first].
    rewrite slice_to_rfind_dot.
    destruct is_enum; eexists; (split; [reflexivity|]);
      cbn [a_uid a_name a_parent a_class a_return_type option_map];
      (split; [done|]); (split; [done|]); (split; [|done]);
      by destruct (dotless curuid).
Qed.

Lemma capture_parent_witness :
  let accented :=
    "Caf" +:+ String (Ascii.ascii_of_nat 195)
                (String (Ascii.ascii_of_nat 169) EmptyString) in
  option_map a_class
    (match capture false (Some "attribute")
             (DescItem true ["pkg.Color.RED"] ["RED"] "RED = 1"
                       (Some "pkg")) with
     | Ok a => Some a
     | Raise _ => None
     end) = Some (Some "pkg.Color")
  ∧ option_map a_parent
      (match capture true (Some "attribute")
               (DescItem true ["RED"] ["RED"] "RED = 1" None) with
       | Ok a => Some a
       | Raise _ => None
       end) = Some (Some "RE")
  ∧ option_map a_class
      (match capture false (Some "attribute")
               (DescItem true [accented] ["x"] "x = 1" None) with
       | Ok a => Some a
       | Raise _ => None
       end) = Some (Some "Caf")
  ∧ capture false (Some "attribute") (DescItem true [] ["x"] "x = 1" None)
    = Raise IndexError.
Proof.
  intros accented. split; [|split; [|split]].
  - destruct (capture_parent false (Some "attribute")
                (DescItem true ["pkg.Color.RED"] ["RED"] "RED = 1"
                          (Some "pkg"))) as [_ Hcapture].
    destruct (Hcapture "pkg.Color.RED" [] "RED" [] eq_refl eq_refl)
      as (a & Hrun & Huid & _ & Hparent & _).
    rewrite Hrun. cbn [option_map]. rewrite Hparent. by vm_compute.
  - destruct (capture_parent true (Some "attribute")
                (DescItem true ["RED"] ["RED"] "RED = 1" None))
      as [_ Hcapture].
    destruct (Hcapture "RED" [] "RED" [] eq_refl eq_refl)
      as (a & Hrun & Huid & _ & Hparent & _).
    rewrite Hrun. cbn [option_map]. rewrite Hparent. by vm_compute.
  - destruct (capture_parent false (Some "attribute")
                (DescItem true [accented] ["x"] "x = 1" None))
      as [_ Hcapture].
    destruct (Hcapture accented [] "x" [] eq_refl eq_refl)
      as (a & Hrun & Huid & _ & Hparent & _).
    rewrite Hrun. cbn [option_map]. rewrite Hparent. by vm_compute.
  - destruct (capture_parent false (Some "attribute")
                (DescItem true [] ["x"] "x = 1" None)) as [Hnone _].
    by apply Hnone.
Defined.

(** *** The children of a described node *)

Section children_of_a_node_facts.
Context {node : Type} `{RichText node}.

Lemma for_each_app {A B : Type} (body : B → A → result B) (l1 l2 : list A)
    (b : B) :
  for_each body (l1 ++ l2) b = (b1 ← for_each body l1 b; for_each body l2 b1).
Proof.
  revert b. induction l1 as [|x l1 IH]; intros b; [done|].
  cbn [for_each List.app]. destruct (body b x) as [b'|e]; [|done].
  cbn [mbind result_bind]. apply IH.
Qed.

(** A loop that leaves a key alone in every round leaves it alone. *)
Lemma for_each_keeps_key {A : Type}
    (body : gmap string field_value → A → result (gmap string field_value))
    (key : string) :
  (∀ block x block', body block x = Ok block' → block' !! key = block !! key) →
  ∀ l block block',
    for_each body l block = Ok block' → block' !! key = block !! key.
Proof.
  intros Hbody l. induction l as [|x l IH]; intros block block'.
  - by intros [= <-].
  - cbn [for_each]. intros Hok. bind_ok Hok block1 H1.
    rewrite (IH _ _ Hok). by apply (Hbody _ x).
Qed.

Lemma update_lookup (block : gmap string field_value) (d : data)
    (key : string) (value : field_value) :
  (key, value) ∈ field_values d → update block d !! key = Some value.
Proof.
  unfold field_values, update. rewrite !elem_of_cons, elem_of_nil.
  intros [[= -> ->]|[[= -> ->]|[[= -> ->]|[[= -> ->]|[]]]]];
    repeat (rewrite lookup_insert_ne by done); by rewrite lookup_insert_eq.
Qed.

Lemma update_summary (block : gmap string field_value) (d : data) :
  update block d !! "summary" = block !! "summary".
Proof. unfold update. by repeat (rewrite lookup_insert_ne by done). Qed.

Lemma field_values_keys (d : data) (key : string) (value : field_value) :
  (key, value) ∈ field_values d →
  key ≠ "summary" ∧ key ≠ "seealso" ∧ key ≠ "example"
  ∧ key ≠ "added_attribute".
Proof.
  unfold field_values. rewrite !elem_of_cons, elem_of_nil.
  intros [[= -> ->]|[[= -> ->]|[[= -> ->]|[[= -> ->]|[]]]]]; done.
Qed.

(** One child, by what it does to the summary and to the data block. *)
Lemma add_child_ok (is_enum : bool) (summary summary' : list string)
    (block block' : gmap string field_value) (c : child node) :
  add_child is_enum (summary, block) c = Ok (summary', block') →
  summary'
  = summary ++ List.filter (fun content =>
                              negb (String.prefix "Bases: " content))
                           (plain_texts [c])
  ∧ block' !! "summary" = block !! "summary"
  ∧ match c with
    | field_list entries types field_object =>
        ∃ d, get_data_structure entries types field_object = Ok d
             ∧ block' = update block d
    | _ =>
        ∀ key, key ≠ "seealso" → key ≠ "example" →
               key ≠ "added_attribute" → block' !! key = block !! key
    end.
Proof.
  assert (Hplain : ∀ n,
            Ok (if negb (String.prefix "Bases: " (transform_node n))
                then (summary ++ [transform_node n], block)
                else (summary, block)) = Ok (summary', block') →
            summary' = summary
                         ++ List.filter
                              (fun content =>
                                 negb (String.prefix "Bases: " content))
                              [transform_node n]
            ∧ block' = block).
  { intros n. cbn [List.filter].
    destruct (negb (String.prefix "Bases: " (transform_node n)));
      intros [= <- <-]; by rewrite ?app_nil_r. }
  destruct c as [desctype items|entries types field_object|n
                |title n child_copy|n];
    unfold add_child, plain_texts; cbn [map concat]; intros Hok.
  - cbn [List.filter List.app]. rewrite ?app_nil_r.
    revert Hok. destruct (bool_decide (desctype = Some "attribute"));
      intros Hok; [|by injection Hok as <- <-].
    bind_ok Hok block1 Hloop. injection Hok as <- <-.
    assert (Hkeeps : ∀ key, key ≠ "added_attribute" →
                            block1 !! key = block !! key).
    { intros key Hkey. revert Hloop. apply for_each_keeps_key.
      intros b item b'. destruct (is_annotated_signature item);
        [|by intros [= <-]].
      intros Hitem. bind_ok Hitem sofar Hsofar.
      bind_ok Hitem addedData Hadded. injection Hitem as <-.
      by rewrite lookup_insert_ne. }
    split; [done|]. split; [by apply Hkeeps|]. intros key _ _. apply Hkeeps.
  - cbn [List.filter List.app]. rewrite ?app_nil_r.
    bind_ok Hok d Hd. injection Hok as <- <-.
    split; [done|]. split; [apply update_summary|]. by exists d.
  - cbn [List.filter List.app]. rewrite ?app_nil_r.
    injection Hok as <- <-. split; [done|].
    split; [by rewrite lookup_insert_ne|].
    intros key Hkey _ _. by rewrite lookup_insert_ne.
  - revert Hok. destruct (contains "Example" title); intros Hok.
    + cbn [List.filter List.app]. rewrite ?app_nil_r.
      injection Hok as <- <-.
      split; [done|]. split; [by rewrite lookup_insert_ne|].
      intros key _ Hkey _. by rewrite lookup_insert_ne.
    + cbn [List.app]. rewrite ?app_nil_r.
      apply Hplain in Hok as [-> ->]. done.
  - cbn [List.app]. rewrite ?app_nil_r.
    apply Hplain in Hok as [-> ->]. done.
Qed.

(** The children, from any state. *)
Lemma add_children_ok (is_enum : bool) (children : list (child node))
    (summary summary' : list string)
    (block block' : gmap string field_value) :
  for_each (add_child is_enum) children (summary, block)
  = Ok (summary', block') →
  summary'
  = summary ++ List.filter (fun content =>
                              negb (String.prefix "Bases: " content))
                           (plain_texts children)
  ∧ block' !! "summary" = block !! "summary"
  ∧ (forallb (fun c => negb (is_field_list c)) children = true →
     ∀ key, key ≠ "seealso" → key ≠ "example" → key ≠ "added_attribute" →
            block' !! key = block !! key).
Proof.
  revert summary block.
  induction children as [|c children IH]; intros summary block.
  - intros [= <- <-]. by rewrite app_nil_r.
  - cbn [for_each]. intros Hok. bind_ok Hok state1 H1.
    destruct state1 as [summary1 block1].
    apply add_child_ok in H1 as (Hs1 & Hb1 & Hc1).
    apply IH in Hok as (Hs & Hb & Hc).
    unfold plain_texts in *. cbn [map concat] in *.
    rewrite app_nil_r in Hs1.
    rewrite Hs, Hs1, Hb, Hb1, List.filter_app, <- app_assoc.
    split; [done|]. split; [done|].
    cbn [forallb]. intros Hnone key K1 K2 K3.
    apply andb_true_iff in Hnone as [Hhere Hnone].
    rewrite (Hc Hnone key K1 K2 K3).
    destruct c; try done; by apply Hc1.
Qed.

End children_of_a_node_facts.

(** X18. The summary that [transform_all] stores is made of the
    rendered texts of the children that are no description, no field
    list, no see-also and no admonition titled with "Example", without
    the texts that start with "Bases: ", one per line and in order; when
    that text is empty no summary is stored. *)
Theorem summary_skips_bases {node : Type} `{RichText node}
    (is_enum : bool) (uid : option string) (children : list (child node))
    (docfx_info_field_data data' : gmap (option string)
                                        (gmap string field_value)) :
  transform_all is_enum uid children docfx_info_field_data = Ok data' →
  ∃ stored,
    data' !! uid = Some stored
    ∧ stored !! "summary"
      = (if truthy (summary_text children)
         then Some (v_text (summary_text children)) else None).
Proof.
  unfold transform_all. intros Hok. bind_ok Hok state Hloop.
  destruct state as [summary block]. injection Hok as <-.
  eexists. split; [apply lookup_insert_eq|].
  apply add_children_ok in Hloop as (Hsummary & Hblock & _).
  rewrite lookup_empty in Hblock. cbn [List.app] in Hsummary.
  rewrite drop_empty_lookup. unfold summary_text. rewrite <- Hsummary.
  destruct summary as [|content summary].
  - by rewrite Hblock.
  - by rewrite lookup_insert_eq.
Qed.

Lemma summary_skips_bases_witness :
  let children :=
    [other "Bases: object"; other "A colour.";
     admonition "Example" "Example" "use it"; seealso "Shade";
     admonition "Note" "Mind the gap." "the gap"] in
  ∃ stored,
    returned ∅ (transform_all (node := string) false (Some "pkg.Color")
                  children ∅) !! Some "pkg.Color" = Some stored
    ∧ stored !! "summary"
      = Some (v_text ("A colour." +:+ String newline "Mind the gap.")).
Proof.
  intros children.
  destruct (summary_skips_bases (node := string) false (Some "pkg.Color")
              children ∅
              (returned ∅ (transform_all (node := string) false
                             (Some "pkg.Color") children ∅)))
    as (stored & Hstored & Hsummary); [by vm_compute|].
  exists stored. split; [done|]. rewrite Hsummary. by vm_compute.
Defined.

(** X19. Of the field lists among the children of a node, the last one
    alone decides the parameters, the variables, the exceptions and the
    return of the stored block: each of the four keys holds what the
    last field list gave, or is absent when that is empty, whatever an
    earlier field list had given. *)
Theorem last_field_list_wins {node : Type} `{RichText node}
    (is_enum : bool) (uid : option string)
    (before after : list (child node)) (entries : list (entry node))
    (types : gmap string (gmap string (list node)))
    (field_object : list raw_field)
    (docfx_info_field_data data' : gmap (option string)
                                        (gmap string field_value)) :
  transform_all is_enum uid
    (before ++ field_list entries types field_object :: after)
    docfx_info_field_data = Ok data' →
  forallb (fun c => negb (is_field_list c)) after = true →
  ∃ d stored,
    get_data_structure entries types field_object = Ok d
    ∧ data' !! uid = Some stored
    ∧ ∀ key value,
        (key, value) ∈ field_values d →
        stored !! key = (if is_true value then Some value else None).
Proof.
  unfold transform_all. intros Hok Hafter. bind_ok Hok state Hloop.
  destruct state as [summary block]. injection Hok as <-.
  rewrite for_each_app in Hloop. bind_ok Hloop state0 Hbefore.
  destruct state0 as [summary0 block0]. cbn [for_each] in Hloop.
  bind_ok Hloop state1 Hlist. destruct state1 as [summary1 block1].
  apply add_child_ok in Hlist as (_ & _ & d & Hd & ->).
  apply add_children_ok in Hloop as (_ & _ & Hkeeps).
  exists d. eexists. split; [done|]. split; [apply lookup_insert_eq|].
  intros key value Hkey.
  destruct (field_values_keys d key value Hkey) as (K0 & K1 & K2 & K3).
  rewrite drop_empty_lookup.
  assert (Hblock : block !! key = Some value).
  { rewrite (Hkeeps Hafter key K1 K2 K3). by apply update_lookup. }
  destruct summary as [|content summary].
  - by rewrite Hblock.
  - rewrite lookup_insert_ne by done. by rewrite Hblock.
Qed.

Lemma last_field_list_wins_witness :
  let first_list :=
    field_list [field_entry "parameter" (grouped [("x", ["the x"])])] ∅ [] in
  let second_list :=
    field_list [returnvalue_entry "a value"] ∅ [] in
  returned ∅ (transform_all (node := string) false (Some "pkg.f")
                [first_list; other "Does it."; second_list; seealso "g"] ∅)
  = {[ Some "pkg.f" :=
         {[ "summary" := v_text "Does it.";
            "seealso" := v_text "g";
            "return" := v_return (ReturnDesc None (Some "a value")) ]} ]}.
Proof.
  intros first_list second_list.
  destruct (last_field_list_wins (node := string) false (Some "pkg.f")
              [first_list; other "Does it."] [seealso "g"]
              [returnvalue_entry "a value"] ∅ [] ∅
              (returned ∅ (transform_all (node := string) false
                             (Some "pkg.f")
                             [first_list; other "Does it."; second_list;
                              seealso "g"] ∅)))
    as (d & stored & Hd & Hstored & Hkeys); [by vm_compute|done|].
  by vm_compute.
Defined.
